(** * Verification of the mdBook summary generator

    A shallow embedding of [scripts/generate_summary.py] and the properties
    of its table-of-contents builder.

    Conventions of the embedding.
    - Text is a [string] of bytes.  Python compares strings by code point,
      which for UTF-8 text is the byte-wise order used here.  Case mapping
      ([str.title]) is modelled on ASCII letters; other bytes are uncased.
    - A [Path] is the list of segments of an absolute, already resolved
      path ([Path(book_root).resolve()] has been applied by the caller).
    - The filesystem is a tree of [node]s; a directory keeps its entries
      in the order in which the operating system would list them.
    - An exception that the source does not catch is a [Raise] result; the
      filesystem is threaded explicitly so that a failed run can be
      compared with the state it started from.
    - The failures of the operating system that are modelled are the ones
      that the shape of the tree decides: a path that is missing, a file
      where a directory is needed, a directory where a file is needed, a
      file that cannot be read or decoded.  Every directory of the tree
      can be listed and searched, there are no symbolic links, and the
      device does not fail while a file is written.
    - Text is encoded when it is written: a line that is not well-formed
      UTF-8 stands for a Python string with lone surrogates (a file name
      with undecodable bytes), and writing it raises
      [UnicodeEncodeError] after the file has been truncated. *)

From Stdlib Require Import Bool List String Ascii.
From Stdlib Require Import Sorting.Sorted Sorting.Permutation.
From Stdlib Require Import NArith ZArith Lia.
From Stdlib Require Import DecimalString DecimalN.
Import ListNotations.

Open Scope string_scope.
Open Scope list_scope.

(** String concatenation, kept apart from the append of lists. *)
Infix "+++" := String.append (right associativity, at level 60).

(* ================================================================== *)
(** ** Python string operations used by the script *)

Module PyStr.

Definition nl : ascii := "010"%char.
Definition NL : string := String nl "".

Definition is_lower (c : ascii) : bool :=
  (Ascii.leb "a" c && Ascii.leb c "z")%char.

Definition is_upper (c : ascii) : bool :=
  (Ascii.leb "A" c && Ascii.leb c "Z")%char.

Definition is_cased (c : ascii) : bool := is_lower c || is_upper c.

Definition to_upper (c : ascii) : ascii :=
  if is_lower c then ascii_of_nat (nat_of_ascii c - 32) else c.

Definition to_lower (c : ascii) : ascii :=
  if is_upper c then ascii_of_nat (nat_of_ascii c + 32) else c.

(** [s.replace(a, b)] for one-character [a] and [b]. *)
Fixpoint replace (a b : ascii) (s : string) : string :=
  match s with
  | EmptyString => EmptyString
  | String c s' => String (if Ascii.eqb c a then b else c) (replace a b s')
  end.

(** [s.title()]: a cased character is upper-cased when the character
    before it is not cased, and lower-cased otherwise. *)
Fixpoint title_from (previous_is_cased : bool) (s : string) : string :=
  match s with
  | EmptyString => EmptyString
  | String c s' =>
      String (if previous_is_cased then to_lower c else to_upper c)
             (title_from (is_cased c) s')
  end.

Definition title (s : string) : string := title_from false s.

(** [s.strip()] on ASCII white space, used only to state what trimming
    would give. *)
Definition is_space (c : ascii) : bool :=
  let n := nat_of_ascii c in
  Nat.eqb n 32 || (Nat.leb 9 n && Nat.leb n 13) || (Nat.leb 28 n && Nat.leb n 31).

Fixpoint lstrip (s : string) : string :=
  match s with
  | String c s' => if is_space c then lstrip s' else s
  | EmptyString => EmptyString
  end.

Fixpoint rstrip (s : string) : string :=
  match s with
  | EmptyString => EmptyString
  | String c s' =>
      match rstrip s' with
      | EmptyString => if is_space c then EmptyString else String c EmptyString
      | r => String c r
      end
  end.

Definition strip (s : string) : string := rstrip (lstrip s).

(** [s.endswith(suffix)]. *)
Fixpoint ends_with (suffix s : string) : bool :=
  String.eqb s suffix ||
  match s with
  | EmptyString => false
  | String _ s' => ends_with suffix s'
  end.

(** The lines of a text, split at every newline character. *)
Fixpoint lines (s : string) : list string :=
  match s with
  | EmptyString => [EmptyString]
  | String c s' =>
      if Ascii.eqb c nl then EmptyString :: lines s'
      else match lines s' with
           | l :: ls => String c l :: ls
           | [] => [String c EmptyString]
           end
  end.

Definition has_newline (s : string) : bool :=
  existsb (Ascii.eqb nl) (list_ascii_of_string s).

(** [os.path.splitext(name)[0]] for a name without separator: the part
    before the last dot, unless only dots precede that dot. *)
Fixpoint all_dots (s : string) : bool :=
  match s with
  | EmptyString => true
  | String c s' => Ascii.eqb c "." && all_dots s'
  end.

(** [split_last_dot s] is [Some (before, after)] around the last dot. *)
Fixpoint split_last_dot (s : string) : option (string * string) :=
  match s with
  | EmptyString => None
  | String c s' =>
      match split_last_dot s' with
      | Some (b, a) => Some (String c b, a)
      | None => if Ascii.eqb c "." then Some (EmptyString, s') else None
      end
  end.

Definition splitext_root (name : string) : string :=
  match split_last_dot name with
  | Some (before, _) => if all_dots before then name else before
  | None => name
  end.

(** [s.encode('utf-8')] does not raise.  A name that the operating system
    hands out is decoded with [surrogateescape]: the bytes that are not
    well-formed UTF-8 become lone surrogates, which the encoder of a file
    opened with [encoding='utf-8'] refuses.  So a text can be written
    exactly when its bytes are well-formed UTF-8.  [utf8_from pending lo
    hi] reads a text of which [pending] continuation bytes are still due,
    the next of them between [lo] and [hi]. *)
Fixpoint utf8_from (pending lo hi : nat) (s : string) : bool :=
  match s with
  | EmptyString => Nat.eqb pending 0
  | String c s' =>
      let n := nat_of_ascii c in
      match pending with
      | 0 =>
          if Nat.ltb n 128 then utf8_from 0 0 0 s'
          else if Nat.leb 194 n && Nat.leb n 223 then utf8_from 1 128 191 s'
          else if Nat.eqb n 224 then utf8_from 2 160 191 s'
          else if (Nat.leb 225 n && Nat.leb n 236)
                  || (Nat.leb 238 n && Nat.leb n 239) then utf8_from 2 128 191 s'
          else if Nat.eqb n 237 then utf8_from 2 128 159 s'
          else if Nat.eqb n 240 then utf8_from 3 144 191 s'
          else if Nat.leb 241 n && Nat.leb n 243 then utf8_from 3 128 191 s'
          else if Nat.eqb n 244 then utf8_from 3 128 143 s'
          else false
      | S pending' =>
          if Nat.leb lo n && Nat.leb n hi then utf8_from pending' 128 191 s'
          else false
      end
  end.

Definition encodable (s : string) : bool := utf8_from 0 0 0 s.

End PyStr.

(* ================================================================== *)
(** ** Exceptions *)

Inductive exn : Type :=
| ReError (pattern : string)   (* re.error: the pattern does not compile *)
| OSError                      (* open() failed: nothing was created *)
| ValueError                   (* relative_to() on a path outside the base *)
| UnicodeEncodeError.          (* write() of a text that cannot be encoded *)

Inductive result (A : Type) : Type :=
| Ok (a : A)
| Raise (e : exn).

Arguments Ok {A} a.
Arguments Raise {A} e.

Definition bind {A B : Type} (m : result A) (k : A -> result B) : result B :=
  match m with
  | Ok a => k a
  | Raise e => Raise e
  end.

Notation "x <- m ;; k" := (bind m (fun x => k))
  (at level 61, m at next level, right associativity).

Fixpoint mapM {A B : Type} (f : A -> result B) (l : list A) : result (list B) :=
  match l with
  | [] => Ok []
  | x :: l' => y <- f x ;; ys <- mapM f l' ;; Ok (y :: ys)
  end.

(** A list comprehension [[x for x in l if cond(x)]] whose condition may
    raise. *)
Fixpoint filterM {A : Type} (cond : A -> result bool) (l : list A)
  : result (list A) :=
  match l with
  | [] => Ok []
  | x :: l' =>
      b <- cond x ;; xs <- filterM cond l' ;; Ok (if b then x :: xs else xs)
  end.

(* ================================================================== *)
(** ** Paths and the filesystem *)

Definition Path : Type := list string.

(** [path.name]: the last segment. *)
Definition name (p : Path) : string := last p "".

(** [str(path)] of an absolute path. *)
Definition str (p : Path) : string :=
  match p with
  | [] => "/"
  | _ => String.concat "" (map (fun seg => "/" +++ seg) p)
  end.

(** [str(path)] of a relative path, as [relative_to] returns it. *)
Definition str_rel (p : Path) : string :=
  match p with
  | [] => "."
  | _ => String.concat "/" p
  end.

(** [path.relative_to(base)]. *)
Fixpoint relative_to (p base : Path) : result Path :=
  match base, p with
  | [], _ => Ok p
  | b :: base', a :: p' =>
      if String.eqb a b then relative_to p' base' else Raise ValueError
  | _ :: _, [] => Raise ValueError
  end.

(** [p < q] on paths: Python compares the lists of segments. *)
Fixpoint path_ltb (p q : Path) : bool :=
  match p, q with
  | [], [] => false
  | [], _ :: _ => true
  | _ :: _, [] => false
  | a :: p', b :: q' =>
      match String.compare a b with
      | Lt => true
      | Gt => false
      | Eq => path_ltb p' q'
      end
  end.

(** [path_le p q]: [q] is not before [p]. *)
Definition path_le (p q : Path) : Prop := path_ltb q p = false.

(** [sorted(l)]: a stable sort that only asks [<]. *)
Fixpoint insert_sorted (x : Path) (l : list Path) : list Path :=
  match l with
  | [] => [x]
  | y :: l' => if path_ltb y x then y :: insert_sorted x l' else x :: l
  end.

Fixpoint sorted (l : list Path) : list Path :=
  match l with
  | [] => []
  | x :: l' => insert_sorted x (sorted l')
  end.

#[local] Set Warnings "-register-all".

(** A file holds the text that [f.read()] returns in text mode, or [None]
    when reading raises (undecodable bytes, I/O failure).  A directory
    lists its entries in the order of the operating system. *)
Inductive node : Type :=
| File (data : option string)
| Dir (entries : list (string * node)).

Fixpoint child (seg : string) (es : list (string * node)) : option node :=
  match es with
  | [] => None
  | (n, c) :: es' => if String.eqb n seg then Some c else child seg es'
  end.

Fixpoint lookup (fs : node) (p : Path) : option node :=
  match p with
  | [] => Some fs
  | seg :: p' =>
      match fs with
      | Dir es =>
          match child seg es with
          | Some c => lookup c p'
          | None => None
          end
      | File _ => None
      end
  end.

(** [path.exists()]. *)
Definition path_exists (fs : node) (p : Path) : bool :=
  match lookup fs p with
  | Some _ => true
  | None => false
  end.

(** [path.is_dir()]. *)
Definition is_dir (fs : node) (p : Path) : bool :=
  match lookup fs p with
  | Some (Dir _) => true
  | _ => false
  end.

(** [path.iterdir()], of a directory that can be listed; it raises when
    [path] is missing or is a file. *)
Definition iterdir (fs : node) (p : Path) : result (list Path) :=
  match lookup fs p with
  | Some (Dir es) => Ok (map (fun e => p ++ [fst e]) es)
  | _ => Raise OSError
  end.

(** [path.glob('*.md')]: the entries of the directory, files or not, whose
    name ends in [.md]; nothing when [path] is not a directory. *)
Definition glob_md (fs : node) (p : Path) : list Path :=
  match lookup fs p with
  | Some (Dir es) =>
      filter (fun q => PyStr.ends_with ".md" (name q))
             (map (fun e => p ++ [fst e]) es)
  | _ => []
  end.

(** [open(path, 'r', encoding='utf-8').read()]; [None] when it raises. *)
Definition read_text (fs : node) (p : Path) : option string :=
  match lookup fs p with
  | Some (File (Some content)) => Some content
  | _ => None
  end.

Fixpoint replace_child (seg : string) (c' : node) (es : list (string * node))
  : list (string * node) :=
  match es with
  | [] => []
  | (n, c) :: es' =>
      if String.eqb n seg then (n, c') :: es'
      else (n, c) :: replace_child seg c' es'
  end.

(** [open(path, 'w', encoding='utf-8')], and [data] for the text that the
    file holds when it is closed: the file is created in an existing
    directory or truncated, and then holds [data].  [None] when [open]
    raises: a parent is missing or is a file, or [path] is a directory. *)
Fixpoint write_file (fs : node) (p : Path) (data : string) : option node :=
  match p with
  | [] =>
      match fs with
      | File _ => Some (File (Some data))
      | Dir _ => None
      end
  | seg :: p' =>
      match fs with
      | File _ => None
      | Dir es =>
          match child seg es with
          | Some c =>
              match write_file c p' data with
              | Some c' => Some (Dir (replace_child seg c' es))
              | None => None
              end
          | None =>
              match p' with
              | [] => Some (Dir (es ++ [(seg, File (Some data))]))
              | _ :: _ => None
              end
          end
      end
  end.

(* ================================================================== *)
(** ** Regular expressions

    The exclusion patterns are supplied by the caller and interpreted by
    Python's [re] module.  The script is verified against any engine: a
    pattern either compiles or raises [re.error], and a compiled pattern
    either is found somewhere in a string or is not. *)

Class RegexEngine : Type := {
  compiled : Type;
  re_compile : string -> option compiled;
  re_found : compiled -> string -> bool
}.

Section Script.

Context {engine : RegexEngine}.

(** [bool(re.search(pattern, s))]. *)
Definition re_search (pattern s : string) : result bool :=
  match re_compile pattern with
  | Some r => Ok (re_found r s)
  | None => Raise (ReError pattern)
  end.

(* ---------------------------------------------------------------- *)
(** *** extract_title *)

(** [re.search(r'^# (.+)$', content, re.MULTILINE)] and [match.group(1)].
    With MULTILINE, [^] and [$] delimit the lines between newline
    characters and [.] is any character but a newline, so the leftmost
    match is the first line made of a hash, a space and at least one more
    character, and group 1 is the rest of that line. *)
Definition heading_of_line (l : string) : option string :=
  match l with
  | String "#" (String " " (String c t)) => Some (String c t)
  | _ => None
  end.

Fixpoint first_heading (ls : list string) : option string :=
  match ls with
  | [] => None
  | l :: ls' =>
      match heading_of_line l with
      | Some t => Some t
      | None => first_heading ls'
      end
  end.

Definition search_heading (content : string) : option string :=
  first_heading (PyStr.lines content).

(** [os.path.splitext(os.path.basename(file_path))[0]
      .replace('-', ' ').title()] *)
Definition filename_title (file_path : Path) : string :=
  PyStr.title (PyStr.replace "-" " " (PyStr.splitext_root (name file_path))).

(** The [try] body returns the heading or the title of the file name; the
    [except Exception] handler returns the title of the file name. *)
Definition extract_title (fs : node) (file_path : Path) : string :=
  match read_text fs file_path with
  | Some content =>
      match search_heading content with
      | Some heading => heading
      | None => filename_title file_path
      end
  | None => filename_title file_path
  end.

(* ---------------------------------------------------------------- *)
(** *** is_excluded *)

Fixpoint is_excluded (path : Path) (exclude_patterns : list string)
  : result bool :=
  match exclude_patterns with
  | [] => Ok false
  | pattern :: rest =>
      found <- re_search pattern (str path) ;;
      if found then Ok true else is_excluded path rest
  end.

(* ---------------------------------------------------------------- *)
(** *** generate_summary *)

Definition default_exclude : list string :=
  ["/\."; "/_"; "node_modules"; "book$"; "SUMMARY\.md$"].

(** [if exclude is None: exclude = [...]] *)
Definition effective_exclude (exclude : option (list string)) : list string :=
  match exclude with
  | None => default_exclude
  | Some l => l
  end.

Definition header : string := "# Summary" +++ PyStr.NL +++ PyStr.NL.

(** One iteration of [for section_file in section_files] and of
    [for md_file in md_files] inside a chapter. *)
Definition section_line (fs : node) (book_root section_file : Path)
  : result string :=
  let section_title := extract_title fs section_file in
  section_path <- relative_to section_file book_root ;;
  Ok ("  * [" +++ section_title +++ "](" +++ str_rel section_path +++ ")" +++ PyStr.NL).

(** One iteration of [for chapter_dir in chapter_dirs]: the lines it
    appends to [content]. *)
Definition chapter_lines (fs : node) (book_root : Path) (exclude : list string)
  (chapter_dir : Path) : result (list string) :=
  let chapter_readme := chapter_dir ++ ["README.md"] in
  if path_exists fs chapter_readme then
    let chapter_title := extract_title fs chapter_readme in
    chapter_path <- relative_to chapter_readme book_root ;;
    section_files <-
      filterM (fun f => if String.eqb (name f) "README.md" then Ok false
                        else x <- is_excluded f exclude ;; Ok (negb x))
              (glob_md fs chapter_dir) ;;
    sections <- mapM (section_line fs book_root) (sorted section_files) ;;
    Ok (("* [" +++ chapter_title +++ "](" +++ str_rel chapter_path +++ ")" +++ PyStr.NL)
          :: sections)
  else
    md_files <-
      filterM (fun f => x <- is_excluded f exclude ;; Ok (negb x))
              (glob_md fs chapter_dir) ;;
    match sorted md_files with
    | [] => Ok []
    | md_files =>
        let chapter_title :=
          PyStr.title (PyStr.replace "-" " " (name chapter_dir)) in
        sections <- mapM (section_line fs book_root) md_files ;;
        Ok (("* [" +++ chapter_title +++ "]" +++ PyStr.NL) :: sections)
    end.

(** One iteration of [for md_file in md_files] in a book without
    chapters. *)
Definition root_line (fs : node) (book_root md_file : Path) : result string :=
  let title := extract_title fs md_file in
  path <- relative_to md_file book_root ;;
  Ok ("* [" +++ title +++ "](" +++ str_rel path +++ ")" +++ PyStr.NL).

(** The list [content] when control reaches the [with open] statement. *)
Definition summary_content (fs : node) (book_root : Path)
  (exclude : list string) : result (list string) :=
  let chapters_dir := book_root ++ ["chapters"] in
  let readme_path := book_root ++ ["README.md"] in
  let intro :=
    if path_exists fs readme_path
    then ["* [" +++ extract_title fs readme_path +++ "](README.md)" +++ PyStr.NL]
    else [] in
  if path_exists fs chapters_dir && is_dir fs chapters_dir then
    ds <- iterdir fs chapters_dir ;;
    chapter_dirs <-
      filterM (fun d => if is_dir fs d
                        then x <- is_excluded d exclude ;; Ok (negb x)
                        else Ok false) ds ;;
    chapters <- mapM (chapter_lines fs book_root exclude) (sorted chapter_dirs) ;;
    Ok ([header] ++ intro ++ List.concat chapters)
  else
    md_files <-
      filterM (fun f => if String.eqb (name f) "README.md" then Ok false
                        else if String.eqb (name f) "SUMMARY.md" then Ok false
                        else x <- is_excluded f exclude ;; Ok (negb x))
              (glob_md fs book_root) ;;
    ls <- mapM (root_line fs book_root) (sorted md_files) ;;
    Ok ([header] ++ intro ++ ls).

(** The lines that [f.writelines(content)] gets into the file: each line
    is encoded when it is written, so the first line that cannot be
    encoded stops the loop and the lines before it stay. *)
Fixpoint encodable_prefix (content : list string) : list string :=
  match content with
  | [] => []
  | line :: content' =>
      if PyStr.encodable line then line :: encodable_prefix content' else []
  end.

(** [with open(output_file, 'w', encoding='utf-8') as f:
       f.writelines(content)].
    When [open] raises nothing has changed.  Otherwise the file is created
    or truncated, the lines are written in turn, and the [with] statement
    closes the file, also when a line raised [UnicodeEncodeError]. *)
Definition writelines (fs : node) (output_file : Path) (content : list string)
  : node * result unit :=
  match write_file fs output_file (String.concat "" (encodable_prefix content)) with
  | None => (fs, Raise OSError)
  | Some fs' =>
      (fs', if forallb PyStr.encodable content then Ok tt
            else Raise UnicodeEncodeError)
  end.

(** [generate_summary(book_root, output_file, exclude)].  The result pairs
    the filesystem after the call with the returned [content] or the
    exception that left the function.  The fourth parameter of the source,
    [indent_level], is never read. *)
Definition generate_summary (fs : node) (book_root output_file : Path)
  (exclude : option (list string)) : node * result (list string) :=
  let exclude := effective_exclude exclude in
  match summary_content fs book_root exclude with
  | Raise e => (fs, Raise e)
  | Ok content =>
      match writelines fs output_file content with
      | (fs', Ok _) => (fs', Ok content)
      | (fs', Raise e) => (fs', Raise e)
      end
  end.

(* ---------------------------------------------------------------- *)
(** *** The entries behind the lines

    The data model of the specification: an [Entry] is one line item of
    the table of contents.  [summary_entries] follows [summary_content]
    step by step and records, instead of each formatted line, the title,
    the link target relative to the book root ([None] for the unlinked
    heading of a chapter without README) and the depth. *)

Record Entry : Type := mkEntry {
  title : string;
  target : option Path;
  depth : nat
}.

Fixpoint indent (d : nat) : string :=
  match d with
  | 0 => ""
  | S d' => "  " +++ indent d'
  end.

Definition render (e : Entry) : string :=
  indent (depth e) +++ "* [" +++ title e +++ "]" +++
  match target e with
  | Some p => "(" +++ str_rel p +++ ")" +++ PyStr.NL
  | None => PyStr.NL
  end.

Definition file_entry (fs : node) (book_root : Path) (d : nat) (file : Path)
  : result Entry :=
  rel <- relative_to file book_root ;;
  Ok (mkEntry (extract_title fs file) (Some rel) d).

(** The condition of the comprehension over [chapters_dir.iterdir()]. *)
Definition keep_chapter (fs : node) (exclude : list string) (d : Path)
  : result bool :=
  if is_dir fs d then x <- is_excluded d exclude ;; Ok (negb x) else Ok false.

(** The condition of the comprehension when the chapter has a README. *)
Definition keep_section (exclude : list string) (f : Path) : result bool :=
  if String.eqb (name f) "README.md" then Ok false
  else x <- is_excluded f exclude ;; Ok (negb x).

(** The condition of the comprehension when the chapter has no README. *)
Definition keep_md (exclude : list string) (f : Path) : result bool :=
  x <- is_excluded f exclude ;; Ok (negb x).

(** The condition of the comprehension over the files of the root. *)
Definition keep_root (exclude : list string) (f : Path) : result bool :=
  if String.eqb (name f) "README.md" then Ok false
  else if String.eqb (name f) "SUMMARY.md" then Ok false
  else x <- is_excluded f exclude ;; Ok (negb x).

Definition chapter_entries (fs : node) (book_root : Path)
  (exclude : list string) (chapter_dir : Path) : result (list Entry) :=
  let chapter_readme := chapter_dir ++ ["README.md"] in
  if path_exists fs chapter_readme then
    chapter <- file_entry fs book_root 0 chapter_readme ;;
    section_files <- filterM (keep_section exclude) (glob_md fs chapter_dir) ;;
    sections <- mapM (file_entry fs book_root 1) (sorted section_files) ;;
    Ok (chapter :: sections)
  else
    md_files <- filterM (keep_md exclude) (glob_md fs chapter_dir) ;;
    match sorted md_files with
    | [] => Ok []
    | md_files =>
        let chapter_title :=
          PyStr.title (PyStr.replace "-" " " (name chapter_dir)) in
        sections <- mapM (file_entry fs book_root 1) md_files ;;
        Ok (mkEntry chapter_title None 0 :: sections)
    end.

Definition intro_entries (fs : node) (book_root : Path) : list Entry :=
  let readme_path := book_root ++ ["README.md"] in
  if path_exists fs readme_path
  then [mkEntry (extract_title fs readme_path) (Some ["README.md"]) 0]
  else [].

(** The chapter directories in the order of the [for] loop. *)
Definition chapter_dirs (fs : node) (book_root : Path) (exclude : list string)
  : result (list Path) :=
  ds <- iterdir fs (book_root ++ ["chapters"]) ;;
  kept <- filterM (keep_chapter fs exclude) ds ;;
  Ok (sorted kept).

(** The files of the root in the order of the [for] loop of a book
    without chapters. *)
Definition root_files (fs : node) (book_root : Path) (exclude : list string)
  : result (list Path) :=
  kept <- filterM (keep_root exclude) (glob_md fs book_root) ;;
  Ok (sorted kept).

Definition summary_entries (fs : node) (book_root : Path)
  (exclude : list string) : result (list Entry) :=
  let chapters_dir := book_root ++ ["chapters"] in
  if path_exists fs chapters_dir && is_dir fs chapters_dir then
    ds <- chapter_dirs fs book_root exclude ;;
    chapters <- mapM (chapter_entries fs book_root exclude) ds ;;
    Ok (intro_entries fs book_root ++ List.concat chapters)
  else
    files <- root_files fs book_root exclude ;;
    es <- mapM (file_entry fs book_root 0) files ;;
    Ok (intro_entries fs book_root ++ es).


End Script.

(* ================================================================== *)
(** ** A regular-expression engine for the examples

    An executable engine for a fragment of the pattern language of [re]:
    literal characters, [.], [^], [$], a backslash before a character that
    is not an ASCII letter or digit, groups in plain parentheses,
    alternation and the quantifiers [*], [+], [?] with their lazy forms.
    On this fragment it decides, as [re.search] does without flags,
    whether the pattern is found.  Character classes, counted repetition,
    [(?...)] groups, backslash-letter escapes and possessive quantifiers
    are outside the fragment and the engine rejects them; the general
    theorems do not depend on this engine, only the worked examples do,
    and these use patterns of the fragment. *)

Module MiniRe.

Inductive regex : Type :=
| Eps
| Lit (c : ascii)
| AnyChar
| Bol
| Eol
| Cat (r1 r2 : regex)
| Alt (r1 r2 : regex)
| Star (r : regex).

Definition is_quantifier (c : ascii) : bool :=
  (Ascii.eqb c "*" || Ascii.eqb c "+" || Ascii.eqb c "?")%char.

Definition is_alnum (c : ascii) : bool :=
  PyStr.is_cased c || (Ascii.leb "0" c && Ascii.leb c "9")%char.

(** The quantifiers after an atom; [repeatable] is false for [^] and [$]. *)
Definition quantify (r : regex) (repeatable : bool) (s : list ascii)
  : option (regex * list ascii) :=
  match s with
  | q :: s' =>
      if is_quantifier q then
        if repeatable then
          let r' := if Ascii.eqb q "*" then Star r
                    else if Ascii.eqb q "+" then Cat r (Star r)
                    else Alt r Eps in
          let s'' := match s' with
                     | l :: t => if Ascii.eqb l "?" then t else s'
                     | [] => s'
                     end in
          match s'' with
          | q2 :: _ => if is_quantifier q2 then None else Some (r', s'')
          | [] => Some (r', s'')
          end
        else None
      else Some (r, s)
  | [] => Some (r, s)
  end.

Fixpoint parse_alt (fuel : nat) (s : list ascii) : option (regex * list ascii) :=
  match fuel with
  | 0 => None
  | S fuel' =>
      match parse_seq fuel' s with
      | Some (r1, c :: s') =>
          if Ascii.eqb c "|" then
            match parse_alt fuel' s' with
            | Some (r2, s'') => Some (Alt r1 r2, s'')
            | None => None
            end
          else Some (r1, c :: s')
      | other => other
      end
  end
with parse_seq (fuel : nat) (s : list ascii) : option (regex * list ascii) :=
  match fuel with
  | 0 => None
  | S fuel' =>
      match s with
      | [] => Some (Eps, s)
      | c :: _ =>
          if (Ascii.eqb c "|" || Ascii.eqb c ")")%char then Some (Eps, s)
          else
            match parse_atom fuel' s with
            | Some (r1, s') =>
                match parse_seq fuel' s' with
                | Some (r2, s'') => Some (Cat r1 r2, s'')
                | None => None
                end
            | None => None
            end
      end
  end
with parse_atom (fuel : nat) (s : list ascii) : option (regex * list ascii) :=
  match fuel with
  | 0 => None
  | S fuel' =>
      match s with
      | [] => None
      | c :: s' =>
          if Ascii.eqb c "(" then
            match s' with
            | "?"%char :: _ => None
            | _ =>
                match parse_alt fuel' s' with
                | Some (r, c' :: s'') =>
                    if Ascii.eqb c' ")" then quantify r true s'' else None
                | _ => None
                end
            end
          else if Ascii.eqb c "\" then
            match s' with
            | e :: s'' => if is_alnum e then None else quantify (Lit e) true s''
            | [] => None
            end
          else if Ascii.eqb c "." then quantify AnyChar true s'
          else if Ascii.eqb c "^" then quantify Bol false s'
          else if Ascii.eqb c "$" then quantify Eol false s'
          else if (is_quantifier c || Ascii.eqb c "[" || Ascii.eqb c "{")%char
               then None
          else quantify (Lit c) true s'
      end
  end.

Definition parse (pattern : string) : option regex :=
  let s := list_ascii_of_string pattern in
  match parse_alt (4 * List.length s + 8) s with
  | Some (r, []) => Some r
  | _ => None
  end.

(** [accepts r start s k]: [r] matches a prefix of [s] after which [k]
    accepts; [start] tells that [s] is the whole subject. *)
Fixpoint accepts (r : regex) (start : bool) (s : list ascii)
  (k : bool -> list ascii -> bool) {struct r} : bool :=
  match r with
  | Eps => k start s
  | Lit c =>
      match s with
      | x :: s' => Ascii.eqb x c && k false s'
      | [] => false
      end
  | AnyChar =>
      match s with
      | x :: s' => negb (Ascii.eqb x PyStr.nl) && k false s'
      | [] => false
      end
  | Bol => start && k start s
  | Eol =>
      match s with
      | [] => k start s
      | [x] => Ascii.eqb x PyStr.nl && k start s
      | _ => false
      end
  | Cat r1 r2 => accepts r1 start s (fun b s' => accepts r2 b s' k)
  | Alt r1 r2 => accepts r1 start s k || accepts r2 start s k
  | Star r' =>
      (fix loop (fuel : nat) (b : bool) (t : list ascii) {struct fuel} : bool :=
         k b t ||
         match fuel with
         | 0 => false
         | S fuel' =>
             accepts r' b t
               (fun b' t' => Nat.ltb (List.length t') (List.length t) && loop fuel' b' t')
         end) (List.length s) start s
  end.

Fixpoint found_from (r : regex) (start : bool) (s : list ascii) : bool :=
  accepts r start s (fun _ _ => true) ||
  match s with
  | [] => false
  | _ :: s' => found_from r false s'
  end.

Definition found (r : regex) (s : string) : bool :=
  found_from r true (list_ascii_of_string s).

End MiniRe.

Definition mini_engine : RegexEngine := {|
  compiled := MiniRe.regex;
  re_compile := MiniRe.parse;
  re_found := MiniRe.found
|}.

(* ================================================================== *)
(** ** What the specification says where the script differs *)

(** A text made of the lines [before], then the heading [# text], then
    [after]. *)
Definition with_heading (before : list string) (text after : string) : string :=
  String.concat "" (map (fun l => l +++ PyStr.NL) before) +++ "# " +++ text +++ after.

(** A line of the form [# text] with some text. *)
Definition is_heading_line (l : string) : Prop :=
  exists t, t <> "" /\ l = "# " +++ t.

(** The stated behaviour of the title extractor on a heading: the text of
    the heading with white space trimmed at both ends. *)
Definition heading_is_trimmed : Prop :=
  forall (fs : node) (file_path : Path) (before : list string)
         (text after : string),
    read_text fs file_path = Some (with_heading before text after) ->
    Forall (fun l => PyStr.has_newline l = false /\ ~ is_heading_line l) before ->
    text <> "" -> PyStr.has_newline text = false ->
    (after = "" \/ exists rest, after = PyStr.NL +++ rest) ->
    extract_title fs file_path = PyStr.strip text.

(** The stated derived title: hyphens and underscores both become
    spaces. *)
Definition spec_filename_title (file_path : Path) : string :=
  PyStr.title
    (PyStr.replace "_" " "
       (PyStr.replace "-" " " (PyStr.splitext_root (name file_path)))).

(** The file cannot be read, or its text has no heading line. *)
Definition no_heading (fs : node) (file_path : Path) : Prop :=
  read_text fs file_path = None \/
  exists content,
    read_text fs file_path = Some content /\
    Forall (fun l => ~ is_heading_line l) (PyStr.lines content).

Definition fallback_replaces_underscores : Prop :=
  forall (fs : node) (file_path : Path),
    no_heading fs file_path ->
    extract_title fs file_path = spec_filename_title file_path.

(** ** Filesystems of the worked examples *)

Definition fs_titles : node :=
  Dir [("book",
        Dir [("a.md", File (Some "# Hello "));
             ("b.md", File (Some ("intro" +++ PyStr.NL +++ "# Second line  "
                                  +++ PyStr.NL +++ "# Third")));
             ("my_notes.md", File (Some ("## only a sub-heading" +++ PyStr.NL)));
             ("02-set-up.md", File None)])].

(* ================================================================== *)
(** ** Where an entry comes from *)

Section Provenance.

Context {engine : RegexEngine}.

(** The path matches at least one pattern of the list. *)
Definition matches_some (path : Path) (exclude_patterns : list string) : Prop :=
  exists pattern r,
    In pattern exclude_patterns /\
    re_compile pattern = Some r /\ re_found r (str path) = true.

Variable fs : node.
Variable book_root : Path.
Variable exclude : list string.

(** [n] names a directory under [chapters/] that the walker visits. *)
Definition visited_chapter (n : string) : Prop :=
  is_dir fs (book_root ++ ["chapters"]) = true /\
  is_dir fs (book_root ++ ["chapters"; n]) = true /\
  is_excluded (book_root ++ ["chapters"; n]) exclude = Ok false.

(** The five places of [generate_summary] that append a line. *)
Inductive emitted : Entry -> Prop :=
| emitted_intro :
    path_exists fs (book_root ++ ["README.md"]) = true ->
    emitted (mkEntry (extract_title fs (book_root ++ ["README.md"]))
                     (Some ["README.md"]) 0)
| emitted_chapter (n : string) :
    visited_chapter n ->
    path_exists fs (book_root ++ ["chapters"; n; "README.md"]) = true ->
    emitted (mkEntry (extract_title fs (book_root ++ ["chapters"; n; "README.md"]))
                     (Some ["chapters"; n; "README.md"]) 0)
| emitted_heading (n : string) :
    visited_chapter n ->
    path_exists fs (book_root ++ ["chapters"; n; "README.md"]) = false ->
    emitted (mkEntry (PyStr.title (PyStr.replace "-" " " n)) None 0)
| emitted_section (n m : string) :
    visited_chapter n ->
    In (book_root ++ ["chapters"; n; m]) (glob_md fs (book_root ++ ["chapters"; n])) ->
    m <> "README.md" ->
    is_excluded (book_root ++ ["chapters"; n; m]) exclude = Ok false ->
    emitted (mkEntry (extract_title fs (book_root ++ ["chapters"; n; m]))
                     (Some ["chapters"; n; m]) 1)
| emitted_root (m : string) :
    is_dir fs (book_root ++ ["chapters"]) = false ->
    In (book_root ++ [m]) (glob_md fs book_root) ->
    m <> "README.md" -> m <> "SUMMARY.md" ->
    is_excluded (book_root ++ [m]) exclude = Ok false ->
    emitted (mkEntry (extract_title fs (book_root ++ [m])) (Some [m]) 0).

End Provenance.


(** A book with chapters, under [/home/book]. *)
Definition fs_book : node :=
  Dir [("home",
        Dir [("book",
              Dir [("README.md", File (Some ("# Welcome" +++ PyStr.NL)));
                   ("chapters",
                    Dir [("10-appendix",
                          Dir [("notes.md", File (Some "# My Notes"));
                               ("_draft.md", File (Some "# Draft"))]);
                         ("02-setup",
                          Dir [("README.md", File (Some "# Setup"));
                               ("b-part.md", File None);
                               ("a-part.md", File (Some "text only"))]);
                         ("01-intro",
                          Dir [("README.md",
                                File (Some ("# Getting Started" +++ PyStr.NL)));
                               ("02-setup.md", File (Some "no heading"))]);
                         ("_hidden", Dir [("x.md", File (Some "# X"))]);
                         ("empty", Dir [("pic.png", File None)]);
                         ("stray.md", File (Some "# Stray"))])]);
             ("tmp", Dir [])])].

Definition book_root_ex : Path := ["home"; "book"].

(** A book without chapters, under [/home/flat]. *)
Definition fs_flat : node :=
  Dir [("home",
        Dir [("flat",
              Dir [("b.md", File (Some "# Beta"));
                   ("TOC.md", File (Some ("# Summary" +++ PyStr.NL)));
                   ("README.md", File (Some "# Intro"));
                   ("a.md", File (Some "alpha"));
                   ("SUMMARY.md", File (Some "old"))]);
             ("tmp", Dir [])])].

Definition flat_root_ex : Path := ["home"; "flat"].

(** The stated exclusion rule: no entry at all for a path that matches a
    pattern. *)
Definition excluded_never_listed : Prop :=
  forall (fs fs' : node) (book_root output_file : Path)
         (exclude : option (list string)) (content : list string)
         (entries : list Entry),
    generate_summary (engine := mini_engine) fs book_root output_file exclude
      = (fs', Ok content) ->
    summary_entries (engine := mini_engine) fs book_root
      (effective_exclude exclude) = Ok entries ->
    forall e rel,
      In e entries -> target e = Some rel ->
      ~ matches_some (engine := mini_engine) (book_root ++ rel)
          (effective_exclude exclude).

(** The run of the script on the book of the examples, with the default
    patterns and the default output file. *)
Definition book_output : Path := book_root_ex ++ ["SUMMARY.md"].

Definition book_run : node * result (list string) :=
  generate_summary (engine := mini_engine) fs_book book_root_ex book_output None.

Definition book_content : list string :=
  match snd book_run with
  | Ok content => content
  | Raise _ => []
  end.

(** Paths in the order of their names. *)
Definition name_le (p q : Path) : Prop := String.leb (name p) (name q) = true.

(** The stated listing of a book without chapters: the output file itself
    is never listed, whatever its path. *)
Definition flat_listing_omits_output : Prop :=
  forall (fs fs' : node) (book_root output_file : Path)
         (exclude : option (list string)) (content : list string)
         (entries : list Entry),
    is_dir fs (book_root ++ ["chapters"]) = false ->
    generate_summary (engine := mini_engine) fs book_root output_file exclude
      = (fs', Ok content) ->
    summary_entries (engine := mini_engine) fs book_root
      (effective_exclude exclude) = Ok entries ->
    forall e rel,
      In e entries -> target e = Some rel -> book_root ++ rel <> output_file.


(** A book never summarised before, under [/home/new]. *)
Definition fs_fresh : node :=
  Dir [("home", Dir [("new", Dir [("a.md", File (Some "alpha"))])])].

Definition fresh_root_ex : Path := ["home"; "new"].

(** The stated idempotence: a second run on the tree left by the first
    returns the same document, for all arguments. *)
Definition rerun_always_identical : Prop :=
  forall (fs fs' fs'' : node) (book_root output_file : Path)
         (exclude : option (list string)) (first second : list string),
    generate_summary (engine := mini_engine) fs book_root output_file exclude
      = (fs', Ok first) ->
    generate_summary (engine := mini_engine) fs' book_root output_file exclude
      = (fs'', Ok second) ->
    first = second.

(** The output file is where the walker does not look: it is SUMMARY.md
    in the book root, or its path parts from the path of the root at some
    segment. *)
Definition output_unseen (book_root output_file : Path) : Prop :=
  output_file = book_root ++ ["SUMMARY.md"] \/
  exists common a b q1 q2,
    a <> b /\ output_file = common ++ a :: q1 /\ book_root = common ++ b :: q2.

(* ================================================================== *)
(** ** The paths that are tested against the patterns *)

Section Tested.

Context {engine : RegexEngine}.
Variable fs : node.
Variable book_root : Path.
Variable exclude : list string.

(** The three comprehensions of [generate_summary] that call
    [is_excluded], and the paths they hand to it. *)
Inductive tested : Path -> Prop :=
| tested_chapter (listing : list Path) (d : Path) :
    is_dir fs (book_root ++ ["chapters"]) = true ->
    iterdir fs (book_root ++ ["chapters"]) = Ok listing ->
    In d listing -> is_dir fs d = true ->
    tested d
| tested_section (n : string) (f : Path) :
    visited_chapter fs book_root exclude n ->
    In f (glob_md fs (book_root ++ ["chapters"; n])) ->
    (path_exists fs (book_root ++ ["chapters"; n; "README.md"]) = true ->
     name f <> "README.md") ->
    tested f
| tested_root (f : Path) :
    is_dir fs (book_root ++ ["chapters"]) = false ->
    In f (glob_md fs book_root) ->
    name f <> "README.md" -> name f <> "SUMMARY.md" ->
    tested f.

End Tested.

(** The exception is the [re.error] of a pattern of the list that does
    not compile. *)
Definition invalid_in {engine : RegexEngine} (exclude : list string) (e : exn)
  : Prop :=
  exists bad, e = ReError bad /\ In bad exclude /\ re_compile bad = None.

(** The stated effect of a pattern that does not compile: [is_excluded]
    raises on every path it is given, and so does the run. *)
Definition invalid_pattern_always_raises : Prop :=
  forall (fs : node) (book_root output_file : Path)
         (exclude : option (list string)) (path : Path),
    (exists bad, In bad (effective_exclude exclude) /\
                 re_compile (RegexEngine := mini_engine) bad = None) ->
    tested (engine := mini_engine) fs book_root (effective_exclude exclude) path ->
    (exists e, is_excluded (engine := mini_engine) path
                 (effective_exclude exclude) = Raise e) /\
    (exists e, snd (generate_summary (engine := mini_engine) fs book_root
                      output_file exclude) = Raise e).

(* ================================================================== *)
(** * The other scripts and the command line

    [scripts/create_new_chapter.py] and the entry point of
    [scripts/generate_summary.py].  Conventions, beyond those above.
    - [int()] and [str.lower()] are modelled on ASCII text, as
      [str.title()] is.
    - A path that a script builds from an argument may have [..] segments;
      the operating system resolves them when the path is used, and
      [os_walk] does the same on the tree.
    - A script that changes the filesystem in several steps is a function
      from the filesystem before to the filesystem after and a result;
      when a step raises, the changes of the steps before it stay.
    - A file that [create_chapter] writes holds its text as a read in text
      mode returns it, with [\r\n] and [\r] read as [\n]. *)

(** ** Python text and number operations *)

Module PyText.

Definition nul : ascii := "000"%char.

Definition is_digit (c : ascii) : bool :=
  (Ascii.leb "0" c && Ascii.leb c "9")%char.

(** [s.lower()]. *)
Fixpoint lower (s : string) : string :=
  match s with
  | EmptyString => EmptyString
  | String c s' => String (PyStr.to_lower c) (lower s')
  end.

(** [s.split('-')[0]]: the part before the first hyphen. *)
Fixpoint before_dash (s : string) : string :=
  match s with
  | EmptyString => EmptyString
  | String c s' => if Ascii.eqb c "-" then EmptyString else String c (before_dash s')
  end.

(** The white space that [int()] skips at both ends of an ASCII string. *)
Definition is_int_space (c : ascii) : bool :=
  let n := nat_of_ascii c in
  Nat.eqb n 32 || (Nat.leb 9 n && Nat.leb n 13).

Fixpoint lskip (s : string) : string :=
  match s with
  | String c s' => if is_int_space c then lskip s' else s
  | EmptyString => EmptyString
  end.

Fixpoint rskip (s : string) : string :=
  match s with
  | EmptyString => EmptyString
  | String c s' =>
      match rskip s' with
      | EmptyString => if is_int_space c then EmptyString else String c EmptyString
      | r => String c r
      end
  end.

(** The digits of a literal: digits, with single underscores allowed
    between two digits. *)
Fixpoint digits_of (previous_is_digit : bool) (s : string) : option string :=
  match s with
  | EmptyString => if previous_is_digit then Some EmptyString else None
  | String c s' =>
      if is_digit c then option_map (String c) (digits_of true s')
      else if Ascii.eqb c "_" then
        if previous_is_digit then digits_of false s' else None
      else None
  end.

(** [int(s)]; [None] when it raises [ValueError]. *)
Definition int_of_str (s : string) : option Z :=
  let s := rskip (lskip s) in
  let '(negative, body) :=
    match s with
    | String c r =>
        if Ascii.eqb c "-" then (true, r)
        else if Ascii.eqb c "+" then (false, r)
        else (false, s)
    | EmptyString => (false, s)
    end in
  match digits_of false body with
  | Some ds =>
      match NilEmpty.uint_of_string ds with
      | Some d => Some (if negative then Z.opp (Z.of_N (N.of_uint d))
                        else Z.of_N (N.of_uint d))
      | None => None
      end
  | None => None
  end.

(** The decimal digits of a natural number. *)
Definition decimal (n : N) : string := NilEmpty.string_of_uint (N.to_uint n).

(** [str(n)]. *)
Definition str_of_int (n : Z) : string :=
  if (n <? 0)%Z then "-" +++ decimal (Z.abs_N n) else decimal (Z.to_N n).

(** [f"{n:02d}"]: at least two characters, zeros after the sign. *)
Definition format_02d (n : Z) : string :=
  if (n <? 0)%Z then "-" +++ decimal (Z.abs_N n)
  else
    let ds := decimal (Z.to_N n) in
    if Nat.ltb (String.length ds) 2 then "0" +++ ds else ds.

(** The segments that [pathlib] makes of a relative path string: the parts
    between slashes, without the empty ones and the dots. *)
Fixpoint split_slash (s : string) : list string :=
  match s with
  | EmptyString => [EmptyString]
  | String c s' =>
      if Ascii.eqb c "/" then EmptyString :: split_slash s'
      else match split_slash s' with
           | seg :: segs => String c seg :: segs
           | [] => [String c EmptyString]
           end
  end.

Definition path_parts (s : string) : list string :=
  filter (fun seg => negb (String.eqb seg "") && negb (String.eqb seg "."))
         (split_slash s).

Definition is_absolute (s : string) : bool :=
  match s with
  | String c _ => Ascii.eqb c "/"
  | EmptyString => false
  end.

Definition has_nul (s : string) : bool :=
  existsb (Ascii.eqb nul) (list_ascii_of_string s).

(** What reading in text mode makes of a text: the line ends [\r\n] and
    [\r] are read as [\n]. *)
Definition cr : ascii := "013"%char.

Fixpoint universal_newlines (s : string) : string :=
  match s with
  | EmptyString => EmptyString
  | String c r =>
      if Ascii.eqb c cr then
        match r with
        | String c' _ =>
            if Ascii.eqb c' PyStr.nl then universal_newlines r
            else String PyStr.nl (universal_newlines r)
        | EmptyString => String PyStr.nl EmptyString
        end
      else String c (universal_newlines r)
  end.

Definition has_cr (s : string) : bool :=
  existsb (Ascii.eqb cr) (list_ascii_of_string s).

(** A name that is one path segment: no slash and no NUL character. *)
Definition is_plain (s : string) : bool :=
  forallb (fun c => negb (Ascii.eqb c "/") && negb (Ascii.eqb c nul))
          (list_ascii_of_string s).

End PyText.

(** ** More of the filesystem *)

(** [path.mkdir(parents=..., exist_ok=...)].  [os.mkdir] creates the
    directory when its parent is a directory that has no such entry.  When
    an ancestor is missing, the missing directories are created if
    [parents] is set; when the path exists, the call succeeds only if
    [exist_ok] is set and the path is a directory; when an ancestor is a
    file the call raises. *)
Fixpoint mkdir (fs : node) (p : Path) (parents exist_ok : bool) : result node :=
  match p with
  | [] =>
      match fs with
      | Dir _ => if exist_ok then Ok fs else Raise OSError
      | File _ => Raise OSError
      end
  | seg :: p' =>
      match fs with
      | File _ => Raise OSError
      | Dir es =>
          match child seg es with
          | Some c =>
              c' <- mkdir c p' parents exist_ok ;;
              Ok (Dir (replace_child seg c' es))
          | None =>
              match p' with
              | [] => Ok (Dir (es ++ [(seg, Dir [])]))
              | _ :: _ =>
                  if parents then
                    c' <- mkdir (Dir []) p' parents exist_ok ;;
                    Ok (Dir (es ++ [(seg, c')]))
                  else Raise OSError
              end
          end
      end
  end.

(** The path that the operating system reaches from the directory
    [position] along [segments]: [..] steps back from a directory to its
    parent, and raises where there is no directory to step back from. *)
Fixpoint os_walk (fs : node) (position : Path) (segments : Path) : result Path :=
  match segments with
  | [] => Ok position
  | seg :: segments' =>
      if String.eqb seg ".." then
        if is_dir fs position then os_walk fs (removelast position) segments'
        else Raise OSError
      else os_walk fs (position ++ [seg]) segments'
  end.

(** The path handed to a system call: a NUL character raises [ValueError]
    before the system is asked. *)
Definition os_path (fs : node) (base : Path) (segments : Path) : result Path :=
  if existsb PyText.has_nul segments then Raise ValueError
  else os_walk fs base segments.

(** [open(path, 'w', encoding='utf-8')] and the writes, as a result.  The
    file holds the text as a later read in text mode returns it. *)
Definition open_write (fs : node) (p : Path) (data : string) : result node :=
  match write_file fs p (PyText.universal_newlines data) with
  | Some fs' => Ok fs'
  | None => Raise OSError
  end.

(** ** Scripts that change the filesystem step by step *)

Definition io (A : Type) : Type := node -> node * result A.

Definition io_ret {A : Type} (a : A) : io A := fun fs => (fs, Ok a).

Definition io_bind {A B : Type} (m : io A) (k : A -> io B) : io B :=
  fun fs =>
    match m fs with
    | (fs', Ok a) => k a fs'
    | (fs', Raise e) => (fs', Raise e)
    end.

Notation "x <~ m ;; k" := (io_bind m (fun x => k))
  (at level 61, m at next level, right associativity).

(** A step that reads. *)
Definition io_read {A : Type} (f : node -> result A) : io A :=
  fun fs => (fs, f fs).

(** A step that changes the tree, or raises and leaves it. *)
Definition io_update (f : node -> result node) : io unit :=
  fun fs =>
    match f fs with
    | Ok fs' => (fs', Ok tt)
    | Raise e => (fs, Raise e)
    end.

(** [for x in l: body(x)]. *)
Fixpoint io_for {A : Type} (l : list A) (body : A -> io unit) : io unit :=
  match l with
  | [] => io_ret tt
  | x :: l' => _ <~ body x ;; io_for l' body
  end.

(** ** create_new_chapter.py: create_chapter *)

(** Lines 31-46: the number of a chapter that is given none. *)
Definition next_chapter_number (fs : node) (chapters_dir : Path) : result Z :=
  ds <- iterdir fs chapters_dir ;;
  let existing_chapters := filter (is_dir fs) ds in
  match existing_chapters with
  | [] => Ok 1%Z
  | _ :: _ =>
      let numbers :=
        flat_map (fun chapter =>
                    match PyText.int_of_str (PyText.before_dash (name chapter)) with
                    | Some num => [num]
                    | None => []
                    end) existing_chapters in
      match numbers with
      | [] => Ok 1%Z
      | n :: ns => Ok (fold_left Z.max ns n + 1)%Z
      end
  end.

(** The name of the directory of a chapter, as a path string relative to
    [chapters/]. *)
Definition chapter_dir_name (chapter_number : Z) (chapter_name : string) : string :=
  PyText.format_02d chapter_number +++ "-"
  +++ PyStr.replace " " "-" (PyText.lower chapter_name).

(** The name of the file of a section, as a path string relative to the
    directory of the chapter. *)
Definition section_file_name (i : nat) (section_name : string) : string :=
  PyText.format_02d (Z.of_nat i) +++ "-"
  +++ PyStr.replace " " "-" (PyText.lower section_name) +++ ".md".

(** What the four [f.write] calls leave in the README.md of a chapter. *)
Definition chapter_readme_text (chapter_number : Z) (chapter_name : string)
  : string :=
  ("# " +++ chapter_name +++ PyStr.NL +++ PyStr.NL) +++
  ("This is the content for Chapter " +++ PyText.str_of_int chapter_number
     +++ ": " +++ chapter_name +++ "." +++ PyStr.NL +++ PyStr.NL) +++
  ("## Overview" +++ PyStr.NL +++ PyStr.NL) +++
  ("Write your chapter overview here." +++ PyStr.NL).

(** What the three [f.write] calls leave in the file of a section. *)
Definition section_text (chapter_number : Z) (chapter_name section_name : string)
  : string :=
  ("# " +++ section_name +++ PyStr.NL +++ PyStr.NL) +++
  ("This is a section in Chapter " +++ PyText.str_of_int chapter_number
     +++ ": " +++ chapter_name +++ "." +++ PyStr.NL +++ PyStr.NL) +++
  ("Write your section content here." +++ PyStr.NL).

(** [enumerate(sections, 1)]. *)
Definition enumerate1 {A : Type} (l : list A) : list (nat * A) :=
  combine (seq 1 (List.length l)) l.

(** One iteration of [for i, section_name in enumerate(sections, 1)]. *)
Definition write_section (chapters_dir chapter_dir : Path) (chapter_number : Z)
  (chapter_name : string) (numbered : nat * string) : io unit :=
  let '(i, section_name) := numbered in
  io_update (fun fs =>
    section_path <- os_path fs chapters_dir
                      (chapter_dir ++ PyText.path_parts (section_file_name i section_name)) ;;
    open_write fs section_path (section_text chapter_number chapter_name section_name)).

(** [create_chapter(book_root, chapter_name, chapter_number, sections)],
    for a [book_root] that [Path.resolve] has made absolute. *)
Definition create_chapter (book_root : Path) (chapter_name : string)
  (chapter_number : option Z) (sections : option (list string)) : io unit :=
  let chapters_dir := book_root ++ ["chapters"] in
  there <~ io_read (fun fs => Ok (path_exists fs chapters_dir)) ;;
  _ <~ (if there then io_ret tt
        else io_update (fun fs => mkdir fs chapters_dir true false)) ;;
  chapter_number <~
    match chapter_number with
    | Some n => io_ret n
    | None => io_read (fun fs => next_chapter_number fs chapters_dir)
    end ;;
  let formatted_number := PyText.format_02d chapter_number in
  let chapter_dir :=
    PyText.path_parts (chapter_dir_name chapter_number chapter_name) in
  _ <~ io_update (fun fs => p <- os_path fs chapters_dir chapter_dir ;;
                            mkdir fs p false true) ;;
  _ <~ io_update (fun fs =>
                    mkdir fs (book_root ++ ["images"; "chapter-" +++ formatted_number])
                          true true) ;;
  _ <~ io_update (fun fs =>
                    p <- os_path fs chapters_dir (chapter_dir ++ ["README.md"]) ;;
                    open_write fs p (chapter_readme_text chapter_number chapter_name)) ;;
  match sections with
  | Some ((_ :: _) as sections) =>
      io_for (enumerate1 sections)
             (write_section chapters_dir chapter_dir chapter_number chapter_name)
  | _ => io_ret tt
  end.

(** ** generate_summary.py: main *)

(** The values of [args] after [parser.parse_args()], with [book_root]
    for [Path(args.book_root).resolve()]. *)
Record Args : Type := mkArgs {
  args_book_root : Path;
  args_output : string;
  args_exclude : list string
}.

(** The defaults of the parser, in the directory [cwd]. *)
Definition default_args (cwd : Path) : Args :=
  mkArgs cwd "SUMMARY.md" ["/\."; "/_"; "node_modules"; "book$"; "SUMMARY\.md$"].

(** [book_root / s]: a string that starts with a slash replaces the
    base. *)
Definition joinpath (base : Path) (s : string) : Path :=
  if PyText.is_absolute s then PyText.path_parts s
  else base ++ PyText.path_parts s.

(** [main()] after the parsing of the command line.  The path of the
    output file is resolved by the operating system when [open] is
    called, after the document is built. *)
Definition main {engine : RegexEngine} (fs : node) (args : Args)
  : node * result (list string) :=
  let book_root := args_book_root args in
  let output_file := joinpath book_root (args_output args) in
  match os_path fs [] output_file with
  | Ok p => generate_summary fs book_root p (Some (args_exclude args))
  | Raise e =>
      match summary_content fs book_root (args_exclude args) with
      | Ok _ => (fs, Raise e)
      | Raise e' => (fs, Raise e')
      end
  end.

(** ** Words for the statements about create_chapter *)

(** The sections that the loop of [create_chapter] goes through. *)
Definition section_list (sections : option (list string)) : list string :=
  match sections with
  | Some l => l
  | None => []
  end.

(** [k] is the number that [create_chapter] gives the chapter: the number
    it is called with, or the number that lines 31-46 compute from the
    directories of [chapters/], which is 1 when [chapters/] is new. *)
Definition number_used (fs : node) (book_root : Path)
  (chapter_number : option Z) (k : Z) : Prop :=
  match chapter_number with
  | Some n => k = n
  | None =>
      if path_exists fs (book_root ++ ["chapters"])
      then next_chapter_number fs (book_root ++ ["chapters"]) = Ok k
      else k = 1%Z
  end.

(** A title that a heading line can hold: some text without newline. *)
Definition is_title (s : string) : Prop :=
  s <> "" /\ PyStr.has_newline s = false.

(** The call of the examples: a chapter with two sections added to the
    book of the examples with no number given, and one with the number 2
    given. *)
Definition chapter_run : node * result unit :=
  create_chapter book_root_ex "Hello World" None
    (Some ["First Part"; "Second"]) fs_book.

Definition chapter_run_numbered : node * result unit :=
  create_chapter book_root_ex "Setup" (Some 2%Z) (Some ["Tools"]) fs_book.

(** The directory of chapter [k] named [chapter_name]. *)
Definition chapter_path (book_root : Path) (k : Z) (chapter_name : string) : Path :=
  (book_root ++ ["chapters"]) ++ [chapter_dir_name k chapter_name].

(** A book whose [chapters] is a regular file. *)
Definition fs_chapters_file : node :=
  Dir [("home", Dir [("odd", Dir [("chapters", File (Some "notes"))])])].

(** A path as [Path.resolve] returns it: no segment is [..] and none has
    a NUL character. *)
Definition is_resolved (p : Path) : Prop :=
  Forall (fun s => PyText.has_nul s = false /\ s <> "..") p.

(** The command line of the examples: no option, in the book of the
    examples. *)
Definition cli_run : node * result (list string) :=
  main (engine := mini_engine) fs_book (default_args book_root_ex).

(** The entry that the loop of [create_chapter] leaves in the directory
    of the chapter for the section with the number [fst numbered]. *)
Definition section_entry (k : Z) (chapter_name : string) (numbered : nat * string)
  : string * node :=
  (section_file_name (fst numbered) (snd numbered),
   File (Some (PyText.universal_newlines
                 (section_text k chapter_name (snd numbered))))).

(** The line of the summary for the README.md of chapter [k], and the line
    for one of its sections. *)
Definition new_chapter_line (k : Z) (chapter_name : string) : string :=
  "* [" +++ chapter_name +++ "]("
  +++ str_rel ["chapters"; chapter_dir_name k chapter_name; "README.md"]
  +++ ")" +++ PyStr.NL.

Definition new_section_line (k : Z) (chapter_name : string)
  (numbered : nat * string) : string :=
  "  * [" +++ snd numbered +++ "]("
  +++ str_rel ["chapters"; chapter_dir_name k chapter_name;
               section_file_name (fst numbered) (snd numbered)]
  +++ ")" +++ PyStr.NL.

(** ** The same tree, listed in another order

    The operating system gives the entries of a directory in an order of
    its own.  [reordered a b] holds when [b] has the files and directories
    of [a], with the same names and the same texts, in any order. *)

Fixpoint nodupb (l : list string) : bool :=
  match l with
  | [] => true
  | x :: l' => negb (existsb (String.eqb x) l') && nodupb l'
  end.

Definition same_data (d d' : option string) : bool :=
  match d, d' with
  | Some x, Some y => String.eqb x y
  | None, None => true
  | _, _ => false
  end.

Fixpoint reordered (a b : node) : bool :=
  match a, b with
  | File d, File d' => same_data d d'
  | Dir es, Dir es' =>
      nodupb (map fst es) && nodupb (map fst es') &&
      Nat.eqb (List.length es) (List.length es') &&
      forallb (fun e => match child (fst e) es' with
                        | Some c' => reordered (snd e) c'
                        | None => false
                        end) es
  | _, _ => false
  end.

(** A tree with every directory listed backwards. *)
Fixpoint rev_tree (fs : node) : node :=
  match fs with
  | File d => File d
  | Dir es => Dir (rev (map (fun e => (fst e, rev_tree (snd e))) es))
  end.


(** A book without chapters under [/home/notes], with a file whose name is
    not well-formed UTF-8: the byte 233 is the letter e with an acute
    accent in Latin-1. *)
Definition latin1_name : string := "caf" +++ String "233" ".md".

Definition fs_latin1 : node :=
  Dir [("home",
        Dir [("notes",
              Dir [("a.md", File (Some "# A"));
                   (latin1_name, File (Some "# Menu"));
                   ("z.md", File (Some "# Z"));
                   ("SUMMARY.md", File (Some "old"))])])].

Definition latin1_root_ex : Path := ["home"; "notes"].

(** ** Directories list each name once *)

(** Paths in the strict order of their names. *)
Definition name_lt (p q : Path) : Prop := String.ltb (name p) (name q) = true.

(** The entries of the directory at [dir] have distinct names, as the
    entries of a directory of the operating system have. *)
Definition distinct_names (fs : node) (dir : Path) : bool :=
  match lookup fs dir with
  | Some (Dir es) => nodupb (map fst es)
  | _ => true
  end.

Section ChapterBlocks.

Context {engine : RegexEngine}.

(** An entry of depth 1 that links to an entry of the chapter directory
    named [n]. *)
Definition section_of (n : string) (e : Entry) : Prop :=
  depth e = 1 /\ exists m, target e = Some ["chapters"; n; m].

(** What the table of contents holds for the chapter directory named [n].
    With a README.md: the entry of the README.md, then entries of depth 1.
    Without: nothing when every markdown file of the directory is
    excluded, and otherwise an unlinked entry titled after the directory,
    then at least one entry of depth 1. *)
Definition chapter_block (fs : node) (book_root : Path) (exclude : list string)
  (n : string) (block : list Entry) : Prop :=
  let chapter_dir := book_root ++ ["chapters"; n] in
  if path_exists fs (chapter_dir ++ ["README.md"]) then
    exists sections,
      block = mkEntry (extract_title fs (chapter_dir ++ ["README.md"]))
                      (Some ["chapters"; n; "README.md"]) 0 :: sections /\
      Forall (section_of n) sections
  else
    (block = [] /\
     forall f, In f (glob_md fs chapter_dir) -> is_excluded f exclude = Ok true) \/
    (exists sections,
       sections <> [] /\
       block = mkEntry (PyStr.title (PyStr.replace "-" " " n)) None 0 :: sections /\
       Forall (section_of n) sections).

End ChapterBlocks.

(** ** The files that create_chapter opens *)

(** Where [os_walk] arrives when it does not raise: [..] steps back to the
    parent, whatever the tree. *)
Fixpoint lexical_walk (position segments : Path) : Path :=
  match segments with
  | [] => position
  | seg :: segments' =>
      if String.eqb seg ".." then lexical_walk (removelast position) segments'
      else lexical_walk (position ++ [seg]) segments'
  end.

(** The paths that [create_chapter] opens for writing when the chapter has
    the number [k]: the README.md of the chapter and the file of each
    section, where the operating system finds them. *)
Definition chapter_files (book_root : Path) (chapter_name : string)
  (sections : option (list string)) (k : Z) (q : Path) : Prop :=
  let chapters_dir := book_root ++ ["chapters"] in
  let chapter_dir := PyText.path_parts (chapter_dir_name k chapter_name) in
  q = lexical_walk chapters_dir (chapter_dir ++ ["README.md"]) \/
  exists i section_name,
    In (i, section_name) (enumerate1 (section_list sections)) /\
    q = lexical_walk chapters_dir
          (chapter_dir ++ PyText.path_parts (section_file_name i section_name)).

(** A book whose chapter [02-setup] has a subdirectory [01-x], and a call
    with a section name that leads out of the chapter directory. *)
Definition fs_escape : node :=
  Dir [("home",
        Dir [("book",
              Dir [("chapters",
                    Dir [("02-setup", Dir [("01-x", Dir [])]);
                         ("zz.md", File (Some "# Kept"))])])])].

Definition escape_run : node * result unit :=
  create_chapter book_root_ex "Setup" (Some 2%Z) (Some ["x/../../zz"]) fs_escape.

(** From [fs] to [fs'] every directory stays one, and only files of [W],
    the paths that may be written, change their text. *)
Definition frame (W : Path -> Prop) (fs fs' : node) : Prop :=
  (forall q, is_dir fs q = true -> is_dir fs' q = true) /\
  (forall q, read_text fs' q = read_text fs q \/ W q).

(** A step, or a script, that keeps the frame whether it returns or
    raises. *)
Definition framed {A : Type} (W : Path -> Prop) (m : io A) : Prop :=
  forall fs fs' r, m fs = (fs', r) -> frame W fs fs'.

(* ================================================================== *)
(** * Properties *)

(** ** The operations on examples *)

Example title_ex1 : PyStr.title "02 setup" = "02 Setup".
Proof. reflexivity. Qed.
Example title_ex2 : PyStr.title "it's a1b README" = "It'S A1B Readme".
Proof. reflexivity. Qed.
Example splitext_ex1 : PyStr.splitext_root "a.b.md" = "a.b".
Proof. reflexivity. Qed.
Example splitext_ex2 : PyStr.splitext_root ".md" = ".md".
Proof. reflexivity. Qed.
Example splitext_ex3 : PyStr.splitext_root "..x.md" = "..x".
Proof. reflexivity. Qed.
Example lines_ex1 : PyStr.lines ("a" +++ PyStr.NL +++ PyStr.NL +++ "b" +++ PyStr.NL)
                    = ["a"; ""; "b"; ""].
Proof. reflexivity. Qed.
Example strip_ex1 : PyStr.strip "  Hello  you " = "Hello  you".
Proof. reflexivity. Qed.
Example ends_with_ex1 : PyStr.ends_with ".md" "x.md" = true
                        /\ PyStr.ends_with ".md" ".md" = true
                        /\ PyStr.ends_with ".md" "x.mdx" = false.
Proof. repeat split; reflexivity. Qed.

Example search_heading_ex1 :
  search_heading ("intro" +++ PyStr.NL +++ "#  Two spaces" +++ PyStr.NL
                  +++ "# Later") = Some " Two spaces".
Proof. reflexivity. Qed.
Example search_heading_ex2 :
  search_heading ("#NoSpace" +++ PyStr.NL +++ "## Sub" +++ PyStr.NL +++ "# ")
  = None.
Proof. reflexivity. Qed.

Example mini_re_invalid :
  map MiniRe.parse ["("; ")"; "*"; "a**"; "^*"; "a(b"; "x\"]
  = [None; None; None; None; None; None; None].
Proof. vm_compute. reflexivity. Qed.

Example mini_re_default_patterns :
  map (fun path => is_excluded (engine := mini_engine) path default_exclude)
      [ ["home"; "book"; "chapters"; "01-intro"];
        ["home"; "book"; "chapters"; "_hidden"];
        ["home"; "book"; ".git"];
        ["home"; "book"; "node_modules"; "x.md"];
        ["home"; "book"; "book"];
        ["home"; "book"; "SUMMARY.md"];
        ["home"; "book"; "SUMMARY.md.bak"] ]
  = [Ok false; Ok true; Ok true; Ok true; Ok true; Ok true; Ok false].
Proof. vm_compute. reflexivity. Qed.

Example mini_re_operators :
  map (fun p => option_map (fun r => map (MiniRe.found r)
                                         ["abc"; "xxabbbc"; "ac"; ""; "b"])
                           (MiniRe.parse p))
      ["(a|b)*c"; "ab+c$"; "^b"; "."; "^$"; "a(b|)c"]
  = [ Some [true; true; true; false; false];
      Some [true; true; false; false; false];
      Some [false; false; false; false; true];
      Some [true; true; true; false; true];
      Some [false; false; false; true; false];
      Some [true; false; true; false; false] ].
Proof. vm_compute. reflexivity. Qed.

(** ** The result monad *)

Lemma bind_Ok_inv {A B : Type} (m : result A) (k : A -> result B) (b : B) :
  bind m k = Ok b -> exists a, m = Ok a /\ k a = Ok b.
Proof.
  destruct m as [a|e]; simpl; intros H; [eauto | discriminate].
Qed.

Section MonadFacts.

Context {A B : Type}.

Lemma filterM_In (cond : A -> result bool) (l l' : list A) :
  filterM cond l = Ok l' ->
  forall x, In x l' <-> In x l /\ cond x = Ok true.
Proof.
  revert l'. induction l as [|y l IH]; simpl; intros l' H x.
  - inversion H; subst. simpl. tauto.
  - apply bind_Ok_inv in H. destruct H as [b [Hb H]].
    apply bind_Ok_inv in H. destruct H as [xs [Hxs H]].
    inversion H; subst; clear H.
    specialize (IH xs Hxs x).
    destruct b; simpl; rewrite IH; split.
    + intros [->|[H1 H2]]; auto.
    + intros [[->|H1] H2]; auto.
    + intros [H1 H2]; auto.
    + intros [[->|H1] H2]; [congruence | auto].
Qed.

Lemma filterM_Raise (cond : A -> result bool) (l : list A) (x : A) (e : exn) :
  In x l -> cond x = Raise e -> exists e', filterM cond l = Raise e'.
Proof.
  induction l as [|y l IH]; simpl; intros Hin Hx; [contradiction|].
  destruct Hin as [->|Hin].
  - rewrite Hx. simpl. eauto.
  - destruct (cond y) as [b|e0]; simpl; [|eauto].
    destruct (IH Hin Hx) as [e' ->]. simpl. eauto.
Qed.

Lemma filterM_ext (f g : A -> result bool) (l : list A) :
  (forall x, In x l -> f x = g x) -> filterM f l = filterM g l.
Proof.
  induction l as [|y l IH]; simpl; intros H; [reflexivity|].
  rewrite (H y (or_introl eq_refl)), IH; [reflexivity|].
  intros; apply H; auto.
Qed.

Lemma mapM_ext (f g : A -> result B) (l : list A) :
  (forall x, In x l -> f x = g x) -> mapM f l = mapM g l.
Proof.
  induction l as [|y l IH]; simpl; intros H; [reflexivity|].
  rewrite (H y (or_introl eq_refl)), IH; [reflexivity|].
  intros; apply H; auto.
Qed.

Lemma mapM_Forall2 (f : A -> result B) (l : list A) (l' : list B) :
  mapM f l = Ok l' <-> Forall2 (fun x y => f x = Ok y) l l'.
Proof.
  revert l'. induction l as [|x l IH]; simpl; intros l'; split; intros H.
  - inversion H. constructor.
  - inversion H. reflexivity.
  - apply bind_Ok_inv in H. destruct H as [y [Hy H]].
    apply bind_Ok_inv in H. destruct H as [ys [Hys H]].
    inversion H; subst. constructor; [assumption | now apply IH].
  - inversion H as [|? y ? ys Hy Hys]; subst.
    rewrite Hy. simpl. apply IH in Hys. rewrite Hys. reflexivity.
Qed.

Lemma mapM_pure (f : A -> result B) (g : A -> B) (l : list A) :
  (forall x, In x l -> f x = Ok (g x)) -> mapM f l = Ok (map g l).
Proof.
  induction l as [|y l IH]; simpl; intros H; [reflexivity|].
  rewrite (H y (or_introl eq_refl)). simpl.
  rewrite IH; [reflexivity | intros; apply H; auto].
Qed.

Lemma mapM_Raise (f : A -> result B) (l : list A) (x : A) (e : exn) :
  In x l -> f x = Raise e -> exists e', mapM f l = Raise e'.
Proof.
  induction l as [|y l IH]; simpl; intros Hin Hx; [contradiction|].
  destruct Hin as [->|Hin].
  - rewrite Hx. simpl. eauto.
  - destruct (f y) as [b|e0]; simpl; [|eauto].
    destruct (IH Hin Hx) as [e' ->]. simpl. eauto.
Qed.

End MonadFacts.

(** ** The order of paths and [sorted] *)

Lemma ascii_compare_refl (a : ascii) : Ascii.compare a a = Eq.
Proof. unfold Ascii.compare. apply N.compare_refl. Qed.

Lemma string_compare_refl (s : string) : String.compare s s = Eq.
Proof.
  induction s as [|a s IH]; simpl; [reflexivity|].
  now rewrite ascii_compare_refl.
Qed.

Lemma string_compare_Lt_trans (a b c : string) :
  String.compare a b = Lt -> String.compare b c = Lt -> String.compare a c = Lt.
Proof.
  revert b c. induction a as [|x a IH]; intros [|y b] [|z c]; simpl;
    try discriminate; try reflexivity.
  unfold Ascii.compare.
  destruct (N.compare_spec (N_of_ascii x) (N_of_ascii y)) as [E1|L1|G1];
    try discriminate;
  destruct (N.compare_spec (N_of_ascii y) (N_of_ascii z)) as [E2|L2|G2];
    try discriminate; intros H1 H2.
  - rewrite E1, E2, N.compare_refl. eapply IH; eauto.
  - rewrite E1. apply N.compare_lt_iff in L2. now rewrite L2.
  - rewrite <- E2. apply N.compare_lt_iff in L1. now rewrite L1.
  - assert (L : (N_of_ascii x < N_of_ascii z)%N) by (eapply N.lt_trans; eauto).
    apply N.compare_lt_iff in L. now rewrite L.
Qed.

Lemma path_ltb_irrefl (p : Path) : path_ltb p p = false.
Proof.
  induction p as [|a p IH]; simpl; [reflexivity|].
  now rewrite string_compare_refl.
Qed.

Lemma path_ltb_trans (p q r : Path) :
  path_ltb p q = true -> path_ltb q r = true -> path_ltb p r = true.
Proof.
  revert q r. induction p as [|a p IH]; intros [|b q] [|c r]; simpl;
    try discriminate; try reflexivity.
  destruct (String.compare a b) eqn:E1; try discriminate;
  destruct (String.compare b c) eqn:E2; try discriminate; intros H1 H2.
  - apply String.compare_eq_iff in E1, E2. subst.
    rewrite string_compare_refl. eapply IH; eauto.
  - apply String.compare_eq_iff in E1. subst. now rewrite E2.
  - apply String.compare_eq_iff in E2. subst. now rewrite E1.
  - now rewrite (string_compare_Lt_trans _ _ _ E1 E2).
Qed.

Lemma path_ltb_total (p q : Path) :
  path_ltb p q = false -> path_ltb q p = false -> p = q.
Proof.
  revert q. induction p as [|a p IH]; intros [|b q]; simpl;
    try discriminate; try reflexivity.
  rewrite (String.compare_antisym b a).
  destruct (String.compare a b) eqn:E; simpl; try discriminate.
  apply String.compare_eq_iff in E. subst. intros H1 H2.
  f_equal. now apply IH.
Qed.

Lemma path_le_trans (p q r : Path) : path_le p q -> path_le q r -> path_le p r.
Proof.
  unfold path_le. intros H1 H2.
  destruct (path_ltb r p) eqn:E; [|reflexivity].
  destruct (path_ltb p q) eqn:E3.
  - rewrite (path_ltb_trans _ _ _ E E3) in H2. discriminate.
  - assert (p = q) by now apply path_ltb_total. subst. congruence.
Qed.

Lemma path_ltb_le (p q : Path) : path_ltb p q = true -> path_le p q.
Proof.
  unfold path_le. intros H. destruct (path_ltb q p) eqn:E; [|reflexivity].
  pose proof (path_ltb_trans _ _ _ H E) as C.
  rewrite path_ltb_irrefl in C. discriminate.
Qed.

(** Siblings are ordered by their names. *)
Lemma path_ltb_siblings (dir : Path) (a b : string) :
  path_ltb (dir ++ [a]) (dir ++ [b]) = String.ltb a b.
Proof.
  induction dir as [|d dir IH]; simpl.
  - unfold String.ltb. now destruct (String.compare a b).
  - now rewrite string_compare_refl.
Qed.

Lemma insert_sorted_perm (x : Path) (l : list Path) :
  Permutation (x :: l) (insert_sorted x l).
Proof.
  induction l as [|y l IH]; simpl; [reflexivity|].
  destruct (path_ltb y x); [|reflexivity].
  rewrite perm_swap. now constructor.
Qed.

Lemma sorted_perm (l : list Path) : Permutation l (sorted l).
Proof.
  induction l as [|x l IH]; simpl; [constructor|].
  rewrite <- insert_sorted_perm. now constructor.
Qed.

Lemma sorted_In (l : list Path) (x : Path) : In x (sorted l) <-> In x l.
Proof.
  split; apply Permutation_in; [symmetry|]; apply sorted_perm.
Qed.

Lemma insert_sorted_sorted (x : Path) (l : list Path) :
  StronglySorted path_le l -> StronglySorted path_le (insert_sorted x l).
Proof.
  induction l as [|y l IH]; simpl; intros H.
  - constructor; constructor.
  - inversion H as [|? ? Hl Hy]; subst.
    destruct (path_ltb y x) eqn:E.
    + constructor; [now apply IH|].
      rewrite Forall_forall in *. intros z Hz.
      apply (Permutation_in _ (Permutation_sym (insert_sorted_perm x l))) in Hz.
      destruct Hz as [<-|Hz]; [now apply path_ltb_le | now apply Hy].
    + constructor; [assumption|].
      constructor; [exact E|].
      rewrite Forall_forall in *. intros z Hz.
      apply path_le_trans with y; [exact E | now apply Hy].
Qed.

Lemma sorted_sorted (l : list Path) : StronglySorted path_le (sorted l).
Proof.
  induction l as [|x l IH]; simpl; [constructor|].
  now apply insert_sorted_sorted.
Qed.

(** ** The filesystem *)

Lemma child_replace_same (seg : string) (c c' : node) (es : list (string * node)) :
  child seg es = Some c -> child seg (replace_child seg c' es) = Some c'.
Proof.
  induction es as [|[n x] es IH]; simpl; [discriminate|].
  destruct (String.eqb n seg) eqn:E; simpl; rewrite E; auto.
Qed.

Lemma child_replace_other (seg seg' : string) (c' : node) (es : list (string * node)) :
  seg' <> seg -> child seg' (replace_child seg c' es) = child seg' es.
Proof.
  intros Hne. induction es as [|[n x] es IH]; simpl; [reflexivity|].
  destruct (String.eqb n seg) eqn:E; simpl.
  - apply String.eqb_eq in E. subst n.
    assert (E' : String.eqb seg seg' = false)
      by (apply (proj2 (String.eqb_neq seg seg')); congruence).
    now rewrite E'.
  - now rewrite IH.
Qed.

Lemma child_app_new (seg seg' : string) (c : node) (es : list (string * node)) :
  child seg es = None ->
  child seg' (es ++ [(seg, c)]) =
  if String.eqb seg seg' then Some c else child seg' es.
Proof.
  intros Hnone. induction es as [|[n x] es IH]; simpl in *.
  - reflexivity.
  - destruct (String.eqb n seg) eqn:E; [discriminate|].
    destruct (String.eqb n seg') eqn:E'.
    + apply String.eqb_eq in E'. subst n.
      rewrite String.eqb_sym in E. now rewrite E.
    + now apply IH.
Qed.

(** After a successful write the file holds exactly the data. *)
Lemma read_after_write (fs fs' : node) (p : Path) (data : string) :
  write_file fs p data = Some fs' -> read_text fs' p = Some data.
Proof.
  unfold read_text. revert fs fs'.
  induction p as [|seg p IH]; intros fs fs'; simpl.
  - destruct fs; intros H; inversion H. reflexivity.
  - destruct fs as [d|es]; [discriminate|].
    destruct (child seg es) as [c|] eqn:Ec.
    + destruct (write_file c p data) as [c'|] eqn:Ew; [|discriminate].
      intros H; inversion H; subst. simpl.
      rewrite (child_replace_same _ _ _ _ Ec). now apply IH with c.
    + destruct p; [|discriminate].
      intros H; inversion H; subst. simpl.
      rewrite (child_app_new _ _ _ _ Ec), String.eqb_refl. reflexivity.
Qed.

(** A write does not change what is found at a path that parts from the
    written path at some segment. *)
Lemma lookup_write_diverge (fs fs' : node) (common q1 q2 : Path)
  (a b : string) (data : string) :
  a <> b ->
  write_file fs (common ++ a :: q1) data = Some fs' ->
  lookup fs' (common ++ b :: q2) = lookup fs (common ++ b :: q2).
Proof.
  intros Hab. revert fs fs'.
  induction common as [|seg common IH]; intros fs fs'; simpl.
  - destruct fs as [d|es]; [discriminate|].
    destruct (child a es) as [c|] eqn:Ec.
    + destruct (write_file c q1 data) as [c'|]; [|discriminate].
      intros H; inversion H; subst. simpl.
      now rewrite child_replace_other by congruence.
    + destruct q1; [|discriminate].
      intros H; inversion H; subst. simpl.
      rewrite (child_app_new _ _ _ _ Ec).
      destruct (String.eqb a b) eqn:E; [|reflexivity].
      apply String.eqb_eq in E. contradiction.
  - destruct fs as [d|es]; [discriminate|].
    destruct (child seg es) as [c|] eqn:Ec.
    + destruct (write_file c (common ++ a :: q1) data) as [c'|] eqn:Ew;
        [|discriminate].
      intros H; inversion H; subst. simpl.
      rewrite (child_replace_same _ _ _ _ Ec). now apply IH.
    + destruct (common ++ a :: q1) eqn:Eq; [|discriminate].
      destruct common; discriminate.
Qed.


(** ** Paths relative to the book root *)

Lemma relative_to_app (base r : Path) : relative_to (base ++ r) base = Ok r.
Proof.
  induction base as [|b base IH]; simpl; [now destruct r|].
  now rewrite String.eqb_refl.
Qed.

Lemma name_snoc (p : Path) (n : string) : name (p ++ [n]) = n.
Proof. unfold name. apply last_last. Qed.

Lemma name_snoc_cons (p : Path) (a n : string) : name (p ++ [a; n]) = n.
Proof.
  change (p ++ [a; n]) with (p ++ [a] ++ [n]).
  rewrite app_assoc. apply name_snoc.
Qed.

Lemma iterdir_shape (fs : node) (p : Path) (l : list Path) :
  iterdir fs p = Ok l -> forall q, In q l -> exists n, q = p ++ [n].
Proof.
  unfold iterdir. destruct (lookup fs p) as [[d|es]|]; try discriminate.
  intros H q Hq. inversion H; subst. apply in_map_iff in Hq.
  destruct Hq as [[n c] [<- _]]. eauto.
Qed.

Lemma glob_md_shape (fs : node) (p q : Path) :
  In q (glob_md fs p) ->
  exists n, q = p ++ [n] /\ PyStr.ends_with ".md" n = true.
Proof.
  unfold glob_md. destruct (lookup fs p) as [[d|es]|]; simpl; try tauto.
  intros Hq. apply filter_In in Hq. destruct Hq as [Hq Hmd].
  apply in_map_iff in Hq. destruct Hq as [[n c] [<- _]]. simpl in *.
  rewrite name_snoc in Hmd. eauto.
Qed.

(** ** Lines and entries *)

Lemma mapM_bind_map {A B C : Type} (f : A -> result C) (g : A -> result B)
  (h : B -> C) (l : list A) :
  (forall x, In x l -> f x = (e <- g x ;; Ok (h e))) ->
  mapM f l = (es <- mapM g l ;; Ok (map h es)).
Proof.
  induction l as [|x l IH]; simpl; intros H; [reflexivity|].
  rewrite (H x (or_introl eq_refl)), IH by (intros; apply H; auto).
  destruct (g x) as [e|e]; simpl; [|reflexivity].
  destruct (mapM g l); reflexivity.
Qed.

Section ScriptFacts.

Context {engine : RegexEngine}.

Lemma section_line_render (fs : node) (book_root f : Path) :
  section_line fs book_root f = (e <- file_entry fs book_root 1 f ;; Ok (render e)).
Proof.
  unfold section_line, file_entry.
  destruct (relative_to f book_root); reflexivity.
Qed.

Lemma root_line_render (fs : node) (book_root f : Path) :
  root_line fs book_root f = (e <- file_entry fs book_root 0 f ;; Ok (render e)).
Proof.
  unfold root_line, file_entry.
  destruct (relative_to f book_root); reflexivity.
Qed.

Lemma chapter_lines_render (fs : node) (book_root : Path)
  (exclude : list string) (d : Path) :
  chapter_lines fs book_root exclude d =
  (es <- chapter_entries fs book_root exclude d ;; Ok (map render es)).
Proof.
  unfold chapter_lines, chapter_entries, file_entry at 1.
  destruct (path_exists fs (d ++ ["README.md"])).
  - destruct (relative_to (d ++ ["README.md"]) book_root) as [rel|e];
      simpl; [|reflexivity].
    fold (keep_section exclude).
    destruct (filterM (keep_section exclude) (glob_md fs d)) as [fsx|e];
      simpl; [|reflexivity].
    rewrite (mapM_bind_map _ (file_entry fs book_root 1) render)
      by (intros; apply section_line_render).
    destruct (mapM (file_entry fs book_root 1) (sorted fsx)); reflexivity.
  - fold (keep_md exclude).
    destruct (filterM (keep_md exclude) (glob_md fs d)) as [fsx|e];
      simpl; [|reflexivity].
    destruct (sorted fsx) as [|f l]; [reflexivity|].
    rewrite section_line_render.
    rewrite (mapM_bind_map _ (file_entry fs book_root 1) render)
      by (intros; apply section_line_render).
    destruct (file_entry fs book_root 1 f); simpl; [|reflexivity].
    destruct (mapM (file_entry fs book_root 1) l); reflexivity.
Qed.

(** The lines handed to [writelines] are the header and then one line for
    each entry, in order. *)
Lemma summary_content_render (fs : node) (book_root : Path)
  (exclude : list string) :
  summary_content fs book_root exclude =
  (es <- summary_entries fs book_root exclude ;; Ok (header :: map render es)).
Proof.
  unfold summary_content, summary_entries, chapter_dirs, root_files,
    intro_entries.
  destruct (path_exists fs (book_root ++ ["chapters"]) &&
            is_dir fs (book_root ++ ["chapters"])).
  - destruct (iterdir fs (book_root ++ ["chapters"])) as [ds|e];
      simpl; [|reflexivity].
    fold (keep_chapter fs exclude).
    destruct (filterM (keep_chapter fs exclude) ds) as [kept|e];
      simpl; [|reflexivity].
    rewrite (mapM_bind_map _ (chapter_entries fs book_root exclude) (map render))
      by (intros; apply chapter_lines_render).
    destruct (mapM (chapter_entries fs book_root exclude) (sorted kept))
      as [ess|e]; simpl; [|reflexivity].
    rewrite map_app, concat_map.
    destruct (path_exists fs (book_root ++ ["README.md"])); reflexivity.
  - fold (keep_root exclude).
    destruct (filterM (keep_root exclude) (glob_md fs book_root)) as [kept|e];
      simpl; [|reflexivity].
    rewrite (mapM_bind_map _ (file_entry fs book_root 0) render)
      by (intros; apply root_line_render).
    destruct (mapM (file_entry fs book_root 0) (sorted kept))
      as [es|e]; simpl; [|reflexivity].
    rewrite map_app.
    destruct (path_exists fs (book_root ++ ["README.md"])); reflexivity.
Qed.

End ScriptFacts.

(* ================================================================== *)
(** ** extract_title *)

Lemma append_assoc (a b c : string) : (a +++ b) +++ c = a +++ b +++ c.
Proof. induction a as [|x a IH]; simpl; congruence. Qed.

Lemma append_nil_r (a : string) : a +++ "" = a.
Proof. induction a as [|x a IH]; simpl; congruence. Qed.

(** Concatenation without separator, one string at a time. *)
Lemma concat_empty_cons (x : string) (xs : list string) :
  String.concat "" (x :: xs) = x +++ String.concat "" xs.
Proof. destruct xs; simpl; [now rewrite append_nil_r | reflexivity]. Qed.

Lemma has_newline_cons (c : ascii) (l : string) :
  PyStr.has_newline (String c l) = false ->
  Ascii.eqb c PyStr.nl = false /\ PyStr.has_newline l = false.
Proof.
  unfold PyStr.has_newline. simpl. rewrite Ascii.eqb_sym.
  intros H. now apply orb_false_iff in H.
Qed.

(** A line without newline, followed by a newline, is the first line. *)
Lemma lines_first (l rest : string) :
  PyStr.has_newline l = false ->
  PyStr.lines (l +++ PyStr.NL +++ rest) = l :: PyStr.lines rest.
Proof.
  induction l as [|c l IH]; intros H.
  - simpl. reflexivity.
  - apply has_newline_cons in H. destruct H as [Hc Hl].
    simpl. rewrite Hc.
    change (String PyStr.nl rest) with (PyStr.NL +++ rest).
    now rewrite (IH Hl).
Qed.

Lemma lines_last (l : string) :
  PyStr.has_newline l = false -> PyStr.lines l = [l].
Proof.
  induction l as [|c l IH]; intros H; [reflexivity|].
  apply has_newline_cons in H. destruct H as [Hc Hl].
  simpl. rewrite Hc. now rewrite (IH Hl).
Qed.

Lemma heading_of_line_Some (t : string) :
  t <> "" -> heading_of_line ("# " +++ t) = Some t.
Proof. destruct t; [congruence | reflexivity]. Qed.

Lemma heading_of_line_None (l : string) :
  ~ is_heading_line l -> heading_of_line l = None.
Proof.
  intros H. unfold heading_of_line.
  destruct l as [|c1 l]; [reflexivity|].
  destruct c1 as [[] [] [] [] [] [] [] []]; try reflexivity.
  destruct l as [|c2 l]; [reflexivity|].
  destruct c2 as [[] [] [] [] [] [] [] []]; try reflexivity.
  destruct l as [|c3 t]; [reflexivity|].
  exfalso. apply H. exists (String c3 t). split; [discriminate | reflexivity].
Qed.

Lemma first_heading_here (l t : string) (ls : list string) :
  heading_of_line l = Some t -> first_heading (l :: ls) = Some t.
Proof. intros H. simpl. now rewrite H. Qed.

Lemma first_heading_skip (l : string) (ls : list string) :
  heading_of_line l = None -> first_heading (l :: ls) = first_heading ls.
Proof. intros H. simpl. now rewrite H. Qed.

Lemma search_heading_with_heading (before : list string) (text after : string) :
  Forall (fun l => PyStr.has_newline l = false /\ ~ is_heading_line l) before ->
  text <> "" -> PyStr.has_newline text = false ->
  (after = "" \/ exists rest, after = PyStr.NL +++ rest) ->
  search_heading (with_heading before text after) = Some text.
Proof.
  intros Hb Ht Hnl Ha. unfold search_heading, with_heading.
  induction Hb as [|l before [Hl Hh] Hb IH].
  - simpl String.concat. change ("" +++ "# " +++ text +++ after)
      with ("# " +++ text +++ after).
    assert (Hnl' : PyStr.has_newline ("# " +++ text) = false) by exact Hnl.
    destruct Ha as [->|[rest ->]].
    + rewrite append_nil_r.
      rewrite (lines_last _ Hnl').
      apply first_heading_here, heading_of_line_Some, Ht.
    + rewrite <- (append_assoc "# " text), (lines_first _ rest Hnl').
      apply first_heading_here, heading_of_line_Some, Ht.
  - simpl map. rewrite concat_empty_cons.
    rewrite !append_assoc. rewrite (lines_first l _ Hl).
    rewrite (first_heading_skip _ _ (heading_of_line_None l Hh)).
    exact IH.
Qed.

(** C4, as the script has it.  When the text read from a markdown file
    has a line [# text] (a hash, a space and at least one more character),
    [extract_title] returns the text of the first such line exactly as it
    stands up to the end of the line, white space included, whatever
    follows that line. *)
Theorem extract_title_first_heading (fs : node) (file_path : Path)
  (before : list string) (text after : string) :
  read_text fs file_path = Some (with_heading before text after) ->
  Forall (fun l => PyStr.has_newline l = false /\ ~ is_heading_line l) before ->
  text <> "" -> PyStr.has_newline text = false ->
  (after = "" \/ exists rest, after = PyStr.NL +++ rest) ->
  extract_title fs file_path = text.
Proof.
  intros Hr Hb Ht Hnl Ha. unfold extract_title. rewrite Hr.
  now rewrite (search_heading_with_heading before text after Hb Ht Hnl Ha).
Qed.

Lemma extract_title_first_heading_witness :
  extract_title fs_titles ["book"; "b.md"] = "Second line  ".
Proof.
  apply (extract_title_first_heading fs_titles ["book"; "b.md"] ["intro"]
           "Second line  " (PyStr.NL +++ "# Third")).
  - reflexivity.
  - constructor; [|constructor].
    split; [reflexivity|]. intros [t [_ H]]. discriminate H.
  - discriminate.
  - reflexivity.
  - right. exists "# Third". reflexivity.
Defined.

(** The heading [# Hello ] with a trailing space is returned with its
    space, where trimming would give [Hello]. *)
Lemma heading_not_trimmed : ~ heading_is_trimmed.
Proof.
  intros H.
  specialize (H fs_titles ["book"; "a.md"] [] "Hello " "").
  assert (E : extract_title fs_titles ["book"; "a.md"] = "Hello ") by reflexivity.
  rewrite E in H. clear E.
  assert (C : "Hello " = PyStr.strip "Hello ").
  { apply H.
    - reflexivity.
    - constructor.
    - discriminate.
    - reflexivity.
    - now left. }
  discriminate C.
Qed.

Lemma first_heading_None (ls : list string) :
  Forall (fun l => ~ is_heading_line l) ls -> first_heading ls = None.
Proof.
  induction 1 as [|l ls Hl _ IH]; [reflexivity|].
  now rewrite (first_heading_skip _ _ (heading_of_line_None l Hl)).
Qed.

(** C5, as the script has it.  For a file that cannot be read or decoded,
    and for a file whose text has no line [# text], [extract_title]
    returns the file name without its extension, hyphens replaced by
    spaces, title-cased; underscores stay.  [extract_title] is a total
    function: no exception leaves it. *)
Theorem extract_title_fallback (fs : node) (file_path : Path) :
  no_heading fs file_path ->
  extract_title fs file_path =
  PyStr.title (PyStr.replace "-" " " (PyStr.splitext_root (name file_path))).
Proof.
  unfold extract_title, search_heading, filename_title.
  intros [->|[content [-> H]]]; [reflexivity|].
  now rewrite (first_heading_None _ H).
Qed.

Lemma not_heading_line_short : ~ is_heading_line "".
Proof. intros [t [_ H]]. discriminate H. Qed.

Lemma no_heading_my_notes : no_heading fs_titles ["book"; "my_notes.md"].
Proof.
  right. eexists. split; [reflexivity|].
  simpl. constructor; [|constructor; [|constructor]].
  - intros [t [_ H]]. discriminate H.
  - exact not_heading_line_short.
Qed.

Lemma extract_title_fallback_witness :
  extract_title fs_titles ["book"; "02-set-up.md"] = "02 Set Up" /\
  extract_title fs_titles ["book"; "my_notes.md"] = "My_Notes".
Proof.
  split.
  - apply (extract_title_fallback fs_titles ["book"; "02-set-up.md"]).
    left. reflexivity.
  - apply (extract_title_fallback fs_titles ["book"; "my_notes.md"]).
    exact no_heading_my_notes.
Defined.

(** A file [my_notes.md] without heading gets the title [My_Notes], where
    replacing underscores would give [My Notes]. *)
Lemma fallback_keeps_underscores : ~ fallback_replaces_underscores.
Proof.
  intros H.
  specialize (H fs_titles ["book"; "my_notes.md"] no_heading_my_notes).
  discriminate H.
Qed.

(* ================================================================== *)
(** ** is_excluded *)

Section ExclusionFacts.

Context {engine : RegexEngine}.

Lemma is_excluded_false (path : Path) (pats : list string) :
  is_excluded path pats = Ok false <->
  forall pattern, In pattern pats ->
    exists r, re_compile pattern = Some r /\ re_found r (str path) = false.
Proof.
  induction pats as [|pat pats IH]; simpl.
  - split; [intros _ ? [] | reflexivity].
  - unfold re_search. destruct (re_compile pat) as [r|] eqn:Ec; simpl.
    + destruct (re_found r (str path)) eqn:Ef.
      * split; [discriminate|]. intros H.
        destruct (H pat (or_introl eq_refl)) as [r' [E1 E2]]. congruence.
      * rewrite IH. split.
        -- intros H p [<-|Hp]; eauto.
        -- intros H p Hp. apply H. now right.
    + split; [discriminate|]. intros H.
      destruct (H pat (or_introl eq_refl)) as [r' [E1 E2]]. congruence.
Qed.

Lemma is_excluded_false_no_match (path : Path) (pats : list string) :
  is_excluded path pats = Ok false -> ~ matches_some path pats.
Proof.
  intros H [pat [r [Hin [Hc Hf]]]].
  destruct (proj1 (is_excluded_false path pats) H pat Hin) as [r' [Hc' Hf']].
  congruence.
Qed.

Lemma negb_bind_true (m : result bool) :
  (x <- m ;; Ok (negb x)) = Ok true <-> m = Ok false.
Proof.
  destruct m as [[]|e]; simpl; split; intros H; congruence.
Qed.

Lemma keep_chapter_true (fs : node) (pats : list string) (d : Path) :
  keep_chapter fs pats d = Ok true <->
  is_dir fs d = true /\ is_excluded d pats = Ok false.
Proof.
  unfold keep_chapter. destruct (is_dir fs d).
  - rewrite negb_bind_true. tauto.
  - split; [discriminate | intros [H _]; discriminate].
Qed.

Lemma keep_md_true (pats : list string) (f : Path) :
  keep_md pats f = Ok true <-> is_excluded f pats = Ok false.
Proof. apply negb_bind_true. Qed.

Lemma keep_section_true (pats : list string) (f : Path) :
  keep_section pats f = Ok true <->
  name f <> "README.md" /\ is_excluded f pats = Ok false.
Proof.
  unfold keep_section. destruct (String.eqb_spec (name f) "README.md") as [E|E].
  - split; [discriminate | intros [H _]; contradiction].
  - rewrite negb_bind_true. tauto.
Qed.

Lemma keep_root_true (pats : list string) (f : Path) :
  keep_root pats f = Ok true <->
  name f <> "README.md" /\ name f <> "SUMMARY.md" /\
  is_excluded f pats = Ok false.
Proof.
  unfold keep_root. destruct (String.eqb_spec (name f) "README.md") as [E|E].
  - split; [discriminate | intros [H _]; contradiction].
  - destruct (String.eqb_spec (name f) "SUMMARY.md") as [E'|E'].
    + split; [discriminate | intros [_ [H _]]; contradiction].
    + rewrite negb_bind_true. tauto.
Qed.

End ExclusionFacts.

(* ================================================================== *)
(** ** Every entry has a known origin *)

Lemma Forall2_Forall_r {A B : Type} (R : A -> B -> Prop) (P : B -> Prop)
  (l : list A) (l' : list B) :
  Forall2 R l l' -> (forall x y, In x l -> R x y -> P y) -> Forall P l'.
Proof.
  induction 1 as [|x y l l' Hxy _ IH]; intros H; constructor.
  - apply (H x y); [now left | assumption].
  - apply IH. intros a b Ha. apply H. now right.
Qed.

Lemma lookup_app (fs : node) (p q : Path) :
  lookup fs (p ++ q) =
  match lookup fs p with
  | Some n => lookup n q
  | None => None
  end.
Proof.
  revert fs. induction p as [|seg p IH]; intros fs; simpl; [reflexivity|].
  destruct fs as [d|es]; [reflexivity|].
  destruct (child seg es); [apply IH | reflexivity].
Qed.

Lemma child_In (es : list (string * node)) (n : string) (c : node) :
  In (n, c) es -> exists c', child n es = Some c'.
Proof.
  induction es as [|[n' c'] es IH]; simpl; [tauto|].
  intros [H|H].
  - inversion H; subst. rewrite String.eqb_refl. eauto.
  - destruct (String.eqb n' n); eauto.
Qed.

(** What [glob] lists exists. *)
Lemma glob_md_exists (fs : node) (p : Path) (m : string) :
  In (p ++ [m]) (glob_md fs p) -> path_exists fs (p ++ [m]) = true.
Proof.
  unfold glob_md, path_exists. rewrite lookup_app.
  destruct (lookup fs p) as [[d|es]|]; simpl; try tauto.
  intros H. apply filter_In in H. destruct H as [H _].
  apply in_map_iff in H. destruct H as [[n c] [E Hin]]. simpl in E.
  apply app_inj_tail in E. destruct E as [_ E]. subst n.
  destruct (child_In es m c Hin) as [c' ->]. reflexivity.
Qed.

Section EmittedFacts.

Context {engine : RegexEngine}.
Variable fs : node.
Variable book_root : Path.
Variable exclude : list string.

Lemma file_entry_app (d : nat) (rel : Path) :
  file_entry fs book_root d (book_root ++ rel) =
  Ok (mkEntry (extract_title fs (book_root ++ rel)) (Some rel) d).
Proof. unfold file_entry. now rewrite relative_to_app. Qed.

Lemma chapter_dirs_visited (ds : list Path) (d : Path) :
  is_dir fs (book_root ++ ["chapters"]) = true ->
  chapter_dirs fs book_root exclude = Ok ds ->
  In d ds ->
  exists n, d = book_root ++ ["chapters"; n] /\
            visited_chapter fs book_root exclude n.
Proof.
  unfold chapter_dirs. intros Hdir H Hd.
  apply bind_Ok_inv in H. destruct H as [l [Hl H]].
  apply bind_Ok_inv in H. destruct H as [kept [Hk H]].
  inversion H; subst; clear H.
  apply (proj1 (sorted_In _ _)) in Hd.
  apply (proj1 (filterM_In _ _ _ Hk _)) in Hd. destruct Hd as [Hd Hkeep].
  destruct (iterdir_shape _ _ _ Hl _ Hd) as [n ->].
  apply (proj1 (keep_chapter_true _ _ _)) in Hkeep.
  rewrite <- app_assoc in *. simpl in *.
  exists n. split; [reflexivity|]. unfold visited_chapter. tauto.
Qed.

Lemma sections_emitted (n : string) (files : list Path) (es : list Entry) :
  visited_chapter fs book_root exclude n ->
  (forall f, In f files ->
     In f (glob_md fs (book_root ++ ["chapters"; n])) /\
     name f <> "README.md" /\ is_excluded f exclude = Ok false) ->
  mapM (file_entry fs book_root 1) files = Ok es ->
  Forall (emitted fs book_root exclude) es.
Proof.
  intros Hv Hf Hm. apply (proj1 (mapM_Forall2 _ _ _)) in Hm.
  apply (Forall2_Forall_r _ _ _ _ Hm). intros f e Hin He.
  destruct (Hf f Hin) as [Hg [Hn Hx]].
  destruct (glob_md_shape _ _ _ Hg) as [m [-> _]].
  rewrite name_snoc in Hn.
  rewrite <- app_assoc in *. simpl in *.
  rewrite file_entry_app in He. inversion He; subst.
  now apply emitted_section.
Qed.

Lemma chapter_entries_emitted (n : string) (es : list Entry) :
  visited_chapter fs book_root exclude n ->
  chapter_entries fs book_root exclude (book_root ++ ["chapters"; n]) = Ok es ->
  Forall (emitted fs book_root exclude) es.
Proof.
  intros Hv. unfold chapter_entries.
  rewrite <- app_assoc. simpl app.
  destruct (path_exists fs (book_root ++ ["chapters"; n; "README.md"])) eqn:Er.
  - rewrite file_entry_app. simpl bind. intros H.
    apply bind_Ok_inv in H. destruct H as [kept [Hk H]].
    apply bind_Ok_inv in H. destruct H as [secs [Hs H]].
    inversion H; subst; clear H. constructor.
    + now apply emitted_chapter.
    + apply (sections_emitted n (sorted kept)); auto.
      intros f Hf. apply (proj1 (sorted_In _ _)) in Hf.
      apply (proj1 (filterM_In _ _ _ Hk _)) in Hf. destruct Hf as [Hf Hkeep].
      apply (proj1 (keep_section_true _ _)) in Hkeep. tauto.
  - intros H.
    apply bind_Ok_inv in H. destruct H as [kept [Hk H]].
    destruct (sorted kept) as [|f0 l0] eqn:Es.
    + inversion H. constructor.
    + apply bind_Ok_inv in H. destruct H as [secs [Hs H]].
      inversion H; subst; clear H. constructor.
      * rewrite name_snoc_cons. now apply emitted_heading.
      * apply (sections_emitted n (f0 :: l0)); auto.
        intros f Hf. rewrite <- Es in Hf. apply (proj1 (sorted_In _ _)) in Hf.
        apply (proj1 (filterM_In _ _ _ Hk _)) in Hf. destruct Hf as [Hf Hkeep].
        apply (proj1 (keep_md_true _ _)) in Hkeep. split; [assumption|]. split; [|assumption].
        destruct (glob_md_shape _ _ _ Hf) as [m [-> _]].
        rewrite name_snoc. intros ->.
        apply glob_md_exists in Hf. rewrite <- app_assoc in Hf. simpl in Hf.
        congruence.
Qed.

Lemma is_dir_exists (p : Path) : is_dir fs p = true -> path_exists fs p = true.
Proof.
  unfold is_dir, path_exists. destruct (lookup fs p) as [[|]|]; congruence.
Qed.

Lemma chapters_test (p : Path) :
  path_exists fs p && is_dir fs p = is_dir fs p.
Proof.
  destruct (is_dir fs p) eqn:E; [|apply andb_false_r].
  now rewrite (is_dir_exists p E).
Qed.

(** Every entry of the table of contents was appended at one of the five
    places, under the conditions tested there. *)
Lemma summary_entries_emitted (es : list Entry) :
  summary_entries fs book_root exclude = Ok es ->
  Forall (emitted fs book_root exclude) es.
Proof.
  unfold summary_entries. rewrite chapters_test.
  assert (Hintro : Forall (emitted fs book_root exclude)
                          (intro_entries fs book_root)).
  { unfold intro_entries.
    destruct (path_exists fs (book_root ++ ["README.md"])) eqn:E;
      constructor; [now apply emitted_intro | constructor]. }
  destruct (is_dir fs (book_root ++ ["chapters"])) eqn:Edir; intros H.
  - apply bind_Ok_inv in H. destruct H as [ds [Hds H]].
    apply bind_Ok_inv in H. destruct H as [chs [Hchs H]].
    inversion H; subst; clear H.
    apply Forall_app. split; [assumption|].
    apply Forall_concat. apply (proj1 (mapM_Forall2 _ _ _)) in Hchs.
    apply (Forall2_Forall_r _ _ _ _ Hchs). intros d ces Hd Hc.
    destruct (chapter_dirs_visited ds d Edir Hds Hd) as [n [-> Hv]].
    now apply (chapter_entries_emitted n).
  - apply bind_Ok_inv in H. destruct H as [files [Hfiles H]].
    apply bind_Ok_inv in H. destruct H as [res [Hres H]].
    inversion H; subst; clear H.
    apply Forall_app. split; [assumption|].
    unfold root_files in Hfiles.
    apply bind_Ok_inv in Hfiles. destruct Hfiles as [kept [Hk Hfiles]].
    inversion Hfiles; subst; clear Hfiles.
    apply (proj1 (mapM_Forall2 _ _ _)) in Hres.
    apply (Forall2_Forall_r _ _ _ _ Hres). intros f e Hf He.
    apply (proj1 (sorted_In _ _)) in Hf.
    apply (proj1 (filterM_In _ _ _ Hk _)) in Hf. destruct Hf as [Hf Hkeep].
    apply (proj1 (keep_root_true _ _)) in Hkeep. destruct Hkeep as [H1 [H2 H3]].
    destruct (glob_md_shape _ _ _ Hf) as [m [-> _]].
    rewrite name_snoc in H1, H2.
    rewrite file_entry_app in He. inversion He; subst.
    now apply emitted_root.
Qed.

End EmittedFacts.

(* ================================================================== *)
(** ** generate_summary: the document *)

(** The lines of a document that can all be encoded are all written. *)
Lemma encodable_prefix_all (content : list string) :
  forallb PyStr.encodable content = true -> encodable_prefix content = content.
Proof.
  induction content as [|l content IH]; simpl; [reflexivity|].
  intros H. apply andb_true_iff in H. destruct H as [Hl Hc].
  now rewrite Hl, IH.
Qed.

Lemma writelines_Ok_inv (fs fs' : node) (output_file : Path)
  (content : list string) (u : unit) :
  writelines fs output_file content = (fs', Ok u) ->
  forallb PyStr.encodable content = true /\
  write_file fs output_file (String.concat "" content) = Some fs'.
Proof.
  unfold writelines.
  destruct (write_file fs output_file _) as [fs1|] eqn:Ew; [|discriminate].
  destruct (forallb PyStr.encodable content) eqn:Ee; [|discriminate].
  intros H. inversion H; subst. split; [reflexivity|].
  now rewrite (encodable_prefix_all _ Ee) in Ew.
Qed.

Lemma writelines_Ok_intro (fs fs' : node) (output_file : Path)
  (content : list string) :
  forallb PyStr.encodable content = true ->
  write_file fs output_file (String.concat "" content) = Some fs' ->
  writelines fs output_file content = (fs', Ok tt).
Proof.
  intros Ee Hw. unfold writelines.
  now rewrite (encodable_prefix_all _ Ee), Hw, Ee.
Qed.

(** [writelines] changes the filesystem only by opening the file. *)
Lemma writelines_cases (fs fs' : node) (output_file : Path)
  (content : list string) (r : result unit) :
  writelines fs output_file content = (fs', r) ->
  fs' = fs \/ exists data, write_file fs output_file data = Some fs'.
Proof.
  unfold writelines.
  destruct (write_file fs output_file _) as [fs1|] eqn:Ew;
    intros H; inversion H; subst; eauto.
Qed.

Section DocumentFacts.

Context {engine : RegexEngine}.

(** A run changes the filesystem only by opening the output file. *)
Lemma generate_summary_cases (fs fs' : node) (book_root output_file : Path)
  (exclude : option (list string)) (r : result (list string)) :
  generate_summary fs book_root output_file exclude = (fs', r) ->
  fs' = fs \/ exists data, write_file fs output_file data = Some fs'.
Proof.
  unfold generate_summary.
  destruct (summary_content fs book_root (effective_exclude exclude)) as [c|e].
  - destruct (writelines fs output_file c) as [fs1 [u|e]] eqn:Ew;
      intros H; inversion H; subst; exact (writelines_cases _ _ _ _ _ Ew).
  - intros H; inversion H. now left.
Qed.

(** A run that returns has built the document, found all of its lines
    encodable and left them in the file. *)
Lemma generate_summary_run_inv (fs fs' : node) (book_root output_file : Path)
  (exclude : option (list string)) (content : list string) :
  generate_summary fs book_root output_file exclude = (fs', Ok content) ->
  summary_content fs book_root (effective_exclude exclude) = Ok content /\
  forallb PyStr.encodable content = true /\
  write_file fs output_file (String.concat "" content) = Some fs'.
Proof.
  unfold generate_summary.
  destruct (summary_content fs book_root (effective_exclude exclude))
    as [c|e]; [|discriminate].
  destruct (writelines fs output_file c) as [fs1 [u|e]] eqn:Ew; [|discriminate].
  intros H. inversion H; subst.
  destruct (writelines_Ok_inv _ _ _ _ _ Ew). auto.
Qed.

Lemma generate_summary_run_intro (fs fs' : node) (book_root output_file : Path)
  (exclude : option (list string)) (content : list string) :
  summary_content fs book_root (effective_exclude exclude) = Ok content ->
  forallb PyStr.encodable content = true ->
  write_file fs output_file (String.concat "" content) = Some fs' ->
  generate_summary fs book_root output_file exclude = (fs', Ok content).
Proof.
  intros Hc He Hw. unfold generate_summary.
  now rewrite Hc, (writelines_Ok_intro _ _ _ _ He Hw).
Qed.

Lemma generate_summary_content_inv (fs fs' : node) (book_root output_file : Path)
  (exclude : option (list string)) (content : list string) :
  generate_summary fs book_root output_file exclude = (fs', Ok content) ->
  summary_content fs book_root (effective_exclude exclude) = Ok content /\
  write_file fs output_file (String.concat "" content) = Some fs'.
Proof.
  intros H. apply generate_summary_run_inv in H. tauto.
Qed.

Lemma generate_summary_Ok_inv (fs fs' : node) (book_root output_file : Path)
  (exclude : option (list string)) (content : list string) :
  generate_summary fs book_root output_file exclude = (fs', Ok content) ->
  exists entries,
    summary_entries fs book_root (effective_exclude exclude) = Ok entries /\
    content = header :: map render entries /\
    write_file fs output_file (String.concat "" content) = Some fs'.
Proof.
  intros H. apply generate_summary_content_inv in H. destruct H as [Hc Hw].
  rewrite summary_content_render in Hc.
  destruct (summary_entries fs book_root (effective_exclude exclude))
    as [es|e]; simpl in Hc; [|discriminate].
  inversion Hc; subst. eauto.
Qed.



(** C2, as the script has it.  No entry is listed for a path that matches
    an exclusion pattern unless the file is named README.md, and no entry
    is listed from inside a chapter directory that matches a pattern. *)
Theorem excluded_paths_not_listed (fs fs' : node) (book_root output_file : Path)
  (exclude : option (list string)) (content : list string) :
  generate_summary fs book_root output_file exclude = (fs', Ok content) ->
  exists entries,
    summary_entries fs book_root (effective_exclude exclude) = Ok entries /\
    content = header :: map render entries /\
    (forall e rel,
        In e entries -> target e = Some rel -> name rel <> "README.md" ->
        ~ matches_some (book_root ++ rel) (effective_exclude exclude)) /\
    (forall e n rest,
        In e entries -> target e = Some ("chapters" :: n :: rest) ->
        ~ matches_some (book_root ++ ["chapters"; n]) (effective_exclude exclude)).
Proof.
  intros H. apply generate_summary_Ok_inv in H.
  destruct H as [es [Hes [-> Hw]]].
  exists es. split; [assumption|]. split; [reflexivity|].
  pose proof (summary_entries_emitted _ _ _ _ Hes) as Hem.
  rewrite Forall_forall in Hem.
  split.
  - intros e rel Hin Ht Hn. specialize (Hem e Hin).
    destruct Hem as [Hr|n Hv Hr|n Hv Hr|n m Hv Hg Hm Hx|m Hd Hg Hm1 Hm2 Hx];
      simpl in Ht; inversion Ht; subst; clear Ht.
    + exfalso. now apply Hn.
    + exfalso. apply Hn. reflexivity.
    + now apply is_excluded_false_no_match.
    + now apply is_excluded_false_no_match.
  - intros e n rest Hin Ht. specialize (Hem e Hin).
    destruct Hem as [Hr|n' Hv Hr|n' Hv Hr|n' m Hv Hg Hm Hx|m Hd Hg Hm1 Hm2 Hx];
      simpl in Ht; inversion Ht; subst; clear Ht;
      apply is_excluded_false_no_match; apply Hv.
Qed.

End DocumentFacts.


Lemma excluded_paths_not_listed_witness :
  exists entries,
    summary_entries (engine := mini_engine) fs_book book_root_ex
      (effective_exclude None) = Ok entries /\
    book_content = header :: map render entries /\
    (forall e rel,
        In e entries -> target e = Some rel -> name rel <> "README.md" ->
        ~ matches_some (engine := mini_engine) (book_root_ex ++ rel)
            (effective_exclude None)) /\
    (forall e n rest,
        In e entries -> target e = Some ("chapters" :: n :: rest) ->
        ~ matches_some (engine := mini_engine)
            (book_root_ex ++ ["chapters"; n]) (effective_exclude None)).
Proof.
  apply (excluded_paths_not_listed (engine := mini_engine)
           fs_book (fst book_run) book_root_ex book_output None book_content).
  vm_compute. reflexivity.
Defined.

(** With the pattern [README], the README.md of the root matches and is
    listed all the same. *)
Lemma readme_listed_though_excluded : ~ excluded_never_listed.
Proof.
  intros H.
  assert (Hrun : exists fs' content,
             generate_summary (engine := mini_engine) fs_book book_root_ex
               book_output (Some ["README"]) = (fs', Ok content))
    by (vm_compute; eauto).
  destruct Hrun as [fs' [content Hrun]].
  assert (Hes : exists entries,
             summary_entries (engine := mini_engine) fs_book book_root_ex
               (effective_exclude (Some ["README"])) = Ok entries /\
             In (mkEntry "Welcome" (Some ["README.md"]) 0) entries)
    by (vm_compute; eexists; split; [reflexivity | now left]).
  destruct Hes as [entries [Hes Hin]].
  apply (H _ _ _ _ _ _ _ Hrun Hes _ ["README.md"] Hin eq_refl).
  exists "README". eexists. split; [now left|]. split.
  - vm_compute. reflexivity.
  - vm_compute. reflexivity.
Qed.

(* ================================================================== *)
(** ** The order and the content of the listing *)

Lemma leb_ltb (a b : string) : String.leb a b = true <-> String.ltb b a = false.
Proof.
  unfold String.leb, String.ltb. rewrite (String.compare_antisym a b).
  destruct (String.compare b a); simpl; split; congruence.
Qed.

Lemma StronglySorted_In_impl {A : Type} (R R' : A -> A -> Prop) (l : list A) :
  StronglySorted R l ->
  (forall a b, In a l -> In b l -> R a b -> R' a b) ->
  StronglySorted R' l.
Proof.
  induction 1 as [|x l Hl IH Hx]; intros H; constructor.
  - apply IH. intros a b Ha Hb. apply H; now right.
  - rewrite Forall_forall in *. intros y Hy.
    apply H; [now left | now right | now apply Hx].
Qed.

(** [sorted] puts the entries of one directory in the order of their
    names. *)
Lemma sorted_siblings (dir : Path) (l : list Path) :
  (forall f, In f l -> exists m, f = dir ++ [m]) ->
  StronglySorted name_le (sorted l).
Proof.
  intros H. apply (StronglySorted_In_impl path_le); [apply sorted_sorted|].
  intros a b Ha Hb.
  apply (proj1 (sorted_In _ _)) in Ha. apply (proj1 (sorted_In _ _)) in Hb.
  destruct (H a Ha) as [m ->]. destruct (H b Hb) as [m' ->].
  unfold path_le, name_le. rewrite !name_snoc, path_ltb_siblings.
  apply leb_ltb.
Qed.

Lemma nodupb_NoDup (l : list string) : nodupb l = true -> NoDup l.
Proof.
  induction l as [|x l IH]; simpl; intros H; [constructor|].
  apply andb_true_iff in H. destruct H as [Hx Hl].
  constructor; [|now apply IH].
  intros Hin. apply negb_true_iff in Hx.
  assert (E : existsb (String.eqb x) l = true)
    by (apply existsb_exists; exists x; split; [exact Hin | apply String.eqb_refl]).
  congruence.
Qed.

Lemma NoDup_siblings (dir : Path) (names : list string) :
  NoDup names -> NoDup (map (fun n => dir ++ [n]) names).
Proof.
  induction 1 as [|n names Hn Hnd IH]; simpl; constructor; [|exact IH].
  intros Hin. apply in_map_iff in Hin. destruct Hin as [m [E Hm]].
  apply app_inv_head in E. inversion E; subst. contradiction.
Qed.

(** A directory whose entries have distinct names is listed without
    repeats. *)
Lemma distinct_iterdir (fs : node) (dir : Path) (l : list Path) :
  distinct_names fs dir = true -> iterdir fs dir = Ok l -> NoDup l.
Proof.
  unfold distinct_names, iterdir.
  destruct (lookup fs dir) as [[d|es]|]; try discriminate.
  intros Hn H. inversion H; subst.
  rewrite <- (map_map fst (fun n => dir ++ [n])).
  apply NoDup_siblings. now apply nodupb_NoDup.
Qed.

Lemma distinct_glob_md (fs : node) (dir : Path) :
  distinct_names fs dir = true -> NoDup (glob_md fs dir).
Proof.
  unfold distinct_names, glob_md.
  destruct (lookup fs dir) as [[d|es]|]; try (intros; constructor).
  intros Hn. apply NoDup_filter.
  rewrite <- (map_map fst (fun n => dir ++ [n])).
  apply NoDup_siblings. now apply nodupb_NoDup.
Qed.

Lemma filterM_NoDup {A : Type} (cond : A -> result bool) (l r : list A) :
  filterM cond l = Ok r -> NoDup l -> NoDup r.
Proof.
  revert r. induction l as [|x l IH]; simpl; intros r H Hl.
  - inversion H. constructor.
  - apply bind_Ok_inv in H. destruct H as [b [Hb H]].
    apply bind_Ok_inv in H. destruct H as [xs [Hxs H]].
    inversion H; subst; clear H. inversion Hl as [|? ? Hx Hl']; subst.
    specialize (IH _ Hxs Hl'). destruct b; [|exact IH].
    constructor; [|exact IH]. intros Hin.
    apply (proj1 (filterM_In _ _ _ Hxs x)) in Hin. tauto.
Qed.

Lemma filterM_each {A : Type} (cond : A -> result bool) (l r : list A) :
  filterM cond l = Ok r -> forall x, In x l -> exists b, cond x = Ok b.
Proof.
  revert r. induction l as [|y l IH]; simpl; intros r H x Hx; [contradiction|].
  apply bind_Ok_inv in H. destruct H as [b [Hb H]].
  apply bind_Ok_inv in H. destruct H as [xs [Hxs H]].
  destruct Hx as [->|Hx]; [eauto | exact (IH _ Hxs x Hx)].
Qed.

(** [sorted] puts the entries of one directory, each listed once, in the
    strict order of their names. *)
Lemma sorted_siblings_strict (dir : Path) (l : list Path) :
  (forall f, In f l -> exists m, f = dir ++ [m]) ->
  NoDup l ->
  StronglySorted name_lt (sorted l).
Proof.
  intros H Hnd.
  assert (Hnd' : NoDup (sorted l))
    by (apply (Permutation_NoDup (sorted_perm l)); exact Hnd).
  pose proof (sorted_sorted l) as Hs.
  assert (Hin : forall f, In f (sorted l) -> exists m, f = dir ++ [m])
    by (intros f Hf; apply H; now apply sorted_In).
  induction Hs as [|x s Hs IH Hx]; constructor.
  - inversion Hnd'; subst. apply IH; [assumption|].
    intros f Hf. apply Hin. now right.
  - inversion Hnd' as [|? ? Hnx _]; subst.
    rewrite Forall_forall in *. intros y Hy.
    destruct (Hin x (or_introl eq_refl)) as [m ->].
    destruct (Hin y (or_intror Hy)) as [m' ->].
    unfold name_lt. rewrite !name_snoc, <- (path_ltb_siblings dir).
    specialize (Hx _ Hy). unfold path_le in Hx.
    destruct (path_ltb (dir ++ [m]) (dir ++ [m'])) eqn:E; [reflexivity|].
    exfalso. apply Hnx. rewrite (path_ltb_total _ _ E Hx). exact Hy.
Qed.

Lemma name_lt_le (l : list Path) :
  StronglySorted name_lt l -> StronglySorted name_le l.
Proof.
  intros H. apply (StronglySorted_In_impl name_lt); [exact H|].
  intros a b _ _. unfold name_lt, name_le, String.ltb, String.leb.
  now destruct (String.compare (name a) (name b)).
Qed.

Section ListingFacts.

Context {engine : RegexEngine}.
Variable fs : node.
Variable book_root : Path.
Variable exclude : list string.

Lemma is_dir_iterdir (p : Path) :
  is_dir fs p = true -> exists l, iterdir fs p = Ok l.
Proof.
  unfold is_dir, iterdir. destruct (lookup fs p) as [[|es]|]; try discriminate.
  eauto.
Qed.

(** The directories of the [for] loop over the chapters. *)
Lemma chapter_dirs_spec (ds : list Path) :
  chapter_dirs fs book_root exclude = Ok ds ->
  exists listing,
    iterdir fs (book_root ++ ["chapters"]) = Ok listing /\
    (forall d, In d ds <->
               In d listing /\ is_dir fs d = true /\
               is_excluded d exclude = Ok false) /\
    StronglySorted name_le ds.
Proof.
  unfold chapter_dirs. intros H.
  apply bind_Ok_inv in H. destruct H as [listing [Hl H]].
  apply bind_Ok_inv in H. destruct H as [kept [Hk H]].
  inversion H; subst; clear H.
  exists listing. split; [assumption|]. split.
  - intros d. rewrite sorted_In, (filterM_In _ _ _ Hk d), keep_chapter_true.
    tauto.
  - apply (sorted_siblings (book_root ++ ["chapters"])).
    intros f Hf. apply (proj1 (filterM_In _ _ _ Hk f)) in Hf.
    destruct Hf as [Hf _]. exact (iterdir_shape _ _ _ Hl f Hf).
Qed.

(** The files of the [for] loop of a book without chapters. *)
Lemma root_files_spec (files : list Path) :
  root_files fs book_root exclude = Ok files ->
  (forall f, In f files <->
             In f (glob_md fs book_root) /\
             name f <> "README.md" /\ name f <> "SUMMARY.md" /\
             is_excluded f exclude = Ok false) /\
  StronglySorted name_le files.
Proof.
  unfold root_files. intros H.
  apply bind_Ok_inv in H. destruct H as [kept [Hk H]].
  inversion H; subst; clear H. split.
  - intros f. rewrite sorted_In, (filterM_In _ _ _ Hk f), keep_root_true.
    tauto.
  - apply (sorted_siblings book_root).
    intros f Hf. apply (proj1 (filterM_In _ _ _ Hk f)) in Hf.
    destruct Hf as [Hf _].
    destruct (glob_md_shape _ _ _ Hf) as [m [-> _]]. eauto.
Qed.

Lemma file_entry_listed (dir : Path) (rel_dir : Path) (d : nat)
  (files : list Path) :
  dir = book_root ++ rel_dir ->
  (forall f, In f files -> exists m, f = dir ++ [m]) ->
  mapM (file_entry fs book_root d) files =
  Ok (map (fun f => mkEntry (extract_title fs f) (Some (rel_dir ++ [name f])) d)
          files).
Proof.
  intros -> H. apply mapM_pure. intros f Hf.
  destruct (H f Hf) as [m ->]. rewrite name_snoc.
  rewrite <- app_assoc. apply file_entry_app.
Qed.

End ListingFacts.

Section ListingTheorems.

Context {engine : RegexEngine}.


Lemma intro_lines_render (fs : node) (book_root : Path) :
  (if path_exists fs (book_root ++ ["README.md"])
   then ["* [" +++ extract_title fs (book_root ++ ["README.md"])
           +++ "](README.md)" +++ PyStr.NL]
   else []) = map render (intro_entries fs book_root).
Proof.
  unfold intro_entries.
  destruct (path_exists fs (book_root ++ ["README.md"])); reflexivity.
Qed.

Lemma child_Some_In (es : list (string * node)) (n : string) (c : node) :
  child n es = Some c -> In (n, c) es.
Proof.
  induction es as [|[n' c'] es IH]; simpl; [discriminate|].
  destruct (String.eqb_spec n' n) as [->|Hne].
  - intros H; inversion H; subst. now left.
  - intros H. right. now apply IH.
Qed.

(** A directory is listed by its parent. *)
Lemma is_dir_listed (fs : node) (p : Path) (n : string) (l : list Path) :
  is_dir fs (p ++ [n]) = true -> iterdir fs p = Ok l -> In (p ++ [n]) l.
Proof.
  unfold is_dir, iterdir. rewrite lookup_app.
  destruct (lookup fs p) as [[d|es]|]; simpl; try discriminate.
  destruct (child n es) as [c|] eqn:Ec; [|discriminate].
  intros _ H. inversion H; subst.
  apply in_map_iff. exists (n, c). split; [reflexivity|].
  now apply child_Some_In.
Qed.

Lemma StronglySorted_map {A B : Type} (f : A -> B) (R : B -> B -> Prop)
  (l : list A) :
  StronglySorted (fun a b => R (f a) (f b)) l -> StronglySorted R (map f l).
Proof.
  induction 1 as [|x l Hl IH Hx]; simpl; constructor; [exact IH|].
  rewrite Forall_forall in *. intros y Hy. apply in_map_iff in Hy.
  destruct Hy as [a [<- Ha]]. now apply Hx.
Qed.

Lemma Forall2_map_names {B : Type} (P : Path -> B -> Prop)
  (Q : string -> B -> Prop) (l : list Path) (bs : list B) :
  Forall2 P l bs ->
  (forall d b, In d l -> P d b -> Q (name d) b) ->
  Forall2 Q (map name l) bs.
Proof.
  induction 1 as [|d b l bs Hd Hl IH]; intros H; simpl; constructor.
  - apply H; [now left | exact Hd].
  - apply IH. intros d' b' Hin. apply H. now right.
Qed.

(** What [chapter_entries] returns for a chapter directory is the block
    of that directory. *)
Lemma chapter_entries_block (fs : node) (book_root : Path)
  (exclude : list string) (n : string) (block : list Entry) :
  chapter_entries fs book_root exclude (book_root ++ ["chapters"; n]) = Ok block ->
  chapter_block fs book_root exclude n block.
Proof.
  unfold chapter_entries, chapter_block. cbv zeta.
  assert (Hsections : forall files sections,
             (forall f, In f files ->
                        exists m, f = (book_root ++ ["chapters"; n]) ++ [m]) ->
             mapM (file_entry fs book_root 1) files = Ok sections ->
             List.length sections = List.length files /\
             Forall (section_of n) sections).
  { intros files sections Hshape Hm.
    rewrite (file_entry_listed fs book_root (book_root ++ ["chapters"; n])
               ["chapters"; n] 1 files eq_refl Hshape) in Hm.
    inversion Hm; subst. split; [apply length_map|].
    apply Forall_forall. intros e He. apply in_map_iff in He.
    destruct He as [f [<- _]]. split; [reflexivity|]. simpl. eauto. }
  assert (Hkept : forall cond kept,
             filterM cond (glob_md fs (book_root ++ ["chapters"; n])) = Ok kept ->
             forall f, In f (sorted kept) ->
                       exists m, f = (book_root ++ ["chapters"; n]) ++ [m]).
  { intros cond kept Hk f Hf. apply (proj1 (sorted_In _ _)) in Hf.
    apply (proj1 (filterM_In _ _ _ Hk f)) in Hf. destruct Hf as [Hf _].
    destruct (glob_md_shape _ _ _ Hf) as [m [-> _]]. eauto. }
  destruct (path_exists fs ((book_root ++ ["chapters"; n]) ++ ["README.md"])).
  - unfold file_entry at 1. rewrite <- app_assoc at 1. simpl app.
    rewrite relative_to_app. cbn [bind].
    intros H. apply bind_Ok_inv in H. destruct H as [kept [Hk H]].
    apply bind_Ok_inv in H. destruct H as [sections [Hs H]].
    inversion H; subst; clear H. exists sections. split.
    + rewrite <- app_assoc. reflexivity.
    + exact (proj2 (Hsections _ _ (Hkept _ _ Hk) Hs)).
  - intros H. apply bind_Ok_inv in H. destruct H as [kept [Hk H]].
    destruct (sorted kept) as [|f0 files] eqn:Es.
    + inversion H; subst. left. split; [reflexivity|].
      intros f Hf. destruct (filterM_each _ _ _ Hk f Hf) as [b Hb].
      destruct b.
      * assert (Hin : In f (sorted kept))
          by (apply sorted_In; apply (filterM_In _ _ _ Hk f); auto).
        rewrite Es in Hin. destruct Hin.
      * unfold keep_md in Hb.
        destruct (is_excluded f exclude) as [[]|e]; simpl in Hb;
          try discriminate; reflexivity.
    + apply bind_Ok_inv in H. destruct H as [sections [Hs H]].
      inversion H; subst; clear H. right. exists sections.
      rewrite <- Es in Hs.
      destruct (Hsections _ _ (Hkept _ _ Hk) Hs) as [Hlen Hall].
      split; [|split].
      * intros ->. rewrite Es in Hlen. discriminate Hlen.
      * now rewrite name_snoc_cons.
      * exact Hall.
Qed.

(** C7.  In a book with a [chapters] directory the table of contents is
    the introduction followed by one block for each subdirectory of
    [chapters] that matches no exclusion pattern, each directory once, in
    the strict order of the directory names.  The block of a directory
    starts with the entry of the chapter: the link to its README.md, or
    the unlinked title made from its name when it has no README.md but
    markdown files; it is empty only when the directory has neither. *)
Theorem chapters_in_name_order (fs fs' : node) (book_root output_file : Path)
  (exclude : option (list string)) (content : list string) :
  is_dir fs (book_root ++ ["chapters"]) = true ->
  distinct_names fs (book_root ++ ["chapters"]) = true ->
  generate_summary fs book_root output_file exclude = (fs', Ok content) ->
  exists names blocks,
    (forall n, In n names <->
               is_dir fs (book_root ++ ["chapters"; n]) = true /\
               is_excluded (book_root ++ ["chapters"; n])
                 (effective_exclude exclude) = Ok false) /\
    StronglySorted (fun a b => String.ltb a b = true) names /\
    Forall2 (chapter_block fs book_root (effective_exclude exclude)) names blocks /\
    content = header :: map render (intro_entries fs book_root
                                      ++ List.concat blocks).
Proof.
  intros Hdir Hnd H. apply generate_summary_Ok_inv in H.
  destruct H as [entries [Hes [-> _]]].
  unfold summary_entries in Hes. rewrite chapters_test, Hdir in Hes.
  apply bind_Ok_inv in Hes. destruct Hes as [ds [Hds Hes]].
  apply bind_Ok_inv in Hes. destruct Hes as [blocks [Hb Hes]].
  inversion Hes; subst; clear Hes.
  unfold chapter_dirs in Hds.
  apply bind_Ok_inv in Hds. destruct Hds as [listing [Hl Hds]].
  apply bind_Ok_inv in Hds. destruct Hds as [kept [Hk Hds]].
  inversion Hds; subst; clear Hds.
  assert (Hshape : forall d, In d kept ->
                     exists n, d = (book_root ++ ["chapters"]) ++ [n]).
  { intros d Hd. apply (proj1 (filterM_In _ _ _ Hk d)) in Hd.
    destruct Hd as [Hd _]. exact (iterdir_shape _ _ _ Hl d Hd). }
  exists (map name (sorted kept)), blocks.
  split; [|split; [|split; [|reflexivity]]].
  - intros n. rewrite in_map_iff. split.
    + intros [d [<- Hd]]. apply (proj1 (sorted_In _ _)) in Hd.
      destruct (Hshape d Hd) as [m ->]. rewrite name_snoc.
      apply (proj1 (filterM_In _ _ _ Hk _)) in Hd. destruct Hd as [_ Hd].
      apply (proj1 (keep_chapter_true _ _ _)) in Hd.
      rewrite <- app_assoc in Hd. exact Hd.
    + intros [Hd Hx]. exists ((book_root ++ ["chapters"]) ++ [n]).
      split; [apply name_snoc|]. apply sorted_In.
      apply (filterM_In _ _ _ Hk). split.
      * apply (is_dir_listed fs (book_root ++ ["chapters"]) n listing);
          [|exact Hl]. rewrite <- app_assoc. exact Hd.
      * apply keep_chapter_true. rewrite <- app_assoc. auto.
  - apply StronglySorted_map.
    apply (sorted_siblings_strict (book_root ++ ["chapters"]) kept Hshape).
    exact (filterM_NoDup _ _ _ Hk (distinct_iterdir _ _ _ Hnd Hl)).
  - apply (Forall2_map_names
             (fun d b => chapter_entries fs book_root (effective_exclude exclude) d
                         = Ok b));
      [now apply mapM_Forall2|].
    intros d b Hd Hc. apply (proj1 (sorted_In _ _)) in Hd.
    destruct (Hshape d Hd) as [n ->]. rewrite name_snoc.
    apply chapter_entries_block. rewrite <- app_assoc in Hc. exact Hc.
Qed.

Lemma section_line_listed (fs : node) (book_root rel_dir : Path) (m : string) :
  section_line fs book_root ((book_root ++ rel_dir) ++ [m]) =
  Ok ("  * [" +++ extract_title fs ((book_root ++ rel_dir) ++ [m]) +++ "]("
        +++ str_rel (rel_dir ++ [m]) +++ ")" +++ PyStr.NL).
Proof.
  unfold section_line. rewrite <- app_assoc, relative_to_app. reflexivity.
Qed.

Lemma mapM_pure_inv {A B : Type} (f : A -> result B) (g : A -> B)
  (l : list A) (l' : list B) :
  (forall x, In x l -> f x = Ok (g x)) -> mapM f l = Ok l' -> l' = map g l.
Proof.
  intros H Hm. rewrite (mapM_pure f g l H) in Hm. congruence.
Qed.


End ListingTheorems.

Section FlatBook.

Context {engine : RegexEngine}.

Lemma root_line_listed (fs : node) (book_root : Path) (m : string) :
  root_line fs book_root (book_root ++ [m]) =
  Ok ("* [" +++ extract_title fs (book_root ++ [m]) +++ "](" +++ m +++ ")"
        +++ PyStr.NL).
Proof. unfold root_line. rewrite relative_to_app. reflexivity. Qed.

(** X23.  In a book without [chapters] directory the document lists,
    after the introduction when there is one, the [*.md] entries of the
    root that are not named README.md or SUMMARY.md and match no exclusion
    pattern, each once, in the strict order of their names, each as a
    top-level linked line. *)
Theorem flat_book_listing (fs fs' : node) (book_root output_file : Path)
  (exclude : option (list string)) (content : list string) :
  distinct_names fs book_root = true ->
  is_dir fs (book_root ++ ["chapters"]) = false ->
  generate_summary fs book_root output_file exclude = (fs', Ok content) ->
  exists files,
    (forall f, In f files <->
               In f (glob_md fs book_root) /\
               name f <> "README.md" /\ name f <> "SUMMARY.md" /\
               is_excluded f (effective_exclude exclude) = Ok false) /\
    StronglySorted name_lt files /\
    content = [header] ++ map render (intro_entries fs book_root)
              ++ map (fun f => "* [" +++ extract_title fs f +++ "]("
                                 +++ name f +++ ")" +++ PyStr.NL) files.
Proof.
  intros Hnd Hdir H. apply generate_summary_content_inv in H. destruct H as [H _].
  unfold summary_content in H.
  rewrite chapters_test, Hdir, intro_lines_render in H.
  fold (keep_root (effective_exclude exclude)) in H.
  apply bind_Ok_inv in H. destruct H as [kept [Hk H]].
  apply bind_Ok_inv in H. destruct H as [ls [Hls H]].
  inversion H; subst; clear H.
  assert (Hf : root_files fs book_root (effective_exclude exclude)
               = Ok (sorted kept)).
  { unfold root_files. rewrite Hk. reflexivity. }
  destruct (root_files_spec _ _ _ _ Hf) as [Hin _].
  exists (sorted kept). split; [exact Hin|]. split.
  { apply (sorted_siblings_strict book_root).
    - intros f Hf'. apply (proj1 (filterM_In _ _ _ Hk f)) in Hf'.
      destruct Hf' as [Hg _]. destruct (glob_md_shape _ _ _ Hg) as [m [-> _]].
      eauto.
    - exact (filterM_NoDup _ _ _ Hk (distinct_glob_md _ _ Hnd)). }
  simpl app. f_equal. f_equal.
  apply (mapM_pure_inv (root_line fs book_root)); [|exact Hls].
  intros f Hfin. apply Hin in Hfin. destruct Hfin as [Hg _].
  destruct (glob_md_shape _ _ _ Hg) as [m [-> _]].
  rewrite name_snoc. apply root_line_listed.
Qed.

End FlatBook.

Example book_content_value :
  book_content =
  [ "# Summary" +++ PyStr.NL +++ PyStr.NL;
    "* [Welcome](README.md)" +++ PyStr.NL;
    "* [Getting Started](chapters/01-intro/README.md)" +++ PyStr.NL;
    "  * [02 Setup](chapters/01-intro/02-setup.md)" +++ PyStr.NL;
    "* [Setup](chapters/02-setup/README.md)" +++ PyStr.NL;
    "  * [A Part](chapters/02-setup/a-part.md)" +++ PyStr.NL;
    "  * [B Part](chapters/02-setup/b-part.md)" +++ PyStr.NL;
    "* [10 Appendix]" +++ PyStr.NL;
    "  * [My Notes](chapters/10-appendix/notes.md)" +++ PyStr.NL ].
Proof. vm_compute. reflexivity. Qed.

Lemma chapters_in_name_order_witness :
  exists names blocks,
    (forall n, In n names <->
               is_dir fs_book (book_root_ex ++ ["chapters"; n]) = true /\
               is_excluded (engine := mini_engine)
                 (book_root_ex ++ ["chapters"; n]) (effective_exclude None)
               = Ok false) /\
    StronglySorted (fun a b => String.ltb a b = true) names /\
    Forall2 (chapter_block (engine := mini_engine) fs_book book_root_ex
               (effective_exclude None)) names blocks /\
    book_content = header :: map render (intro_entries fs_book book_root_ex
                                           ++ List.concat blocks).
Proof.
  apply (chapters_in_name_order (engine := mini_engine)
           fs_book (fst book_run) book_root_ex book_output None book_content).
  - reflexivity.
  - reflexivity.
  - vm_compute. reflexivity.
Defined.

(** The chapter directories of the book of the examples, which stores
    them as [10-appendix], [02-setup], [01-intro], [_hidden], [empty], in
    the order of the loop; [_hidden] is excluded, and [empty] has no
    markdown file and gets no line (see [book_content_value]). *)
Example chapter_names_ex :
  chapter_dirs (engine := mini_engine) fs_book book_root_ex default_exclude
  = Ok (map (fun n => book_root_ex ++ ["chapters"; n])
            ["01-intro"; "02-setup"; "10-appendix"; "empty"]).
Proof. vm_compute. reflexivity. Qed.


Lemma flat_book_listing_witness :
  exists files,
    (forall f, In f files <->
               In f (glob_md fs_flat flat_root_ex) /\
               name f <> "README.md" /\ name f <> "SUMMARY.md" /\
               is_excluded (engine := mini_engine) f (effective_exclude None)
                 = Ok false) /\
    StronglySorted name_lt files /\
    [ "# Summary" +++ PyStr.NL +++ PyStr.NL;
      "* [Intro](README.md)" +++ PyStr.NL;
      "* [Summary](TOC.md)" +++ PyStr.NL;
      "* [A](a.md)" +++ PyStr.NL;
      "* [Beta](b.md)" +++ PyStr.NL ]
    = [header] ++ map render (intro_entries fs_flat flat_root_ex)
      ++ map (fun f => "* [" +++ extract_title fs_flat f +++ "]("
                         +++ name f +++ ")" +++ PyStr.NL) files.
Proof.
  eapply (flat_book_listing (engine := mini_engine)
            fs_flat _ flat_root_ex (flat_root_ex ++ ["TOC.md"]) None).
  - reflexivity.
  - reflexivity.
  - vm_compute. reflexivity.
Defined.

(** C6, at the failing input.  The book without chapters of the examples
    holds [TOC.md], left in the root by an earlier run with that output
    file.  A run with the output file [TOC.md] lists the output file
    itself: the loop over the files of the root skips the fixed name
    SUMMARY.md and never looks at [output_file].  The stated listing,
    which leaves the output file out whatever its path, does not hold of
    the script. *)
Theorem output_file_listed :
  snd (generate_summary (engine := mini_engine) fs_flat flat_root_ex
         (flat_root_ex ++ ["TOC.md"]) None)
  = Ok [ "# Summary" +++ PyStr.NL +++ PyStr.NL;
         "* [Intro](README.md)" +++ PyStr.NL;
         "* [Summary](TOC.md)" +++ PyStr.NL;
         "* [A](a.md)" +++ PyStr.NL;
         "* [Beta](b.md)" +++ PyStr.NL ] /\
  ~ flat_listing_omits_output.
Proof.
  split; [vm_compute; reflexivity|].
  intros H.
  assert (Hrun : exists fs' content,
             generate_summary (engine := mini_engine) fs_flat flat_root_ex
               (flat_root_ex ++ ["TOC.md"]) None = (fs', Ok content))
    by (vm_compute; eauto).
  destruct Hrun as [fs' [content Hrun]].
  assert (Hes : exists entries,
             summary_entries (engine := mini_engine) fs_flat flat_root_ex
               (effective_exclude None) = Ok entries /\
             In (mkEntry "Summary" (Some ["TOC.md"]) 0) entries)
    by (vm_compute; eexists; split; [reflexivity | right; now left]).
  destruct Hes as [entries [Hes Hin]].
  apply (H fs_flat fs' flat_root_ex (flat_root_ex ++ ["TOC.md"]) None
           content entries eq_refl Hrun Hes _ ["TOC.md"] Hin eq_refl).
  reflexivity.
Qed.

(* ================================================================== *)
(** ** write_file: where open raises *)


Section FailureFacts.

Context {engine : RegexEngine}.


End FailureFacts.

(* ================================================================== *)
(** ** Running the script again *)

Lemma replace_child_idem (seg : string) (c : node) (es : list (string * node)) :
  replace_child seg c (replace_child seg c es) = replace_child seg c es.
Proof.
  induction es as [|[n x] es IH]; simpl; [reflexivity|].
  destruct (String.eqb n seg) eqn:E; simpl; rewrite E; congruence.
Qed.

Lemma replace_child_new (seg : string) (c : node) (es : list (string * node)) :
  child seg es = None ->
  replace_child seg c (es ++ [(seg, c)]) = es ++ [(seg, c)].
Proof.
  induction es as [|[n x] es IH]; simpl.
  - now rewrite String.eqb_refl.
  - destruct (String.eqb n seg); [discriminate|]. intros H. now rewrite IH.
Qed.

Lemma replace_child_names (seg : string) (c : node) (es : list (string * node)) :
  map fst (replace_child seg c es) = map fst es.
Proof.
  induction es as [|[n x] es IH]; simpl; [reflexivity|].
  destruct (String.eqb n seg); simpl; congruence.
Qed.

(** Writing the same data again changes nothing. *)
Lemma write_file_idem (fs fs' : node) (p : Path) (data : string) :
  write_file fs p data = Some fs' -> write_file fs' p data = Some fs'.
Proof.
  revert fs fs'. induction p as [|seg p IH]; intros fs fs'; simpl.
  - destruct fs; intros H; inversion H. reflexivity.
  - destruct fs as [d|es]; [discriminate|].
    destruct (child seg es) as [c|] eqn:Ec.
    + destruct (write_file c p data) as [c'|] eqn:Ew; [|discriminate].
      intros H; inversion H; subst. simpl.
      rewrite (child_replace_same _ _ _ _ Ec), (IH _ _ Ew).
      now rewrite replace_child_idem.
    + destruct p; [|discriminate].
      intros H; inversion H; subst. simpl.
      rewrite (child_app_new _ _ _ _ Ec), String.eqb_refl.
      now rewrite (replace_child_new _ _ _ Ec).
Qed.

(** The directory that receives the file keeps the names it had, in
    their order, with the name of the file added at the end when it is
    new. *)
Lemma write_file_listing (fs fs' : node) (dir : Path) (seg data : string) :
  write_file fs (dir ++ [seg]) data = Some fs' ->
  exists es es',
    lookup fs dir = Some (Dir es) /\ lookup fs' dir = Some (Dir es') /\
    (map fst es' = map fst es \/ map fst es' = map fst es ++ [seg]).
Proof.
  revert fs fs'. induction dir as [|s dir IH]; intros fs fs'; simpl.
  - destruct fs as [d|es]; [discriminate|].
    destruct (child seg es) as [c|] eqn:Ec.
    + destruct c as [d|]; [|discriminate].
      intros H; inversion H; subst. exists es, (replace_child seg (File (Some data)) es).
      split; [reflexivity|]. split; [reflexivity|].
      left. apply replace_child_names.
    + intros H; inversion H; subst. exists es, (es ++ [(seg, File (Some data))]).
      split; [reflexivity|]. split; [reflexivity|].
      right. now rewrite map_app.
  - destruct fs as [d|es]; [discriminate|].
    destruct (child s es) as [c|] eqn:Ec.
    + destruct (write_file c (dir ++ [seg]) data) as [c'|] eqn:Ew; [|discriminate].
      intros H; inversion H; subst. simpl.
      rewrite (child_replace_same _ _ _ _ Ec). now apply IH.
    + destruct (dir ++ [seg]) eqn:E; [destruct dir|]; discriminate.
Qed.

Section ReadsBelow.

Variables fs fs' : node.

Lemma path_exists_ext (p : Path) :
  lookup fs' p = lookup fs p -> path_exists fs' p = path_exists fs p.
Proof. unfold path_exists. now intros ->. Qed.

Lemma is_dir_ext (p : Path) :
  lookup fs' p = lookup fs p -> is_dir fs' p = is_dir fs p.
Proof. unfold is_dir. now intros ->. Qed.

Lemma iterdir_ext (p : Path) :
  lookup fs' p = lookup fs p -> iterdir fs' p = iterdir fs p.
Proof. unfold iterdir. now intros ->. Qed.

Lemma glob_md_ext (p : Path) :
  lookup fs' p = lookup fs p -> glob_md fs' p = glob_md fs p.
Proof. unfold glob_md. now intros ->. Qed.

Lemma extract_title_ext (p : Path) :
  lookup fs' p = lookup fs p -> extract_title fs' p = extract_title fs p.
Proof. unfold extract_title, read_text. now intros ->. Qed.

Lemma file_entry_ext (book_root : Path) (d : nat) (p : Path) :
  lookup fs' p = lookup fs p ->
  file_entry fs' book_root d p = file_entry fs book_root d p.
Proof. unfold file_entry. intros H. now rewrite (extract_title_ext p H). Qed.

End ReadsBelow.

Section RerunFacts.

Context {engine : RegexEngine}.
Variables fs fs' : node.
Variable book_root : Path.
Variable exclude : list string.

(** A chapter is read below its directory only. *)
Lemma chapter_entries_ext (d : Path) :
  (forall q, lookup fs' (d ++ q) = lookup fs (d ++ q)) ->
  chapter_entries fs' book_root exclude d = chapter_entries fs book_root exclude d.
Proof.
  intros H. unfold chapter_entries.
  assert (Hd : lookup fs' d = lookup fs d)
    by (rewrite <- (app_nil_r d); apply H).
  rewrite (path_exists_ext fs fs' _ (H ["README.md"])).
  rewrite (file_entry_ext fs fs' book_root 0 _ (H ["README.md"])).
  rewrite (glob_md_ext fs fs' d Hd).
  assert (Hfiles : forall kept cond,
             filterM cond (glob_md fs d) = Ok kept ->
             mapM (file_entry fs' book_root 1) (sorted kept) =
             mapM (file_entry fs book_root 1) (sorted kept)).
  { intros kept cond Hk. apply mapM_ext. intros f Hf.
    apply (proj1 (sorted_In _ _)) in Hf.
    apply (proj1 (filterM_In _ _ _ Hk f)) in Hf. destruct Hf as [Hf _].
    destruct (glob_md_shape _ _ _ Hf) as [m [-> _]].
    apply file_entry_ext, H. }
  destruct (path_exists fs (d ++ ["README.md"])).
  - destruct (file_entry fs book_root 0 (d ++ ["README.md"])); [|reflexivity].
    simpl.
    destruct (filterM (keep_section exclude) (glob_md fs d)) as [kept|e] eqn:Ek;
      [|reflexivity].
    simpl. now rewrite (Hfiles kept _ Ek).
  - destruct (filterM (keep_md exclude) (glob_md fs d)) as [kept|e] eqn:Ek;
      [|reflexivity].
    cbn [bind]. specialize (Hfiles kept _ Ek).
    destruct (sorted kept); [reflexivity|]. now rewrite Hfiles.
Qed.

(** The walker reads README.md and [chapters] below the root, and the
    listing of the root; a file SUMMARY.md of the root is dropped from the
    listing before anything is asked about it. *)
Lemma summary_entries_ext :
  (forall a q, a <> "SUMMARY.md" ->
               lookup fs' (book_root ++ a :: q) = lookup fs (book_root ++ a :: q)) ->
  filterM (keep_root exclude) (glob_md fs' book_root) =
  filterM (keep_root exclude) (glob_md fs book_root) ->
  summary_entries fs' book_root exclude = summary_entries fs book_root exclude.
Proof.
  intros H1 H2. unfold summary_entries, intro_entries.
  assert (Hreadme : lookup fs' (book_root ++ ["README.md"])
                    = lookup fs (book_root ++ ["README.md"]))
    by (apply H1; discriminate).
  assert (Hch : forall q, lookup fs' ((book_root ++ ["chapters"]) ++ q)
                          = lookup fs ((book_root ++ ["chapters"]) ++ q)).
  { intros q. rewrite <- !app_assoc. apply H1. discriminate. }
  assert (Hch0 : lookup fs' (book_root ++ ["chapters"])
                 = lookup fs (book_root ++ ["chapters"]))
    by (apply H1; discriminate).
  rewrite (path_exists_ext fs fs' _ Hreadme), (extract_title_ext fs fs' _ Hreadme).
  rewrite (path_exists_ext fs fs' _ Hch0), (is_dir_ext fs fs' _ Hch0).
  destruct (path_exists fs (book_root ++ ["chapters"]) &&
            is_dir fs (book_root ++ ["chapters"])).
  - assert (Hds : chapter_dirs fs' book_root exclude
                  = chapter_dirs fs book_root exclude).
    { unfold chapter_dirs. rewrite (iterdir_ext fs fs' _ Hch0).
      destruct (iterdir fs (book_root ++ ["chapters"])) as [l|e] eqn:El;
        [|reflexivity].
      simpl. rewrite (filterM_ext (keep_chapter fs' exclude)
                                  (keep_chapter fs exclude)); [reflexivity|].
      intros d Hd. destruct (iterdir_shape _ _ _ El d Hd) as [n ->].
      unfold keep_chapter. now rewrite (is_dir_ext fs fs' _ (Hch [n])). }
    rewrite Hds.
    destruct (chapter_dirs fs book_root exclude) as [ds|e] eqn:Eds;
      [|reflexivity].
    simpl. rewrite (mapM_ext (chapter_entries fs' book_root exclude)
                             (chapter_entries fs book_root exclude));
      [reflexivity|].
    intros d Hd. apply chapter_entries_ext. intros q.
    destruct (chapter_dirs_spec _ _ _ _ Eds) as [l [Hl [Hin _]]].
    apply Hin in Hd. destruct Hd as [Hd _].
    destruct (iterdir_shape _ _ _ Hl d Hd) as [n ->].
    rewrite <- (app_assoc (book_root ++ ["chapters"]) [n] q). apply Hch.
  - unfold root_files. rewrite H2.
    destruct (filterM (keep_root exclude) (glob_md fs book_root))
      as [kept|e] eqn:Ek; [|reflexivity].
    simpl. rewrite (mapM_ext (file_entry fs' book_root 0)
                             (file_entry fs book_root 0)); [reflexivity|].
    intros f Hf. apply (proj1 (sorted_In _ _)) in Hf.
    apply (proj1 (filterM_In _ _ _ Ek f)) in Hf. destruct Hf as [Hf Hkeep].
    apply (proj1 (keep_root_true _ _)) in Hkeep. destruct Hkeep as [_ [Hn _]].
    destruct (glob_md_shape _ _ _ Hf) as [m [-> _]].
    rewrite name_snoc in Hn. apply file_entry_ext, H1, Hn.
Qed.

End RerunFacts.

Lemma filterM_snoc_false {A : Type} (cond : A -> result bool) (l : list A) (x : A) :
  cond x = Ok false -> filterM cond (l ++ [x]) = filterM cond l.
Proof.
  intros Hx. induction l as [|y l IH]; simpl.
  - now rewrite Hx.
  - now rewrite IH.
Qed.

Lemma glob_md_names (fs : node) (p : Path) (es : list (string * node)) :
  lookup fs p = Some (Dir es) ->
  glob_md fs p =
  filter (fun q => PyStr.ends_with ".md" (name q))
         (map (fun n => p ++ [n]) (map fst es)).
Proof. unfold glob_md. intros ->. now rewrite map_map. Qed.

Section Rerun.

Context {engine : RegexEngine}.

Lemma rerun_same_entries (fs fs' : node) (book_root output_file : Path)
  (exclude : list string) (data : string) :
  output_unseen book_root output_file ->
  write_file fs output_file data = Some fs' ->
  summary_entries fs' book_root exclude = summary_entries fs book_root exclude.
Proof.
  intros [->|[common [a [b [q1 [q2 [Hab [-> ->]]]]]]]] Hw.
  - apply summary_entries_ext.
    + intros a q Ha.
      apply (lookup_write_diverge fs fs' book_root [] q "SUMMARY.md" a data);
        [congruence | exact Hw].
    + destruct (write_file_listing _ _ _ _ _ Hw) as [es [es' [He [He' Hn]]]].
      rewrite (glob_md_names _ _ _ He), (glob_md_names _ _ _ He').
      destruct Hn as [->| ->]; [reflexivity|].
      rewrite map_app, filter_app. simpl map. simpl filter.
      rewrite name_snoc. simpl PyStr.ends_with. cbv iota.
      apply filterM_snoc_false.
      unfold keep_root. now rewrite name_snoc.
  - assert (H : forall q, lookup fs' ((common ++ b :: q2) ++ q)
                          = lookup fs ((common ++ b :: q2) ++ q)).
    { intros q. rewrite <- app_assoc. simpl.
      exact (lookup_write_diverge fs fs' common q1 (q2 ++ q) a b data Hab Hw). }
    apply summary_entries_ext.
    + intros a' q _. apply H.
    + rewrite (glob_md_ext fs fs' (common ++ b :: q2)); [reflexivity|].
      rewrite <- (app_nil_r (common ++ b :: q2)). apply H.
Qed.

(** X24.  When the output file is SUMMARY.md in the book root, or lies
    on a path that parts from the path of the book root, a second run on
    the tree left by the first returns the same document and leaves the
    same tree. *)
Theorem rerun_identical (fs fs' : node) (book_root output_file : Path)
  (exclude : option (list string)) (content : list string) :
  output_unseen book_root output_file ->
  generate_summary fs book_root output_file exclude = (fs', Ok content) ->
  generate_summary fs' book_root output_file exclude = (fs', Ok content).
Proof.
  intros Hout H. apply generate_summary_run_inv in H.
  destruct H as [Hc [He Hw]].
  apply generate_summary_run_intro;
    [|exact He | exact (write_file_idem _ _ _ _ Hw)].
  rewrite summary_content_render in *.
  now rewrite (rerun_same_entries _ _ _ _ _ _ Hout Hw).
Qed.

End Rerun.

Lemma rerun_identical_witness :
  generate_summary (engine := mini_engine) (fst book_run) book_root_ex
    book_output None = (fst book_run, Ok book_content).
Proof.
  apply (rerun_identical (engine := mini_engine) fs_book (fst book_run)
           book_root_ex book_output None book_content).
  - left. reflexivity.
  - vm_compute. reflexivity.
Defined.

(** C3, at the failing input.  With the output file [TOC.md] in the root
    of a book without chapters that holds [a.md], the first run lists
    [a.md] and creates the output file; the second run, on the tree that
    the first left, lists the output file too, so the two documents and
    the two file contents differ.  The script keeps its output out of the
    listing under the name SUMMARY.md only.  The stated idempotence, for
    every tree and all arguments, does not hold of the script. *)
Theorem second_run_lists_output :
  let output_file := fresh_root_ex ++ ["TOC.md"] in
  let first :=
    generate_summary (engine := mini_engine) fs_fresh fresh_root_ex
      output_file None in
  let second :=
    generate_summary (engine := mini_engine) (fst first) fresh_root_ex
      output_file None in
  snd first = Ok [ "# Summary" +++ PyStr.NL +++ PyStr.NL;
                   "* [A](a.md)" +++ PyStr.NL ] /\
  snd second = Ok [ "# Summary" +++ PyStr.NL +++ PyStr.NL;
                    "* [Summary](TOC.md)" +++ PyStr.NL;
                    "* [A](a.md)" +++ PyStr.NL ] /\
  read_text (fst second) output_file <> read_text (fst first) output_file /\
  ~ rerun_always_identical.
Proof.
  cbv zeta. split; [vm_compute; reflexivity|].
  split; [vm_compute; reflexivity|].
  split; [vm_compute; discriminate|].
  intros H.
  assert (H1 : exists fs' first,
             generate_summary (engine := mini_engine) fs_fresh fresh_root_ex
               (fresh_root_ex ++ ["TOC.md"]) None = (fs', Ok first) /\
             exists fs'' second,
               generate_summary (engine := mini_engine) fs' fresh_root_ex
                 (fresh_root_ex ++ ["TOC.md"]) None = (fs'', Ok second) /\
               List.length first <> List.length second).
  { vm_compute. eexists. eexists. split; [reflexivity|].
    eexists. eexists. split; [reflexivity|]. discriminate. }
  destruct H1 as [fs' [first [Hrun1 [fs'' [second [Hrun2 Hne]]]]]].
  apply Hne. now rewrite (H _ _ _ _ _ _ _ _ Hrun1 Hrun2).
Qed.

(* ================================================================== *)
(** ** Patterns that do not compile *)

Lemma filterM_Raise_inv {A : Type} (cond : A -> result bool) (l : list A) (e : exn) :
  filterM cond l = Raise e -> exists x, In x l /\ cond x = Raise e.
Proof.
  induction l as [|y l IH]; simpl; [discriminate|].
  destruct (cond y) as [b|e0] eqn:Ey; simpl.
  - destruct (filterM cond l) as [xs|e1]; simpl; [discriminate|].
    intros H. inversion H; subst.
    destruct (IH eq_refl) as [x [Hx Hc]]. eauto.
  - intros H. inversion H; subst. eauto.
Qed.

Lemma mapM_Raise_inv {A B : Type} (f : A -> result B) (l : list A) (e : exn) :
  mapM f l = Raise e -> exists x, In x l /\ f x = Raise e.
Proof.
  induction l as [|y l IH]; simpl; [discriminate|].
  destruct (f y) as [b|e0] eqn:Ey; simpl.
  - destruct (mapM f l) as [xs|e1]; simpl; [discriminate|].
    intros H. inversion H; subst.
    destruct (IH eq_refl) as [x [Hx Hc]]. eauto.
  - intros H. inversion H; subst. eauto.
Qed.

Section InvalidPatterns.

Context {engine : RegexEngine}.

Lemma is_excluded_Raise_inv (path : Path) (pats : list string) (e : exn) :
  is_excluded path pats = Raise e -> invalid_in pats e.
Proof.
  unfold invalid_in. induction pats as [|pat pats IH]; simpl; [discriminate|].
  unfold re_search. destruct (re_compile pat) as [r|] eqn:Ec; simpl.
  - destruct (re_found r (str path)); [discriminate|].
    intros H. destruct (IH H) as [bad [H1 [H2 H3]]]. eauto 6.
  - intros H. inversion H; subst. eauto 6.
Qed.

(** [is_excluded] raises exactly when the first pattern that either
    matches or does not compile is one that does not compile. *)
Lemma is_excluded_Raise (path : Path) (before after : list string) (bad : string) :
  re_compile bad = None ->
  (forall p, In p before ->
     exists r, re_compile p = Some r /\ re_found r (str path) = false) ->
  is_excluded path (before ++ bad :: after) = Raise (ReError bad).
Proof.
  intros Hbad. induction before as [|p before IH]; intros H; simpl.
  - unfold re_search. now rewrite Hbad.
  - destruct (H p (or_introl eq_refl)) as [r [Hc Hf]].
    unfold re_search. rewrite Hc. simpl. rewrite Hf.
    apply IH. intros q Hq. apply H. now right.
Qed.

Lemma negb_bind_Raise (m : result bool) (e : exn) :
  (x <- m ;; Ok (negb x)) = Raise e <-> m = Raise e.
Proof. destruct m as [b|e0]; simpl; split; congruence. Qed.

Variable fs : node.
Variable book_root : Path.
Variable exclude : list string.

Lemma keep_chapter_Raise (d : Path) (e : exn) :
  keep_chapter fs exclude d = Raise e <->
  is_dir fs d = true /\ is_excluded d exclude = Raise e.
Proof.
  unfold keep_chapter. destruct (is_dir fs d).
  - rewrite negb_bind_Raise. tauto.
  - split; [discriminate | intros [H _]; discriminate].
Qed.

Lemma keep_section_Raise (f : Path) (e : exn) :
  keep_section exclude f = Raise e <->
  name f <> "README.md" /\ is_excluded f exclude = Raise e.
Proof.
  unfold keep_section. destruct (String.eqb_spec (name f) "README.md") as [E|E].
  - split; [discriminate | intros [H _]; contradiction].
  - rewrite negb_bind_Raise. tauto.
Qed.

Lemma keep_root_Raise (f : Path) (e : exn) :
  keep_root exclude f = Raise e <->
  name f <> "README.md" /\ name f <> "SUMMARY.md" /\
  is_excluded f exclude = Raise e.
Proof.
  unfold keep_root. destruct (String.eqb_spec (name f) "README.md") as [E|E].
  - split; [discriminate | intros [H _]; contradiction].
  - destruct (String.eqb_spec (name f) "SUMMARY.md") as [E'|E'].
    + split; [discriminate | intros [_ [H _]]; contradiction].
    + rewrite negb_bind_Raise. tauto.
Qed.

Lemma listed_entries_Ok (dir rel_dir : Path) (d : nat) (files : list Path) :
  dir = book_root ++ rel_dir ->
  (forall f, In f files -> exists m, f = dir ++ [m]) ->
  exists es, mapM (file_entry fs book_root d) files = Ok es.
Proof.
  intros Hd H. rewrite (file_entry_listed fs book_root dir rel_dir d files Hd H).
  eauto.
Qed.

Lemma kept_shape (cond : Path -> result bool) (dir : Path) (kept : list Path) :
  filterM cond (glob_md fs dir) = Ok kept ->
  forall f, In f (sorted kept) -> exists m, f = dir ++ [m].
Proof.
  intros Hk f Hf. apply (proj1 (sorted_In _ _)) in Hf.
  apply (proj1 (filterM_In _ _ _ Hk f)) in Hf. destruct Hf as [Hf _].
  destruct (glob_md_shape _ _ _ Hf) as [m [-> _]]. eauto.
Qed.

(** The only exception that leaves the loop body of a chapter is the
    [re.error] of a pattern of the list. *)
Lemma chapter_entries_Raise_inv (n : string) (e : exn) :
  chapter_entries fs book_root exclude (book_root ++ ["chapters"; n]) = Raise e ->
  invalid_in exclude e.
Proof.
  unfold chapter_entries. rewrite <- app_assoc. simpl app.
  destruct (path_exists fs (book_root ++ ["chapters"; n; "README.md"])).
  - rewrite file_entry_app. cbn [bind].
    destruct (filterM (keep_section exclude)
                (glob_md fs (book_root ++ ["chapters"; n]))) as [kept|e0] eqn:Ek.
    + cbn [bind].
      destruct (listed_entries_Ok (book_root ++ ["chapters"; n]) ["chapters"; n]
                  1 (sorted kept) eq_refl (kept_shape _ _ _ Ek)) as [es ->].
      discriminate.
    + cbn [bind]. intros H. inversion H; subst.
      apply filterM_Raise_inv in Ek. destruct Ek as [f [_ Hf]].
      apply (proj1 (keep_section_Raise _ _)) in Hf. destruct Hf as [_ Hf].
      exact (is_excluded_Raise_inv _ _ _ Hf).
  - destruct (filterM (keep_md exclude)
                (glob_md fs (book_root ++ ["chapters"; n]))) as [kept|e0] eqn:Ek.
    + cbn [bind].
      destruct (listed_entries_Ok (book_root ++ ["chapters"; n]) ["chapters"; n]
                  1 (sorted kept) eq_refl (kept_shape _ _ _ Ek)) as [es Hes].
      destruct (sorted kept); [discriminate|]. rewrite Hes. discriminate.
    + cbn [bind]. intros H. inversion H; subst.
      apply filterM_Raise_inv in Ek. destruct Ek as [f [_ Hf]].
      apply (proj1 (negb_bind_Raise _ _)) in Hf.
      exact (is_excluded_Raise_inv _ _ _ Hf).
Qed.

Lemma chapter_dirs_Raise_inv (e : exn) :
  is_dir fs (book_root ++ ["chapters"]) = true ->
  chapter_dirs fs book_root exclude = Raise e -> invalid_in exclude e.
Proof.
  intros Hdir. unfold chapter_dirs.
  destruct (is_dir_iterdir fs _ Hdir) as [l ->]. cbn [bind].
  destruct (filterM (keep_chapter fs exclude) l) as [kept|e0] eqn:Ek;
    [discriminate|].
  cbn [bind]. intros H. inversion H; subst.
  apply filterM_Raise_inv in Ek. destruct Ek as [d [_ Hd]].
  apply (proj1 (keep_chapter_Raise _ _)) in Hd. destruct Hd as [_ Hd].
  exact (is_excluded_Raise_inv _ _ _ Hd).
Qed.

(** The only exception that leaves the building of the document is the
    [re.error] of a pattern of the list. *)
Lemma summary_entries_Raise_inv (e : exn) :
  summary_entries fs book_root exclude = Raise e -> invalid_in exclude e.
Proof.
  unfold summary_entries. rewrite chapters_test.
  destruct (is_dir fs (book_root ++ ["chapters"])) eqn:Edir.
  - destruct (chapter_dirs fs book_root exclude) as [ds|e0] eqn:Eds.
    + cbn [bind].
      destruct (mapM (chapter_entries fs book_root exclude) ds) as [chs|e1] eqn:Em;
        [discriminate|].
      cbn [bind]. intros H. inversion H; subst.
      apply mapM_Raise_inv in Em. destruct Em as [d [Hd Hr]].
      destruct (chapter_dirs_visited fs book_root exclude ds d Edir Eds Hd)
        as [n [-> _]].
      exact (chapter_entries_Raise_inv n e Hr).
    + cbn [bind]. intros H. inversion H; subst.
      exact (chapter_dirs_Raise_inv e Edir Eds).
  - unfold root_files.
    destruct (filterM (keep_root exclude) (glob_md fs book_root))
      as [kept|e0] eqn:Ek.
    + cbn [bind].
      destruct (listed_entries_Ok book_root [] 0 (sorted kept)
                  (eq_sym (app_nil_r book_root)) (kept_shape _ _ _ Ek))
        as [es ->].
      discriminate.
    + cbn [bind]. intros H. inversion H; subst.
      apply filterM_Raise_inv in Ek. destruct Ek as [f [_ Hf]].
      apply (proj1 (keep_root_Raise _ _)) in Hf. destruct Hf as [_ [_ Hf]].
      exact (is_excluded_Raise_inv _ _ _ Hf).
Qed.

End InvalidPatterns.

Section Propagation.

Context {engine : RegexEngine}.
Variable fs : node.
Variable book_root : Path.
Variable exclude : list string.

Lemma chapter_entries_Raise (n : string) (f : Path) (e : exn) :
  In f (glob_md fs (book_root ++ ["chapters"; n])) ->
  (path_exists fs (book_root ++ ["chapters"; n; "README.md"]) = true ->
   name f <> "README.md") ->
  is_excluded f exclude = Raise e ->
  exists e',
    chapter_entries fs book_root exclude (book_root ++ ["chapters"; n]) = Raise e'.
Proof.
  intros Hf Hn He. unfold chapter_entries. rewrite <- app_assoc. simpl app.
  destruct (path_exists fs (book_root ++ ["chapters"; n; "README.md"])).
  - rewrite file_entry_app. cbn [bind].
    destruct (filterM_Raise (keep_section exclude) _ f e Hf) as [e' ->].
    + apply keep_section_Raise. auto.
    + simpl. eauto.
  - destruct (filterM_Raise (keep_md exclude) _ f e Hf) as [e' ->].
    + apply negb_bind_Raise. exact He.
    + simpl. eauto.
Qed.

(** An exception of [is_excluded] on a path that the walker tests leaves
    the building of the document. *)
Lemma tested_Raise (path : Path) (e : exn) :
  tested fs book_root exclude path ->
  is_excluded path exclude = Raise e ->
  exists e', summary_entries fs book_root exclude = Raise e'.
Proof.
  intros Ht He. unfold summary_entries. rewrite chapters_test.
  destruct Ht as [listing d Hdir Hl Hd Hdd|n f Hv Hf Hn|f Hdir Hf Hn1 Hn2].
  - rewrite Hdir. unfold chapter_dirs. rewrite Hl. cbn [bind].
    destruct (filterM_Raise (keep_chapter fs exclude) listing d e Hd) as [e' ->].
    + apply keep_chapter_Raise. auto.
    + simpl. eauto.
  - destruct Hv as [Hdir [Hd Hx]]. rewrite Hdir.
    destruct (chapter_dirs fs book_root exclude) as [ds|e0] eqn:Eds;
      [|simpl; eauto].
    cbn [bind].
    destruct (chapter_dirs_spec _ _ _ _ Eds) as [l [Hl [Hin _]]].
    assert (Hdin : In (book_root ++ ["chapters"; n]) ds).
    { apply Hin. split; [|split; assumption].
      change (book_root ++ ["chapters"; n])
        with (book_root ++ ["chapters"] ++ [n]).
      rewrite app_assoc.
      apply (is_dir_listed fs (book_root ++ ["chapters"]) n l); [|assumption].
      rewrite <- app_assoc. exact Hd. }
    destruct (chapter_entries_Raise n f e Hf Hn He) as [e1 He1].
    destruct (mapM_Raise _ ds _ e1 Hdin He1) as [e' ->].
    simpl. eauto.
  - rewrite Hdir. unfold root_files.
    destruct (filterM_Raise (keep_root exclude) _ f e Hf) as [e' ->].
    + apply keep_root_Raise. auto.
    + simpl. eauto.
Qed.

End Propagation.

Section InvalidPatternTheorem.

Context {engine : RegexEngine}.

(** C10, as the script has it.  When a pattern of the list does not
    compile and every pattern before it compiles and does not match a
    path, [is_excluded] raises the [re.error] of that pattern on that
    path; if the walker tests such a path, [generate_summary] ends with the
    [re.error] of a pattern of the list and the filesystem is as before.
    A pattern after one that matches is never compiled. *)
Theorem invalid_pattern_propagates (fs : node) (book_root output_file : Path)
  (exclude : option (list string)) (path : Path)
  (before after : list string) (bad : string) :
  effective_exclude exclude = before ++ bad :: after ->
  re_compile bad = None ->
  (forall p, In p before ->
     exists r, re_compile p = Some r /\ re_found r (str path) = false) ->
  is_excluded path (effective_exclude exclude) = Raise (ReError bad) /\
  (tested fs book_root (effective_exclude exclude) path ->
   exists e,
     generate_summary fs book_root output_file exclude = (fs, Raise e) /\
     invalid_in (effective_exclude exclude) e).
Proof.
  intros Hsplit Hbad Hbefore.
  assert (Hx : is_excluded path (effective_exclude exclude) = Raise (ReError bad)).
  { rewrite Hsplit. now apply is_excluded_Raise. }
  split; [exact Hx|]. intros Ht.
  destruct (tested_Raise _ _ _ _ _ Ht Hx) as [e He].
  exists e. split.
  - unfold generate_summary. rewrite summary_content_render, He. reflexivity.
  - exact (summary_entries_Raise_inv _ _ _ _ He).
Qed.

End InvalidPatternTheorem.

Lemma invalid_pattern_propagates_witness :
  is_excluded (engine := mini_engine) (book_root_ex ++ ["chapters"; "01-intro"])
    ["node_modules"; "("; "."] = Raise (ReError "(") /\
  exists e,
    generate_summary (engine := mini_engine) fs_book book_root_ex book_output
      (Some ["node_modules"; "("; "."]) = (fs_book, Raise e) /\
    invalid_in (engine := mini_engine) ["node_modules"; "("; "."] e.
Proof.
  destruct (invalid_pattern_propagates (engine := mini_engine)
              fs_book book_root_ex book_output
              (Some ["node_modules"; "("; "."])
              (book_root_ex ++ ["chapters"; "01-intro"])
              ["node_modules"] ["."] "(") as [H1 H2].
  - reflexivity.
  - reflexivity.
  - intros p [<-|[]]. eexists. split; vm_compute; reflexivity.
  - split; [exact H1|]. apply H2.
    eapply (tested_chapter (engine := mini_engine) fs_book book_root_ex _ _
              (book_root_ex ++ ["chapters"; "01-intro"])).
    + reflexivity.
    + reflexivity.
    + simpl. right. right. now left.
    + reflexivity.
Defined.

(** With the patterns [.] and [(], every path matches the first pattern,
    the second is never compiled, and the run ends normally. *)
Lemma invalid_pattern_not_reached : ~ invalid_pattern_always_raises.
Proof.
  intros H.
  destruct (H fs_book book_root_ex book_output (Some ["."; "("])
              (book_root_ex ++ ["chapters"; "01-intro"])) as [[e He] _].
  - exists "(". split; [right; now left | reflexivity].
  - eapply (tested_chapter (engine := mini_engine) fs_book book_root_ex _ _
              (book_root_ex ++ ["chapters"; "01-intro"])).
    + reflexivity.
    + reflexivity.
    + simpl. right. right. now left.
    + reflexivity.
  - vm_compute in He. discriminate He.
Qed.

Example invalid_pattern_not_reached_run :
  snd (generate_summary (engine := mini_engine) fs_book book_root_ex
         book_output (Some ["."; "("]))
  = Ok [ "# Summary" +++ PyStr.NL +++ PyStr.NL;
         "* [Welcome](README.md)" +++ PyStr.NL ].
Proof. vm_compute. reflexivity. Qed.

(* ================================================================== *)
(** ** Opening the output file *)

(** Whether [open] succeeds does not depend on what is written. *)
Lemma write_file_any_data (fs fs' : node) (p : Path) (data data' : string) :
  write_file fs p data = Some fs' -> exists fs'', write_file fs p data' = Some fs''.
Proof.
  revert fs fs'. induction p as [|seg p IH]; intros fs fs'; simpl.
  - destruct fs; [eauto | discriminate].
  - destruct fs as [d|es]; [discriminate|].
    destruct (child seg es) as [c|].
    + destruct (write_file c p data) as [c'|] eqn:Ew; [|discriminate].
      intros _. destruct (IH _ _ Ew) as [c'' ->]. eauto.
    + destruct p; [eauto | discriminate].
Qed.


(* ================================================================== *)
(** * Further properties of the summary generator *)

(** ** is_excluded: any match, first match *)

Section ExclusionLaws.

Context {engine : RegexEngine}.

(** X1.  When every pattern of the list compiles, [is_excluded] does not
    raise and returns whether at least one pattern is found in the path;
    for the empty list it returns [False]. *)
Theorem is_excluded_any_match (path : Path) (pats : list string) :
  (forall p, In p pats -> re_compile p <> None) ->
  exists b,
    is_excluded path pats = Ok b /\ (b = true <-> matches_some path pats).
Proof.
  induction pats as [|pat pats IH]; intros Hvalid.
  - exists false. split; [reflexivity|].
    split; [discriminate | intros [p [r [[] _]]]].
  - simpl. unfold re_search.
    destruct (re_compile pat) as [r|] eqn:Ec;
      [|exfalso; exact (Hvalid pat (or_introl eq_refl) Ec)].
    simpl. destruct (re_found r (str path)) eqn:Ef.
    + exists true. split; [reflexivity|]. split; [|reflexivity].
      intros _. exists pat, r. split; [now left | auto].
    + destruct IH as [b [Hb Hiff]]; [intros p Hp; apply Hvalid; now right|].
      exists b. split; [exact Hb|]. rewrite Hiff. split.
      * intros [p [r' [Hin H]]]. exists p, r'. split; [now right | exact H].
      * intros [p [r' [[<-|Hin] [Hc Hf]]]].
        -- congruence.
        -- exists p, r'. auto.
Qed.

(** X2.  A list of patterns made of two parts is tried part by part: the
    second part is consulted only when the first neither matches nor
    raises. *)
Theorem is_excluded_app (path : Path) (l1 l2 : list string) :
  is_excluded path (l1 ++ l2) =
  match is_excluded path l1 with
  | Ok false => is_excluded path l2
  | r => r
  end.
Proof.
  induction l1 as [|pat l1 IH]; simpl; [reflexivity|].
  destruct (re_search pat (str path)) as [[]|e]; simpl; [reflexivity| |reflexivity].
  exact IH.
Qed.

End ExclusionLaws.

Lemma is_excluded_any_match_witness :
  exists b,
    is_excluded (engine := mini_engine) ["home"; "book"; "chapters"; "_hidden"]
      default_exclude = Ok b /\
    (b = true <->
     matches_some (engine := mini_engine)
       ["home"; "book"; "chapters"; "_hidden"] default_exclude).
Proof.
  apply (is_excluded_any_match (engine := mini_engine)
           ["home"; "book"; "chapters"; "_hidden"] default_exclude).
  intros p [<-|[<-|[<-|[<-|[<-|[]]]]]]; vm_compute; discriminate.
Defined.

(** ** generate_summary: what a run leaves alone *)

(** Away from the written path nothing changes, except that the
    directories on the way to it have one more or one other entry. *)
Lemma write_file_elsewhere (fs fs' : node) (p : Path) (data : string) :
  write_file fs p data = Some fs' ->
  forall q, q <> p ->
    lookup fs' q = lookup fs q \/
    exists es es', lookup fs q = Some (Dir es) /\ lookup fs' q = Some (Dir es').
Proof.
  revert fs fs'. induction p as [|seg p IH]; intros fs fs' Hw q Hq.
  - simpl in Hw. destruct fs as [d|es]; [|discriminate].
    inversion Hw; subst. destruct q as [|s q]; [congruence|]. now left.
  - simpl in Hw. destruct fs as [d|es]; [discriminate|].
    destruct q as [|s q].
    + right. destruct (child seg es) as [c|].
      * destruct (write_file c p data); [|discriminate].
        inversion Hw; subst. simpl. eauto.
      * destruct p; [|discriminate]. inversion Hw; subst. simpl. eauto.
    + destruct (String.eqb_spec seg s) as [->|Hne].
      * destruct (child s es) as [c|] eqn:Ec.
        -- destruct (write_file c p data) as [c'|] eqn:Ew; [|discriminate].
           inversion Hw; subst. simpl.
           rewrite (child_replace_same _ _ _ _ Ec), Ec.
           apply (IH _ _ Ew). congruence.
        -- destruct p; [|discriminate]. inversion Hw; subst. simpl.
           rewrite (child_app_new _ _ _ _ Ec), String.eqb_refl, Ec.
           left. destruct q; [congruence | reflexivity].
      * left. destruct (child seg es) as [c|] eqn:Ec.
        -- destruct (write_file c p data) as [c'|]; [|discriminate].
           inversion Hw; subst. simpl.
           rewrite child_replace_other by congruence. reflexivity.
        -- destruct p; [|discriminate]. inversion Hw; subst. simpl.
           rewrite (child_app_new _ _ _ _ Ec).
           destruct (String.eqb_spec seg s); [contradiction | reflexivity].
Qed.

Lemma write_file_keeps (fs fs' : node) (p : Path) (data : string) :
  write_file fs p data = Some fs' ->
  forall q, q <> p ->
    read_text fs' q = read_text fs q /\
    is_dir fs' q = is_dir fs q /\
    path_exists fs' q = path_exists fs q.
Proof.
  intros Hw q Hq. unfold read_text, is_dir, path_exists.
  destruct (write_file_elsewhere _ _ _ _ Hw q Hq) as [->|[es [es' [-> ->]]]];
    auto.
Qed.

Section RunFacts.

Context {engine : RegexEngine}.

(** X5.  A run creates or replaces the output file and changes nothing
    else: every other path keeps its content and its kind. *)
Theorem generate_summary_touches_only_output (fs fs' : node)
  (book_root output_file : Path) (exclude : option (list string))
  (r : result (list string)) :
  generate_summary fs book_root output_file exclude = (fs', r) ->
  forall q, q <> output_file ->
    read_text fs' q = read_text fs q /\
    is_dir fs' q = is_dir fs q /\
    path_exists fs' q = path_exists fs q.
Proof.
  intros H.
  destruct (generate_summary_cases _ _ _ _ _ _ H) as [->|[data Hw]]; [auto|].
  exact (write_file_keeps _ _ _ _ Hw).
Qed.

(** X8.  After a run that returns, the title that [extract_title] reads
    from the output file is [Summary]. *)
Theorem output_file_title (fs fs' : node) (book_root output_file : Path)
  (exclude : option (list string)) (content : list string) :
  generate_summary fs book_root output_file exclude = (fs', Ok content) ->
  extract_title fs' output_file = "Summary".
Proof.
  intros H. apply generate_summary_Ok_inv in H.
  destruct H as [es [_ [-> Hw]]].
  unfold extract_title. rewrite (read_after_write _ _ _ _ Hw).
  rewrite concat_empty_cons.
  change (header +++ String.concat "" (map render es))
    with (with_heading [] "Summary"
            (PyStr.NL +++ PyStr.NL +++ String.concat "" (map render es))).
  rewrite search_heading_with_heading; [reflexivity | constructor | discriminate
                                       | reflexivity | right; eauto].
Qed.

End RunFacts.

Lemma generate_summary_touches_only_output_witness :
  read_text (fst book_run) (book_root_ex ++ ["README.md"])
    = read_text fs_book (book_root_ex ++ ["README.md"]) /\
  is_dir (fst book_run) (book_root_ex ++ ["README.md"])
    = is_dir fs_book (book_root_ex ++ ["README.md"]) /\
  path_exists (fst book_run) (book_root_ex ++ ["README.md"])
    = path_exists fs_book (book_root_ex ++ ["README.md"]).
Proof.
  apply (generate_summary_touches_only_output (engine := mini_engine)
           fs_book (fst book_run) book_root_ex book_output None (Ok book_content)).
  - vm_compute. reflexivity.
  - discriminate.
Defined.

Lemma output_file_title_witness :
  extract_title (fst book_run) book_output = "Summary".
Proof.
  apply (output_file_title (engine := mini_engine) fs_book (fst book_run)
           book_root_ex book_output None book_content).
  vm_compute. reflexivity.
Defined.

(** ** generate_summary: chapters with a README, and where links point *)

Section ChapterWithReadme.

Context {engine : RegexEngine}.

(** X6.  For a chapter directory with a README.md, the loop appends one
    top-level line that links to the README.md under the title read from
    it, and then one indented linked line for each other markdown file of
    the directory that is left after exclusion, each file once, in the
    strict order of the file names. *)
Theorem chapter_with_readme (fs : node) (book_root : Path)
  (exclude : list string) (n : string) (lines : list string) :
  distinct_names fs (book_root ++ ["chapters"; n]) = true ->
  path_exists fs (book_root ++ ["chapters"; n; "README.md"]) = true ->
  chapter_lines fs book_root exclude (book_root ++ ["chapters"; n]) = Ok lines ->
  exists files,
    (forall f, In f files <->
               In f (glob_md fs (book_root ++ ["chapters"; n])) /\
               name f <> "README.md" /\
               is_excluded f exclude = Ok false) /\
    StronglySorted name_lt files /\
    lines =
      ("* [" +++ extract_title fs (book_root ++ ["chapters"; n; "README.md"])
         +++ "](" +++ str_rel ["chapters"; n; "README.md"] +++ ")" +++ PyStr.NL)
      :: map (fun f => "  * [" +++ extract_title fs f +++ "]("
                         +++ str_rel ["chapters"; n; name f] +++ ")"
                         +++ PyStr.NL) files.
Proof.
  intros Hnd Hr H. unfold chapter_lines in H.
  rewrite <- app_assoc in H. simpl app in H. rewrite Hr in H.
  rewrite relative_to_app in H. cbn [bind] in H.
  fold (keep_section exclude) in H.
  apply bind_Ok_inv in H. destruct H as [kept [Hk H]].
  apply bind_Ok_inv in H. destruct H as [secs [Hs H]].
  inversion H; subst; clear H.
  exists (sorted kept).
  assert (Hshape : forall f, In f (sorted kept) ->
                     exists m, f = (book_root ++ ["chapters"; n]) ++ [m])
    by exact (kept_shape fs _ _ _ Hk).
  split; [|split].
  - intros f. rewrite sorted_In, (filterM_In _ _ _ Hk f), keep_section_true.
    tauto.
  - apply (sorted_siblings_strict (book_root ++ ["chapters"; n])).
    + intros f Hf. apply Hshape. now apply sorted_In.
    + exact (filterM_NoDup _ _ _ Hk (distinct_glob_md _ _ Hnd)).
  - f_equal.
    apply (mapM_pure_inv (section_line fs book_root)); [|exact Hs].
    intros f Hf. destruct (Hshape f Hf) as [m ->].
    rewrite name_snoc. apply (section_line_listed fs book_root ["chapters"; n] m).
Qed.

(** X7.  Every link of the document points to an entry that exists in the
    tree, and to one of three places only: the README.md of the root, an
    entry directly in a chapter directory of a book with chapters, or an
    entry directly in the root of a book without chapters.  Files of the
    root of a book with chapters, and files below the chapter directories,
    are never listed. *)
Theorem links_point_into_tree (fs fs' : node) (book_root output_file : Path)
  (exclude : option (list string)) (content : list string) :
  generate_summary fs book_root output_file exclude = (fs', Ok content) ->
  exists entries,
    summary_entries fs book_root (effective_exclude exclude) = Ok entries /\
    content = header :: map render entries /\
    forall e rel,
      In e entries -> target e = Some rel ->
      path_exists fs (book_root ++ rel) = true /\
      (rel = ["README.md"] \/
       (exists n m, rel = ["chapters"; n; m] /\
                    is_dir fs (book_root ++ ["chapters"]) = true /\
                    is_dir fs (book_root ++ ["chapters"; n]) = true) \/
       (exists m, rel = [m] /\ is_dir fs (book_root ++ ["chapters"]) = false)).
Proof.
  intros H. apply generate_summary_Ok_inv in H.
  destruct H as [es [Hes [-> Hw]]].
  exists es. split; [assumption|]. split; [reflexivity|].
  pose proof (summary_entries_emitted _ _ _ _ Hes) as Hem.
  rewrite Forall_forall in Hem.
  intros e rel Hin Ht. specialize (Hem e Hin).
  destruct Hem as [Hr|n Hv Hr|n Hv Hr|n m Hv Hg Hm Hx|m Hd Hg Hm1 Hm2 Hx];
    simpl in Ht; inversion Ht; subst; clear Ht.
  - split; [exact Hr | now left].
  - split; [exact Hr|]. right. left. exists n, "README.md".
    destruct Hv as [H1 [H2 _]]. auto.
  - split.
    + change (book_root ++ ["chapters"; n; m])
        with (book_root ++ ["chapters"; n] ++ [m]).
      rewrite app_assoc. apply glob_md_exists.
      rewrite <- app_assoc. exact Hg.
    + right. left. exists n, m. destruct Hv as [H1 [H2 _]]. auto.
  - split; [now apply glob_md_exists|]. right. right. eauto.
Qed.

End ChapterWithReadme.

Lemma chapter_with_readme_witness :
  exists files,
    (forall f, In f files <->
               In f (glob_md fs_book (book_root_ex ++ ["chapters"; "02-setup"])) /\
               name f <> "README.md" /\
               is_excluded (engine := mini_engine) f default_exclude = Ok false) /\
    StronglySorted name_lt files /\
    [ "* [Setup](chapters/02-setup/README.md)" +++ PyStr.NL;
      "  * [A Part](chapters/02-setup/a-part.md)" +++ PyStr.NL;
      "  * [B Part](chapters/02-setup/b-part.md)" +++ PyStr.NL ] =
      ("* [" +++ extract_title fs_book
                   (book_root_ex ++ ["chapters"; "02-setup"; "README.md"])
         +++ "](" +++ str_rel ["chapters"; "02-setup"; "README.md"] +++ ")"
         +++ PyStr.NL)
      :: map (fun f => "  * [" +++ extract_title fs_book f +++ "]("
                         +++ str_rel ["chapters"; "02-setup"; name f] +++ ")"
                         +++ PyStr.NL) files.
Proof.
  apply (chapter_with_readme (engine := mini_engine)
           fs_book book_root_ex default_exclude "02-setup").
  - reflexivity.
  - reflexivity.
  - vm_compute. reflexivity.
Defined.

Lemma links_point_into_tree_witness :
  exists entries,
    summary_entries (engine := mini_engine) fs_book book_root_ex
      (effective_exclude None) = Ok entries /\
    book_content = header :: map render entries /\
    forall e rel,
      In e entries -> target e = Some rel ->
      path_exists fs_book (book_root_ex ++ rel) = true /\
      (rel = ["README.md"] \/
       (exists n m, rel = ["chapters"; n; m] /\
                    is_dir fs_book (book_root_ex ++ ["chapters"]) = true /\
                    is_dir fs_book (book_root_ex ++ ["chapters"; n]) = true) \/
       (exists m, rel = [m] /\
                  is_dir fs_book (book_root_ex ++ ["chapters"]) = false)).
Proof.
  apply (links_point_into_tree (engine := mini_engine)
           fs_book (fst book_run) book_root_ex book_output None book_content).
  vm_compute. reflexivity.
Defined.

(* ================================================================== *)
(** * Properties of the chapter scaffolding *)

(** ** Numbers and names *)

Lemma string_forallb_app (f : ascii -> bool) (a b : string) :
  forallb f (list_ascii_of_string (a +++ b)) =
  forallb f (list_ascii_of_string a) && forallb f (list_ascii_of_string b).
Proof.
  induction a as [|c a IH]; simpl; [reflexivity|].
  now rewrite IH, andb_assoc.
Qed.

Lemma is_plain_app (a b : string) :
  PyText.is_plain (a +++ b) = PyText.is_plain a && PyText.is_plain b.
Proof. apply string_forallb_app. Qed.

Lemma digits_are_digits (d : Decimal.uint) :
  forallb PyText.is_digit (list_ascii_of_string (NilEmpty.string_of_uint d)) = true.
Proof. induction d; simpl; auto. Qed.

Lemma forallb_weaken (f g : ascii -> bool) (s : string) :
  (forall c, f c = true -> g c = true) ->
  forallb f (list_ascii_of_string s) = true ->
  forallb g (list_ascii_of_string s) = true.
Proof.
  intros H. induction s as [|c s IH]; simpl; [reflexivity|].
  intros Hs. apply andb_true_iff in Hs. destruct Hs as [Hc Hs].
  now rewrite (H c Hc), IH.
Qed.

(** What a digit is not. *)
Lemma digit_facts (c : ascii) :
  PyText.is_digit c = true ->
  PyText.is_int_space c = false /\
  Ascii.eqb c "-" = false /\ Ascii.eqb c "+" = false /\
  Ascii.eqb c "_" = false /\ Ascii.eqb c "/" = false /\
  Ascii.eqb c "." = false /\ Ascii.eqb c PyText.nul = false.
Proof.
  destruct c as [[] [] [] [] [] [] [] []]; vm_compute; intros H;
    try discriminate H; repeat split.
Qed.

Lemma decimal_digits (n : N) :
  forallb PyText.is_digit (list_ascii_of_string (PyText.decimal n)) = true.
Proof. apply digits_are_digits. Qed.

Lemma to_uint_nonnil (n : N) : N.to_uint n <> Decimal.Nil.
Proof.
  destruct n as [|p]; [discriminate|].
  apply DecimalPos.Unsigned.to_uint_nonnil.
Qed.

Lemma decimal_nonempty (n : N) : PyText.decimal n <> "".
Proof.
  unfold PyText.decimal. pose proof (to_uint_nonnil n) as H.
  destruct (N.to_uint n); try discriminate. congruence.
Qed.

Lemma lskip_digits (s : string) :
  forallb PyText.is_digit (list_ascii_of_string s) = true -> PyText.lskip s = s.
Proof.
  destruct s as [|c s]; simpl; [reflexivity|].
  intros H. apply andb_true_iff in H. destruct H as [Hc _].
  destruct (digit_facts c Hc) as [-> _]. reflexivity.
Qed.

Lemma rskip_digits (s : string) :
  forallb PyText.is_digit (list_ascii_of_string s) = true -> PyText.rskip s = s.
Proof.
  induction s as [|c s IH]; simpl; [reflexivity|].
  intros H. apply andb_true_iff in H. destruct H as [Hc Hs].
  rewrite (IH Hs). destruct (digit_facts c Hc) as [-> _].
  destruct s; reflexivity.
Qed.

Lemma digits_of_digits (b : bool) (s : string) :
  forallb PyText.is_digit (list_ascii_of_string s) = true -> s <> "" ->
  PyText.digits_of b s = Some s.
Proof.
  revert b. induction s as [|c s IH]; intros b H Hne; [congruence|].
  simpl in *. apply andb_true_iff in H. destruct H as [Hc Hs]. rewrite Hc.
  destruct s as [|c' s]; [reflexivity|].
  rewrite (IH true Hs); [reflexivity | discriminate].
Qed.

Lemma uint_of_digits (d : Decimal.uint) :
  NilEmpty.uint_of_string (NilEmpty.string_of_uint d) = Some d.
Proof. apply NilEmpty.usu. Qed.

(** On a string of digits [int] is the value of the digits. *)
Lemma int_of_str_digits (s : string) :
  forallb PyText.is_digit (list_ascii_of_string s) = true -> s <> "" ->
  PyText.int_of_str s =
  match NilEmpty.uint_of_string s with
  | Some d => Some (Z.of_N (N.of_uint d))
  | None => None
  end.
Proof.
  intros Hd Hne. unfold PyText.int_of_str.
  rewrite (lskip_digits _ Hd), (rskip_digits _ Hd).
  destruct s as [|c s]; [congruence|].
  assert (Hc : PyText.is_digit c = true)
    by (simpl in Hd; now apply andb_true_iff in Hd).
  destruct (digit_facts c Hc) as [_ [-> [-> _]]].
  now rewrite (digits_of_digits false _ Hd) by discriminate.
Qed.

(** [int] reads back the digits of a natural number. *)
Lemma int_of_str_decimal (n : N) :
  PyText.int_of_str (PyText.decimal n) = Some (Z.of_N n).
Proof.
  rewrite int_of_str_digits
    by (apply decimal_digits || apply decimal_nonempty).
  unfold PyText.decimal. rewrite uint_of_digits.
  now rewrite DecimalN.Unsigned.of_to.
Qed.

(** [int] reads back a number that [:02d] has formatted. *)
Lemma int_of_str_format_02d (n : Z) :
  (0 <= n)%Z -> PyText.int_of_str (PyText.format_02d n) = Some n.
Proof.
  intros Hn. unfold PyText.format_02d.
  destruct (Z.ltb_spec n 0) as [Hlt|_]; [lia|].
  destruct (Nat.ltb _ 2).
  - rewrite int_of_str_digits;
      [|simpl; apply decimal_digits | discriminate].
    unfold PyText.decimal.
    change ("0" +++ NilEmpty.string_of_uint (N.to_uint (Z.to_N n)))
      with (NilEmpty.string_of_uint (Decimal.D0 (N.to_uint (Z.to_N n)))).
    rewrite uint_of_digits.
    change (N.of_uint (Decimal.D0 (N.to_uint (Z.to_N n))))
      with (N.of_uint (N.to_uint (Z.to_N n))).
    rewrite DecimalN.Unsigned.of_to. f_equal. lia.
  - rewrite int_of_str_decimal. f_equal. lia.
Qed.

Lemma before_dash_app (s r : string) :
  forallb (fun c => negb (Ascii.eqb c "-")) (list_ascii_of_string s) = true ->
  PyText.before_dash (s +++ String "-" r) = s.
Proof.
  induction s as [|c s IH]; simpl; [reflexivity|].
  intros H. apply andb_true_iff in H. destruct H as [Hc Hs].
  apply negb_true_iff in Hc. rewrite Hc. now rewrite IH.
Qed.

Lemma format_02d_digits (n : Z) :
  (0 <= n)%Z ->
  forallb PyText.is_digit (list_ascii_of_string (PyText.format_02d n)) = true.
Proof.
  intros Hn. unfold PyText.format_02d.
  destruct (Z.ltb_spec n 0) as [Hlt|_]; [lia|].
  destruct (Nat.ltb _ 2); [simpl|]; apply decimal_digits.
Qed.

(** The numeric prefix of the name of a chapter directory is read back
    as the number of the chapter. *)
Lemma chapter_dir_name_number (n : Z) (chapter_name : string) :
  (0 <= n)%Z ->
  PyText.int_of_str (PyText.before_dash (chapter_dir_name n chapter_name)) = Some n.
Proof.
  intros Hn. unfold chapter_dir_name.
  change (PyText.format_02d n +++ "-"
          +++ PyStr.replace " " "-" (PyText.lower chapter_name))
    with (PyText.format_02d n
          +++ String "-" (PyStr.replace " " "-" (PyText.lower chapter_name))).
  rewrite before_dash_app; [now apply int_of_str_format_02d|].
  apply (forallb_weaken PyText.is_digit); [|now apply format_02d_digits].
  intros c Hc. destruct (digit_facts c Hc) as [_ [-> _]]. reflexivity.
Qed.

(** ** The order of the chapter directories *)

Lemma compare_app_Lt (s t x y : string) :
  String.length s = String.length t ->
  String.compare s t = Lt ->
  String.compare (s +++ x) (t +++ y) = Lt.
Proof.
  revert t. induction s as [|c s IH]; intros [|d t]; simpl;
    try discriminate.
  intros Hlen. destruct (Ascii.compare c d); try discriminate; auto.
Qed.

Lemma two_digit_numbers :
  forallb (fun m =>
             Nat.eqb (String.length (PyText.format_02d (Z.of_nat m))) 2 &&
             forallb (fun n =>
                        implb (Nat.ltb m n)
                              (String.ltb (PyText.format_02d (Z.of_nat m))
                                          (PyText.format_02d (Z.of_nat n))))
                     (seq 0 100))
          (seq 0 100) = true.
Proof. vm_compute. reflexivity. Qed.

Lemma format_02d_order (m n : nat) :
  m < n -> n < 100 ->
  String.length (PyText.format_02d (Z.of_nat m)) = 2 /\
  String.length (PyText.format_02d (Z.of_nat n)) = 2 /\
  String.compare (PyText.format_02d (Z.of_nat m))
                 (PyText.format_02d (Z.of_nat n)) = Lt.
Proof.
  intros Hmn Hn.
  pose proof two_digit_numbers as H. rewrite forallb_forall in H.
  assert (Hm : In m (seq 0 100)) by (apply in_seq; lia).
  assert (Hn' : In n (seq 0 100)) by (apply in_seq; lia).
  pose proof (H m Hm) as H1. pose proof (H n Hn') as H2.
  apply andb_true_iff in H1. destruct H1 as [L1 P1].
  apply andb_true_iff in H2. destruct H2 as [L2 _].
  apply Nat.eqb_eq in L1, L2.
  rewrite forallb_forall in P1. specialize (P1 n Hn').
  assert (E : Nat.ltb m n = true) by (apply Nat.ltb_lt; lia).
  rewrite E in P1. simpl in P1. unfold String.ltb in P1.
  destruct (String.compare _ _); try discriminate. auto.
Qed.

(** X9.  Up to chapter 99 the names of the chapter directories sort as
    their numbers do, whatever the names of the chapters: [sorted] puts
    the directory of the chapter with the smaller number first. *)
Theorem chapter_dirs_sort_by_number (dir : Path) (m n : Z) (a b : string) :
  (0 <= m < n)%Z -> (n <= 99)%Z ->
  path_ltb (dir ++ [chapter_dir_name m a]) (dir ++ [chapter_dir_name n b]) = true.
Proof.
  intros Hmn Hn. rewrite path_ltb_siblings. unfold String.ltb, chapter_dir_name.
  destruct (format_02d_order (Z.to_nat m) (Z.to_nat n)) as [L1 [L2 C]]; try lia.
  rewrite !Z2Nat.id in * by lia.
  rewrite (compare_app_Lt _ _ _ _ (eq_trans L1 (eq_sym L2)) C). reflexivity.
Qed.

Lemma chapter_dirs_sort_by_number_witness :
  path_ltb (["home"; "book"; "chapters"] ++ [chapter_dir_name 9 "zebra"])
           (["home"; "book"; "chapters"] ++ [chapter_dir_name 10 "Apple"]) = true.
Proof.
  apply (chapter_dirs_sort_by_number ["home"; "book"; "chapters"] 9 10
           "zebra" "Apple"); lia.
Defined.

(** From chapter 100 on the order of the names is no longer the order of
    the numbers. *)
Example chapter_100_sorts_first :
  path_ltb (["chapters"] ++ [chapter_dir_name 100 "late"])
           (["chapters"] ++ [chapter_dir_name 99 "early"]) = true.
Proof. vm_compute. reflexivity. Qed.

(** ** mkdir and the tree *)

Lemma replace_child_same (seg : string) (c : node) (es : list (string * node)) :
  child seg es = Some c -> replace_child seg c es = es.
Proof.
  induction es as [|[n x] es IH]; simpl; [reflexivity|].
  destruct (String.eqb n seg).
  - intros H; inversion H; subst. reflexivity.
  - intros H. now rewrite IH.
Qed.

(** [mkdir] adds directories and changes nothing that was there. *)
Lemma mkdir_elsewhere (fs fs' : node) (p : Path) (parents exist_ok : bool) :
  mkdir fs p parents exist_ok = Ok fs' ->
  forall q,
    lookup fs' q = lookup fs q \/
    exists es', lookup fs' q = Some (Dir es') /\
                (lookup fs q = None \/ exists es, lookup fs q = Some (Dir es)).
Proof.
  revert fs fs'. induction p as [|seg p IH]; intros fs fs' Hm q.
  - simpl in Hm. destruct fs as [d|es]; [discriminate|].
    destruct exist_ok; [|discriminate]. inversion Hm; subst. now left.
  - simpl in Hm. destruct fs as [d|es]; [discriminate|].
    destruct (child seg es) as [c|] eqn:Ec.
    + apply bind_Ok_inv in Hm. destruct Hm as [c' [Hc' Hm]].
      inversion Hm; subst; clear Hm.
      destruct q as [|s q]; [right; simpl; eauto|].
      simpl. destruct (String.eqb_spec seg s) as [->|Hne].
      * rewrite (child_replace_same _ _ _ _ Ec), Ec. exact (IH _ _ Hc' q).
      * rewrite child_replace_other by congruence. now left.
    + assert (Hnew : forall c',
                 (forall q', lookup c' q' = lookup (Dir []) q' \/
                    exists es', lookup c' q' = Some (Dir es') /\
                      (lookup (Dir []) q' = None \/
                       exists es0, lookup (Dir []) q' = Some (Dir es0))) ->
                 lookup (Dir (es ++ [(seg, c')])) q = lookup (Dir es) q \/
                 exists es', lookup (Dir (es ++ [(seg, c')])) q = Some (Dir es') /\
                   (lookup (Dir es) q = None \/
                    exists es0, lookup (Dir es) q = Some (Dir es0))).
      { intros c' Hc'. destruct q as [|s q]; [right; simpl; eauto|].
        simpl. rewrite (child_app_new _ _ _ _ Ec).
        destruct (String.eqb_spec seg s) as [->|Hne]; [|now left].
        rewrite Ec. destruct (Hc' q) as [E|[es' [E _]]].
        - rewrite E. destruct q as [|x q]; [right; simpl; eauto | now left].
        - right. eauto. }
      destruct p as [|x p].
      * inversion Hm; subst. apply Hnew. intros q'. now left.
      * destruct parents; [|discriminate].
        apply bind_Ok_inv in Hm. destruct Hm as [c' [Hc' Hm]].
        inversion Hm; subst; clear Hm.
        apply Hnew. exact (IH _ _ Hc').
Qed.

Lemma mkdir_keeps (fs fs' : node) (p : Path) (parents exist_ok : bool) :
  mkdir fs p parents exist_ok = Ok fs' ->
  forall q,
    read_text fs' q = read_text fs q /\
    (is_dir fs q = true -> is_dir fs' q = true) /\
    (path_exists fs q = true -> path_exists fs' q = true).
Proof.
  intros Hm q. unfold read_text, is_dir, path_exists.
  destruct (mkdir_elsewhere _ _ _ _ _ Hm q)
    as [->|[es' [-> [->|[es ->]]]]]; auto.
Qed.

Lemma mkdir_is_dir (fs fs' : node) (p : Path) (parents exist_ok : bool) :
  mkdir fs p parents exist_ok = Ok fs' -> is_dir fs' p = true.
Proof.
  unfold is_dir. revert fs fs'. induction p as [|seg p IH]; intros fs fs' Hm.
  - simpl in *. destruct fs as [d|es]; [discriminate|].
    destruct exist_ok; [|discriminate]. now inversion Hm.
  - simpl in Hm. destruct fs as [d|es]; [discriminate|].
    destruct (child seg es) as [c|] eqn:Ec.
    + apply bind_Ok_inv in Hm. destruct Hm as [c' [Hc' Hm]].
      inversion Hm; subst. simpl.
      rewrite (child_replace_same _ _ _ _ Ec). exact (IH _ _ Hc').
    + destruct p as [|x p].
      * inversion Hm; subst. simpl.
        now rewrite (child_app_new _ _ _ _ Ec), String.eqb_refl.
      * destruct parents; [|discriminate].
        apply bind_Ok_inv in Hm. destruct Hm as [c' [Hc' Hm]].
        inversion Hm; subst. simpl.
        rewrite (child_app_new _ _ _ _ Ec), String.eqb_refl.
        exact (IH _ _ Hc').
Qed.

(** With [exist_ok], [mkdir] of a directory that is there does nothing. *)
Lemma mkdir_existing (fs : node) (p : Path) (parents : bool) :
  is_dir fs p = true -> mkdir fs p parents true = Ok fs.
Proof.
  unfold is_dir. revert fs. induction p as [|seg p IH]; intros fs; simpl.
  - destruct fs; [discriminate | reflexivity].
  - destruct fs as [d|es]; [discriminate|].
    destruct (child seg es) as [c|] eqn:Ec; [|discriminate].
    intros H. rewrite (IH c H). simpl.
    now rewrite (replace_child_same _ _ _ Ec).
Qed.

(** Under a file, and on a file, [mkdir] raises. *)
Lemma mkdir_under_file (fs : node) (p q : Path) (d : option string)
  (parents exist_ok : bool) :
  lookup fs p = Some (File d) ->
  mkdir fs (p ++ q) parents exist_ok = Raise OSError.
Proof.
  revert fs. induction p as [|seg p IH]; intros fs; simpl.
  - intros H; inversion H; subst. destruct q; reflexivity.
  - destruct fs as [d0|es]; [discriminate|].
    destruct (child seg es) as [c|]; [|discriminate].
    intros H. now rewrite (IH c H).
Qed.

(** Writing what a file already holds changes nothing. *)
Lemma write_file_same (fs : node) (p : Path) (data : string) :
  read_text fs p = Some data -> write_file fs p data = Some fs.
Proof.
  unfold read_text. revert fs. induction p as [|seg p IH]; intros fs; simpl.
  - destruct fs as [[d|]|]; try discriminate. intros H; now inversion H.
  - destruct fs as [d|es]; [discriminate|].
    destruct (child seg es) as [c|] eqn:Ec; [|discriminate].
    intros H. rewrite (IH c H). now rewrite (replace_child_same _ _ _ Ec).
Qed.

(** A write leaves every directory a directory and makes no new one. *)
Lemma write_file_is_dir (fs fs' : node) (p : Path) (data : string) :
  write_file fs p data = Some fs' -> forall q, is_dir fs' q = is_dir fs q.
Proof.
  intros Hw q. destruct (list_eq_dec string_dec q p) as [->|Hne].
  - pose proof (read_after_write _ _ _ _ Hw) as Hr.
    assert (Hw' := Hw). apply write_file_same in Hr.
    unfold is_dir. unfold read_text in *.
    assert (Hafter : exists d, lookup fs' p = Some (File d)).
    { pose proof (read_after_write _ _ _ _ Hw) as R. unfold read_text in R.
      destruct (lookup fs' p) as [[d|]|]; try discriminate. eauto. }
    destruct Hafter as [d ->].
    destruct (lookup fs p) as [[d0|es]|] eqn:E; try reflexivity.
    exfalso. clear - Hw E. revert fs fs' Hw E.
    induction p as [|seg p IH]; intros fs fs'; simpl.
    + intros Hw H. inversion H; subst. discriminate.
    + destruct fs as [d0|es0]; [discriminate|].
      destruct (child seg es0) as [c|]; [|discriminate].
      destruct (write_file c p data) as [c'|] eqn:Ew; [|discriminate].
      intros _ H. exact (IH _ _ Ew H).
  - now destruct (write_file_keeps _ _ _ _ Hw q Hne) as [_ [H _]].
Qed.

(** ** Steps *)

Lemma io_bind_Ok_inv {A B : Type} (m : io A) (k : A -> io B) (fs fs' : node) (b : B) :
  io_bind m k fs = (fs', Ok b) ->
  exists fs1 a, m fs = (fs1, Ok a) /\ k a fs1 = (fs', Ok b).
Proof.
  unfold io_bind. destruct (m fs) as [fs1 [a|e]]; intros H; [eauto|].
  inversion H.
Qed.

Lemma io_update_Ok_inv (f : node -> result node) (fs fs' : node) (u : unit) :
  io_update f fs = (fs', Ok u) -> f fs = Ok fs'.
Proof.
  unfold io_update. destruct (f fs) as [fs1|e]; intros H; inversion H.
  reflexivity.
Qed.

Lemma io_for_app {A : Type} (l1 l2 : list A) (body : A -> io unit)
  (fs fs' : node) :
  io_for (l1 ++ l2) body fs = (fs', Ok tt) ->
  exists fs1, io_for l1 body fs = (fs1, Ok tt) /\
              io_for l2 body fs1 = (fs', Ok tt).
Proof.
  revert fs. induction l1 as [|x l1 IH]; intros fs; simpl.
  - intros H. exists fs. split; [reflexivity | exact H].
  - intros H. apply io_bind_Ok_inv in H. destruct H as [fs1 [[] [Hx H]]].
    destruct (IH _ H) as [fs2 [H1 H2]]. exists fs2. split; [|exact H2].
    unfold io_bind. now rewrite Hx.
Qed.

(** What every step of a loop keeps, the loop keeps. *)
Lemma io_for_invariant {A : Type} (Inv : node -> Prop) (l : list A)
  (body : A -> io unit) :
  (forall x fs1 fs2, In x l -> body x fs1 = (fs2, Ok tt) -> Inv fs1 -> Inv fs2) ->
  forall fs fs', io_for l body fs = (fs', Ok tt) -> Inv fs -> Inv fs'.
Proof.
  induction l as [|x l IH]; intros Hstep fs fs'; simpl.
  - intros H; inversion H; subst. auto.
  - intros H Hinv. apply io_bind_Ok_inv in H. destruct H as [fs1 [[] [Hx H]]].
    apply (IH (fun y a b Hy => Hstep y a b (or_intror Hy)) _ _ H).
    exact (Hstep x _ _ (or_introl eq_refl) Hx Hinv).
Qed.

(** ** Plain names *)

Lemma to_lower_plain (c : ascii) :
  Ascii.eqb (PyStr.to_lower c) "/" = Ascii.eqb c "/" /\
  Ascii.eqb (PyStr.to_lower c) PyText.nul = Ascii.eqb c PyText.nul.
Proof.
  destruct c as [[] [] [] [] [] [] [] []]; vm_compute; split; reflexivity.
Qed.

Lemma lower_plain (s : string) :
  PyText.is_plain (PyText.lower s) = PyText.is_plain s.
Proof.
  unfold PyText.is_plain. induction s as [|c s IH]; simpl; [reflexivity|].
  destruct (to_lower_plain c) as [-> ->]. now rewrite IH.
Qed.

Lemma replace_space_plain (s : string) :
  PyText.is_plain s = true -> PyText.is_plain (PyStr.replace " " "-" s) = true.
Proof.
  unfold PyText.is_plain. induction s as [|c s IH]; simpl; [reflexivity|].
  intros H. apply andb_true_iff in H. destruct H as [Hc Hs].
  rewrite (IH Hs), andb_true_r.
  destruct (Ascii.eqb c " "); [reflexivity | exact Hc].
Qed.

Lemma decimal_plain (n : N) : PyText.is_plain (PyText.decimal n) = true.
Proof.
  apply (forallb_weaken PyText.is_digit); [|apply decimal_digits].
  intros c Hc. destruct (digit_facts c Hc) as [_ [_ [_ [_ [-> [_ ->]]]]]].
  reflexivity.
Qed.

Lemma format_02d_plain (n : Z) : PyText.is_plain (PyText.format_02d n) = true.
Proof.
  unfold PyText.format_02d.
  destruct (n <? 0)%Z; [|destruct (Nat.ltb _ 2)];
    rewrite ?is_plain_app, ?decimal_plain; reflexivity.
Qed.

(** A formatted number starts with a digit or with the minus sign. *)
Lemma format_02d_head (n : Z) :
  exists c r, PyText.format_02d n = String c r /\ Ascii.eqb c "." = false.
Proof.
  unfold PyText.format_02d.
  destruct (n <? 0)%Z; [eexists; eexists; split; [reflexivity|reflexivity]|].
  destruct (Nat.ltb _ 2); [eexists; eexists; split; [reflexivity|reflexivity]|].
  pose proof (decimal_digits (Z.to_N n)) as Hd.
  pose proof (decimal_nonempty (Z.to_N n)) as Hne.
  destruct (PyText.decimal (Z.to_N n)) as [|c r]; [congruence|].
  exists c, r. split; [reflexivity|].
  simpl in Hd. apply andb_true_iff in Hd. destruct Hd as [Hc _].
  now destruct (digit_facts c Hc) as [_ [_ [_ [_ [_ [-> _]]]]]].
Qed.

Lemma split_slash_plain (s : string) :
  PyText.is_plain s = true -> PyText.split_slash s = [s].
Proof.
  unfold PyText.is_plain. induction s as [|c s IH]; simpl; [reflexivity|].
  intros H. apply andb_true_iff in H. destruct H as [Hc Hs].
  apply andb_true_iff in Hc. destruct Hc as [Hc _].
  apply negb_true_iff in Hc. rewrite Hc, (IH Hs). reflexivity.
Qed.

Lemma plain_no_nul (s : string) :
  PyText.is_plain s = true -> PyText.has_nul s = false.
Proof.
  unfold PyText.has_nul, PyText.is_plain.
  induction s as [|x s IH]; [reflexivity|].
  cbn [list_ascii_of_string forallb existsb].
  intros H. apply andb_true_iff in H. destruct H as [Hx Hs].
  apply andb_true_iff in Hx. destruct Hx as [_ Hx].
  apply negb_true_iff in Hx. rewrite (Ascii.eqb_sym PyText.nul x), Hx.
  now apply IH.
Qed.

(** A plain name that starts with a formatted number is one segment, and
    not one that the system reads as a step back. *)
Lemma numbered_name_parts (n : Z) (rest : string) :
  PyText.is_plain rest = true ->
  let s := PyText.format_02d n +++ rest in
  PyText.path_parts s = [s] /\ PyText.has_nul s = false /\ s <> "..".
Proof.
  intros Hp s.
  assert (Hplain : PyText.is_plain s = true)
    by (unfold s; now rewrite is_plain_app, format_02d_plain, Hp).
  destruct (format_02d_head n) as [c [r [E Hc]]].
  assert (Es : s = String c (r +++ rest)) by (unfold s; now rewrite E).
  split; [|split].
  - unfold PyText.path_parts. rewrite (split_slash_plain _ Hplain).
    rewrite Es. simpl. rewrite Hc. reflexivity.
  - exact (plain_no_nul _ Hplain).
  - rewrite Es. intros H. inversion H; subst. discriminate.
Qed.

Lemma os_walk_plain (fs : node) (base segs : Path) :
  Forall (fun s => s <> "..") segs -> os_walk fs base segs = Ok (base ++ segs).
Proof.
  intros H. revert base. induction H as [|s segs Hs _ IH]; intros base; simpl.
  - now rewrite app_nil_r.
  - destruct (String.eqb_spec s ".."); [contradiction|].
    rewrite IH, <- app_assoc. reflexivity.
Qed.

Lemma os_path_plain (fs : node) (base segs : Path) :
  Forall (fun s => PyText.has_nul s = false /\ s <> "..") segs ->
  os_path fs base segs = Ok (base ++ segs).
Proof.
  intros H. unfold os_path.
  assert (E : existsb PyText.has_nul segs = false).
  { induction H as [|s segs [Hs _] _ IH]; simpl; [reflexivity|].
    now rewrite Hs, IH. }
  rewrite E. apply os_walk_plain.
  eapply Forall_impl; [|exact H]. intros s [_ Hs]. exact Hs.
Qed.

(** ** The steps of create_chapter *)

Lemma chapter_dir_parts (fs : node) (base : Path) (k : Z) (chapter_name : string)
  (more : Path) :
  PyText.is_plain chapter_name = true ->
  Forall (fun s => PyText.has_nul s = false /\ s <> "..") more ->
  PyText.path_parts (chapter_dir_name k chapter_name)
    = [chapter_dir_name k chapter_name] /\
  os_path fs base (PyText.path_parts (chapter_dir_name k chapter_name) ++ more)
    = Ok ((base ++ [chapter_dir_name k chapter_name]) ++ more).
Proof.
  intros Hp Hmore.
  destruct (numbered_name_parts k
              ("-" +++ PyStr.replace " " "-" (PyText.lower chapter_name)))
    as [Hparts [Hnul Hdd]].
  { rewrite is_plain_app. simpl. apply replace_space_plain.
    now rewrite lower_plain. }
  fold (chapter_dir_name k chapter_name) in Hparts, Hnul, Hdd.
  split; [exact Hparts|].
  rewrite Hparts, os_path_plain; [now rewrite <- app_assoc|].
  constructor; [split; assumption | exact Hmore].
Qed.

Lemma section_file_parts (i : nat) (section_name : string) :
  PyText.is_plain section_name = true ->
  PyText.path_parts (section_file_name i section_name)
    = [section_file_name i section_name] /\
  PyText.has_nul (section_file_name i section_name) = false /\
  section_file_name i section_name <> "..".
Proof.
  intros Hp.
  apply (numbered_name_parts (Z.of_nat i)
           ("-" +++ PyStr.replace " " "-" (PyText.lower section_name) +++ ".md")).
  rewrite !is_plain_app. simpl. rewrite andb_true_r.
  apply replace_space_plain. now rewrite lower_plain.
Qed.

Lemma open_write_Ok (fs fs' : node) (p : Path) (data : string) :
  open_write fs p data = Ok fs' ->
  write_file fs p (PyText.universal_newlines data) = Some fs'.
Proof.
  unfold open_write.
  destruct (write_file fs p (PyText.universal_newlines data));
    intros H; inversion H.
  reflexivity.
Qed.

(** A step of the loop over plain section names is one write in the
    directory of the chapter. *)
Lemma write_section_step (chapters_dir : Path) (k : Z)
  (chapter_name section_name : string) (i : nat) (fs fs' : node) :
  PyText.is_plain chapter_name = true ->
  PyText.is_plain section_name = true ->
  write_section chapters_dir
    (PyText.path_parts (chapter_dir_name k chapter_name)) k chapter_name
    (i, section_name) fs = (fs', Ok tt) ->
  write_file fs
    ((chapters_dir ++ [chapter_dir_name k chapter_name])
       ++ [section_file_name i section_name])
    (PyText.universal_newlines (section_text k chapter_name section_name))
  = Some fs'.
Proof.
  intros Hc Hs H. unfold write_section in H.
  apply io_update_Ok_inv in H.
  destruct (section_file_parts i section_name Hs) as [Hparts [Hnul Hdd]].
  rewrite Hparts in H.
  destruct (chapter_dir_parts fs chapters_dir k chapter_name
              [section_file_name i section_name] Hc) as [_ E].
  { constructor; [split; assumption | constructor]. }
  rewrite E in H. cbn [bind] in H. now apply open_write_Ok.
Qed.

(** The steps of a call that returns, for a plain chapter name. *)
Lemma create_chapter_steps (book_root : Path) (chapter_name : string)
  (chapter_number : option Z) (sections : option (list string))
  (fs fs' : node) :
  PyText.is_plain chapter_name = true ->
  create_chapter book_root chapter_name chapter_number sections fs = (fs', Ok tt) ->
  let chapters_dir := book_root ++ ["chapters"] in
  exists fs1 k fs2 fs3 fs4,
    (if path_exists fs chapters_dir then fs1 = fs
     else mkdir fs chapters_dir true false = Ok fs1) /\
    match chapter_number with
    | Some n => k = n
    | None => next_chapter_number fs1 chapters_dir = Ok k
    end /\
    mkdir fs1 (chapters_dir ++ [chapter_dir_name k chapter_name]) false true
      = Ok fs2 /\
    mkdir fs2 (book_root ++ ["images"; "chapter-" +++ PyText.format_02d k])
          true true = Ok fs3 /\
    write_file fs3
      ((chapters_dir ++ [chapter_dir_name k chapter_name]) ++ ["README.md"])
      (PyText.universal_newlines (chapter_readme_text k chapter_name))
      = Some fs4 /\
    io_for (enumerate1 (section_list sections))
      (write_section chapters_dir
         (PyText.path_parts (chapter_dir_name k chapter_name)) k chapter_name)
      fs4 = (fs', Ok tt).
Proof.
  intros Hp H chapters_dir. unfold create_chapter in H.
  fold chapters_dir in H.
  apply io_bind_Ok_inv in H. destruct H as [fs0 [there [H0 H]]].
  unfold io_read in H0. inversion H0; subst fs0 there; clear H0.
  apply io_bind_Ok_inv in H. destruct H as [fs1 [[] [H1 H]]].
  apply io_bind_Ok_inv in H. destruct H as [fs1' [k [Hk H]]].
  apply io_bind_Ok_inv in H. destruct H as [fs2 [[] [H2 H]]].
  apply io_bind_Ok_inv in H. destruct H as [fs3 [[] [H3 H]]].
  apply io_bind_Ok_inv in H. destruct H as [fs4 [[] [H4 H]]].
  assert (fs1' = fs1 /\
          match chapter_number with
          | Some n => k = n
          | None => next_chapter_number fs1 chapters_dir = Ok k
          end) as [-> Hnum].
  { destruct chapter_number as [n|].
    - unfold io_ret in Hk. inversion Hk; auto.
    - unfold io_read in Hk. inversion Hk; subst. auto. }
  exists fs1, k, fs2, fs3, fs4.
  split; [|split; [exact Hnum|split; [|split; [|split]]]].
  - destruct (path_exists fs chapters_dir).
    + unfold io_ret in H1. now inversion H1.
    + now apply io_update_Ok_inv in H1.
  - apply io_update_Ok_inv in H2.
    destruct (chapter_dir_parts fs1 chapters_dir k chapter_name [] Hp
                (Forall_nil _)) as [_ E].
    rewrite !app_nil_r in E. rewrite E in H2. exact H2.
  - now apply io_update_Ok_inv in H3.
  - apply io_update_Ok_inv in H4.
    destruct (chapter_dir_parts fs3 chapters_dir k chapter_name ["README.md"] Hp)
      as [Hparts E].
    { constructor; [split; [reflexivity | discriminate] | constructor]. }
    rewrite E in H4. cbn [bind] in H4. now apply open_write_Ok.
  - destruct sections as [[|s l]|]; exact H.
Qed.

(** ** What create_chapter leaves *)

Lemma format_02d_head_kind (n : Z) :
  exists c r, PyText.format_02d n = String c r /\
              (c = "-"%char \/ PyText.is_digit c = true).
Proof.
  unfold PyText.format_02d.
  destruct (n <? 0)%Z; [eexists; eexists; split; [reflexivity | now left]|].
  destruct (Nat.ltb _ 2);
    [eexists; eexists; split; [reflexivity | now right]|].
  pose proof (decimal_digits (Z.to_N n)) as Hd.
  pose proof (decimal_nonempty (Z.to_N n)) as Hne.
  destruct (PyText.decimal (Z.to_N n)) as [|c r]; [congruence|].
  exists c, r. split; [reflexivity|]. right.
  simpl in Hd. now apply andb_true_iff in Hd.
Qed.

Lemma section_file_name_not_readme (i : nat) (s : string) :
  section_file_name i s <> "README.md".
Proof.
  unfold section_file_name.
  destruct (format_02d_head_kind (Z.of_nat i)) as [c [r [-> [->|Hc]]]];
    simpl; intros H; inversion H; subst; discriminate.
Qed.

Lemma section_file_name_number (i : nat) (s : string) :
  PyText.int_of_str (PyText.before_dash (section_file_name i s))
  = Some (Z.of_nat i).
Proof.
  unfold section_file_name.
  change (PyText.format_02d (Z.of_nat i) +++ "-"
          +++ PyStr.replace " " "-" (PyText.lower s) +++ ".md")
    with (PyText.format_02d (Z.of_nat i)
          +++ String "-" (PyStr.replace " " "-" (PyText.lower s) +++ ".md")).
  rewrite before_dash_app; [apply int_of_str_format_02d; lia|].
  apply (forallb_weaken PyText.is_digit); [|apply format_02d_digits; lia].
  intros c Hc. destruct (digit_facts c Hc) as [_ [-> _]]. reflexivity.
Qed.

Lemma section_file_name_inj (i j : nat) (s t : string) :
  section_file_name i s = section_file_name j t -> i = j.
Proof.
  intros H. pose proof (section_file_name_number i s) as Hi.
  rewrite H, section_file_name_number in Hi. inversion Hi. lia.
Qed.

Lemma mkdir_fresh (fs fs' : node) (p : Path) (parents exist_ok : bool) :
  path_exists fs p = false ->
  mkdir fs p parents exist_ok = Ok fs' -> lookup fs' p = Some (Dir []).
Proof.
  unfold path_exists. revert fs fs'.
  induction p as [|seg p IH]; intros fs fs'; simpl; [discriminate|].
  destruct fs as [d|es]; [discriminate|].
  destruct (child seg es) as [c|] eqn:Ec.
  - intros Hn Hm. apply bind_Ok_inv in Hm. destruct Hm as [c' [Hc' Hm]].
    inversion Hm; subst. simpl. rewrite (child_replace_same _ _ _ _ Ec).
    exact (IH _ _ Hn Hc').
  - intros _ Hm. destruct p as [|x p].
    + inversion Hm; subst. simpl.
      now rewrite (child_app_new _ _ _ _ Ec), String.eqb_refl.
    + destruct parents; [|discriminate].
      apply bind_Ok_inv in Hm. destruct Hm as [c' [Hc' Hm]].
      inversion Hm; subst. simpl.
      rewrite (child_app_new _ _ _ _ Ec), String.eqb_refl.
      exact (IH (Dir []) c' eq_refl Hc').
Qed.

Lemma next_chapter_number_empty (fs : node) (chapters_dir : Path) :
  lookup fs chapters_dir = Some (Dir []) ->
  next_chapter_number fs chapters_dir = Ok 1%Z.
Proof.
  intros H. unfold next_chapter_number, iterdir. rewrite H. reflexivity.
Qed.

Section ChapterFiles.

Variable book_root : Path.
Variable chapter_name : string.
Variable k : Z.

Let chapters_dir := book_root ++ ["chapters"].
Let chapter_dir := chapters_dir ++ [chapter_dir_name k chapter_name].

Hypothesis plain_chapter : PyText.is_plain chapter_name = true.

(** The loop over the sections writes one file for each section and
    keeps the kinds of all paths and the text of the README. *)
Lemma sections_loop (l : list string) (a : nat) (fs fs' : node) :
  Forall (fun s => PyText.is_plain s = true) l ->
  io_for (combine (seq a (List.length l)) l)
    (write_section chapters_dir
       (PyText.path_parts (chapter_dir_name k chapter_name)) k chapter_name)
    fs = (fs', Ok tt) ->
  (forall q, is_dir fs' q = is_dir fs q) /\
  (forall q, (forall i s, q <> chapter_dir ++ [section_file_name i s]) ->
             read_text fs' q = read_text fs q) /\
  (forall j s, nth_error l j = Some s ->
     read_text fs' (chapter_dir ++ [section_file_name (a + j) s])
     = Some (PyText.universal_newlines (section_text k chapter_name s))).
Proof.
  intros Hl. revert a fs. induction Hl as [|s0 l Hs0 Hl IH]; intros a fs H.
  - simpl in H. inversion H; subst.
    split; [reflexivity|]. split; [reflexivity|].
    intros [|j] s; discriminate.
  - simpl in H. apply io_bind_Ok_inv in H. destruct H as [fs1 [[] [H0 H]]].
    apply (write_section_step chapters_dir k chapter_name s0 a fs fs1
             plain_chapter Hs0) in H0.
    fold chapter_dir in H0.
    destruct (IH _ _ H) as [Hdir [Hother Hnth]].
    split; [|split].
    + intros q. rewrite Hdir. exact (write_file_is_dir _ _ _ _ H0 q).
    + intros q Hq. rewrite (Hother q Hq).
      now destruct (write_file_keeps _ _ _ _ H0 q (Hq a s0)) as [E _].
    + intros [|j] s Hj.
      * simpl in Hj. inversion Hj; subst s0. rewrite Nat.add_0_r.
        assert (Hkeep : forall fsa fsb,
                   io_for (combine (seq (S a) (List.length l)) l)
                     (write_section chapters_dir
                        (PyText.path_parts (chapter_dir_name k chapter_name))
                        k chapter_name) fsa = (fsb, Ok tt) ->
                   read_text fsa (chapter_dir ++ [section_file_name a s])
                     = Some (PyText.universal_newlines
                               (section_text k chapter_name s)) ->
                   read_text fsb (chapter_dir ++ [section_file_name a s])
                     = Some (PyText.universal_newlines
                               (section_text k chapter_name s))).
        { intros fsa fsb.
          apply (io_for_invariant
                   (fun f => read_text f (chapter_dir ++ [section_file_name a s])
                             = Some (PyText.universal_newlines
                                       (section_text k chapter_name s)))).
          intros [i t] f1 f2 Hin Hstep Hinv.
          assert (Hi : S a <= i)
            by (apply in_combine_l in Hin; apply in_seq in Hin; lia).
          assert (Ht : PyText.is_plain t = true).
          { apply in_combine_r in Hin. rewrite Forall_forall in Hl. auto. }
          apply (write_section_step chapters_dir k chapter_name t i f1 f2
                   plain_chapter Ht) in Hstep.
          fold chapter_dir in Hstep.
          destruct (write_file_keeps _ _ _ _ Hstep
                      (chapter_dir ++ [section_file_name a s])) as [E _].
          - intros C. apply app_inv_head in C. inversion C as [C'].
            apply section_file_name_inj in C'. lia.
          - now rewrite E. }
        apply (Hkeep _ _ H). exact (read_after_write _ _ _ _ H0).
      * simpl in Hj. replace (a + S j) with (S a + j) by lia.
        now apply Hnth.
Qed.

End ChapterFiles.

(** ** The number that auto-numbering picks is new *)

Lemma before_dash_no_dash (s : string) :
  ~ In "-"%char (list_ascii_of_string (PyText.before_dash s)).
Proof.
  induction s as [|c s IH]; simpl; [tauto|].
  destruct (Ascii.eqb c "-") eqn:E; simpl; [tauto|].
  intros [->|H]; [discriminate E | tauto].
Qed.

Lemma lskip_head (s r : string) (c : ascii) :
  PyText.lskip s = String c r -> In c (list_ascii_of_string s).
Proof.
  induction s as [|x s IH]; simpl; [discriminate|].
  destruct (PyText.is_int_space x).
  - intros H. right. now apply IH.
  - intros H. inversion H. now left.
Qed.

Lemma rskip_head (s r : string) (c : ascii) :
  PyText.rskip s = String c r -> exists r', s = String c r'.
Proof.
  destruct s as [|x s]; simpl; [discriminate|].
  destruct (PyText.rskip s); [destruct (PyText.is_int_space x)|];
    intros H; inversion H; eauto.
Qed.

Lemma int_of_str_nonneg (s : string) (n : Z) :
  ~ In "-"%char (list_ascii_of_string s) ->
  PyText.int_of_str s = Some n -> (0 <= n)%Z.
Proof.
  intros Hs. unfold PyText.int_of_str.
  destruct (PyText.rskip (PyText.lskip s)) as [|c r] eqn:E.
  - simpl. discriminate.
  - destruct (Ascii.eqb c "-") eqn:Ec.
    + apply Ascii.eqb_eq in Ec. subst c.
      apply rskip_head in E. destruct E as [r' E].
      apply lskip_head in E. contradiction.
    + assert (forall body,
                match PyText.digits_of false body with
                | Some ds =>
                    match NilEmpty.uint_of_string ds with
                    | Some d => Some (Z.of_N (N.of_uint d))
                    | None => None
                    end
                | None => None
                end = Some n -> (0 <= n)%Z) as Hpos.
      { intros body. destruct (PyText.digits_of false body); [|discriminate].
        destruct (NilEmpty.uint_of_string s0); [|discriminate].
        intros H; inversion H. lia. }
      destruct (Ascii.eqb c "+"); apply Hpos.
Qed.

Lemma fold_left_max_init (ns : list Z) (n : Z) :
  (n <= fold_left Z.max ns n)%Z.
Proof.
  revert n. induction ns as [|m ns IH]; intros n; simpl; [lia|].
  apply (Z.le_trans _ (Z.max n m)); [lia | apply IH].
Qed.

Lemma fold_left_max_ge (ns : list Z) (n x : Z) :
  In x (n :: ns) -> (x <= fold_left Z.max ns n)%Z.
Proof.
  revert n. induction ns as [|m ns IH]; intros n; simpl.
  - intros [->|[]]. lia.
  - intros [->|[->|H]].
    + apply (Z.le_trans _ (Z.max x m)); [lia | apply fold_left_max_init].
    + apply (Z.le_trans _ (Z.max n x)); [lia | apply fold_left_max_init].
    + apply IH. now right.
Qed.

(** The number computed at lines 31-46 is at least 1 and above the number
    of every directory of [chapters/] whose name starts with a number. *)
Lemma next_chapter_number_above (fs : node) (chapters_dir : Path) (k : Z) :
  next_chapter_number fs chapters_dir = Ok k ->
  (1 <= k)%Z /\
  forall n m, is_dir fs (chapters_dir ++ [n]) = true ->
              PyText.int_of_str (PyText.before_dash n) = Some m -> (m < k)%Z.
Proof.
  unfold next_chapter_number.
  destruct (iterdir fs chapters_dir) as [ds|e] eqn:Ei; [|discriminate].
  cbn [bind].
  set (numbers := fun l : list Path =>
         flat_map (fun chapter =>
                     match PyText.int_of_str (PyText.before_dash (name chapter)) with
                     | Some num => [num]
                     | None => []
                     end) l).
  assert (Hin : forall n m, is_dir fs (chapters_dir ++ [n]) = true ->
                  PyText.int_of_str (PyText.before_dash n) = Some m ->
                  In m (numbers (filter (is_dir fs) ds))).
  { intros n m Hd Hm. apply in_flat_map. exists (chapters_dir ++ [n]). split.
    - apply filter_In. split; [|exact Hd].
      exact (is_dir_listed fs chapters_dir n ds Hd Ei).
    - rewrite name_snoc, Hm. now left. }
  assert (Hnn : forall m, In m (numbers (filter (is_dir fs) ds)) -> (0 <= m)%Z).
  { intros m Hm. apply in_flat_map in Hm. destruct Hm as [c [_ Hm]].
    destruct (PyText.int_of_str (PyText.before_dash (name c))) as [x|] eqn:Ex;
      [|contradiction].
    destruct Hm as [<-|[]].
    exact (int_of_str_nonneg _ _ (before_dash_no_dash _) Ex). }
  destruct (filter (is_dir fs) ds) as [|c0 cs] eqn:Ef.
  - intros H; inversion H; subst. split; [lia|].
    intros n m Hd Hm. destruct (Hin n m Hd Hm).
  - fold (numbers (c0 :: cs)).
    destruct (numbers (c0 :: cs)) as [|x xs] eqn:En.
    + intros H; inversion H; subst. split; [lia|].
      intros n m Hd Hm. destruct (Hin n m Hd Hm).
    + intros H; inversion H; subst. split.
      * pose proof (fold_left_max_ge xs x x (or_introl eq_refl)).
        pose proof (Hnn x (or_introl eq_refl)). lia.
      * intros n m Hd Hm.
        pose proof (fold_left_max_ge xs x m (Hin n m Hd Hm)). lia.
Qed.

(** A chapter directory that [mkdir(exist_ok=True)] accepts under the
    computed number did not exist before. *)
Lemma auto_number_fresh (fs fs' : node) (chapters_dir : Path) (k : Z)
  (chapter_name : string) :
  next_chapter_number fs chapters_dir = Ok k ->
  mkdir fs (chapters_dir ++ [chapter_dir_name k chapter_name]) false true = Ok fs' ->
  path_exists fs (chapters_dir ++ [chapter_dir_name k chapter_name]) = false.
Proof.
  intros Hk Hm. destruct (next_chapter_number_above _ _ _ Hk) as [H1 Habove].
  unfold path_exists.
  destruct (lookup fs (chapters_dir ++ [chapter_dir_name k chapter_name]))
    as [[d|es]|] eqn:E; [| |reflexivity].
  - pose proof (mkdir_under_file fs _ [] d false true E) as R.
    rewrite app_nil_r in R. congruence.
  - assert (Hd : is_dir fs (chapters_dir ++ [chapter_dir_name k chapter_name]) = true)
      by (unfold is_dir; now rewrite E).
    pose proof (Habove _ k Hd (chapter_dir_name_number k chapter_name
                                 ltac:(lia))). lia.
Qed.

(** ** Reading back what create_chapter writes *)

Lemma universal_newlines_line (s r : string) :
  PyText.has_cr s = false ->
  PyText.universal_newlines (s +++ String PyStr.nl r)
  = s +++ String PyStr.nl (PyText.universal_newlines r).
Proof.
  unfold PyText.has_cr. induction s as [|c s IH]; intros H.
  - reflexivity.
  - cbn [list_ascii_of_string existsb] in H.
    apply orb_false_iff in H. destruct H as [Hc Hs].
    rewrite Ascii.eqb_sym in Hc.
    cbn [String.append PyText.universal_newlines]. rewrite Hc.
    now rewrite (IH Hs).
Qed.

Lemma heading_text_title (s rest : string) :
  is_title s -> PyText.has_cr s = false ->
  search_heading
    (PyText.universal_newlines (("# " +++ s +++ PyStr.NL +++ PyStr.NL) +++ rest))
  = Some s.
Proof.
  intros [Hne Hnl] Hcr.
  replace (("# " +++ s +++ PyStr.NL +++ PyStr.NL) +++ rest)
    with (("# " +++ s) +++ String PyStr.nl (PyStr.NL +++ rest)).
  - rewrite universal_newlines_line by exact Hcr.
    apply (search_heading_with_heading [] s
             (String PyStr.nl (PyText.universal_newlines (PyStr.NL +++ rest))));
      [constructor | exact Hne | exact Hnl |].
    right. eexists. reflexivity.
  - simpl. f_equal. f_equal. now rewrite append_assoc.
Qed.

(** ** create_chapter: what a call leaves *)

(** What a call that returns leaves in the tree, for plain names. *)
Lemma create_chapter_files (book_root : Path) (chapter_name : string)
  (chapter_number : option Z) (sections : option (list string))
  (fs fs' : node) :
  PyText.is_plain chapter_name = true ->
  Forall (fun s => PyText.is_plain s = true) (section_list sections) ->
  create_chapter book_root chapter_name chapter_number sections fs = (fs', Ok tt) ->
  exists k,
    number_used fs book_root chapter_number k /\
    is_dir fs' (chapter_path book_root k chapter_name) = true /\
    is_dir fs' (book_root ++ ["images"; "chapter-" +++ PyText.format_02d k]) = true /\
    read_text fs' (chapter_path book_root k chapter_name ++ ["README.md"])
      = Some (PyText.universal_newlines (chapter_readme_text k chapter_name)) /\
    (forall j s, nth_error (section_list sections) j = Some s ->
       read_text fs' (chapter_path book_root k chapter_name
                        ++ [section_file_name (S j) s])
       = Some (PyText.universal_newlines (section_text k chapter_name s))) /\
    (forall q, (forall n, q <> chapter_path book_root k chapter_name ++ [n]) ->
               read_text fs' q = read_text fs q) /\
    (forall q, is_dir fs q = true -> is_dir fs' q = true) /\
    (chapter_number = None ->
     (1 <= k)%Z /\ path_exists fs (chapter_path book_root k chapter_name) = false).
Proof.
  intros Hp Hs H.
  destruct (create_chapter_steps _ _ _ _ _ _ Hp H)
    as [fs1 [k [fs2 [fs3 [fs4 [H1 [Hk [H2 [H3 [H4 H5]]]]]]]]]].
  unfold enumerate1 in H5.
  destruct (sections_loop book_root chapter_name k Hp _ 1 _ _ Hs H5)
    as [Hdir [Hother Hnth]].
  fold (chapter_path book_root k chapter_name) in H2, H4, Hother, Hnth.
  assert (Hfirst : (forall q, read_text fs1 q = read_text fs q) /\
                   (forall q, is_dir fs q = true -> is_dir fs1 q = true)).
  { destruct (path_exists fs (book_root ++ ["chapters"])); [subst; auto|].
    split; intros q; now destruct (mkdir_keeps _ _ _ _ _ H1 q) as [E [D _]]. }
  destruct Hfirst as [Hread1 Hdir1].
  exists k. repeat split.
  - unfold number_used. destruct chapter_number as [n|]; [exact Hk|].
    destruct (path_exists fs (book_root ++ ["chapters"])) eqn:E.
    + now subst fs1.
    + rewrite (next_chapter_number_empty _ _ (mkdir_fresh _ _ _ _ _ E H1)) in Hk.
      now inversion Hk.
  - rewrite Hdir, (write_file_is_dir _ _ _ _ H4).
    destruct (mkdir_keeps _ _ _ _ _ H3 (chapter_path book_root k chapter_name))
      as [_ [D _]].
    apply D. exact (mkdir_is_dir _ _ _ _ _ H2).
  - rewrite Hdir, (write_file_is_dir _ _ _ _ H4).
    exact (mkdir_is_dir _ _ _ _ _ H3).
  - rewrite Hother.
    + exact (read_after_write _ _ _ _ H4).
    + intros i s C. apply app_inv_head in C. inversion C as [C'].
      symmetry in C'. exact (section_file_name_not_readme _ _ C').
  - intros j s Hj. exact (Hnth j s Hj).
  - intros q Hq. rewrite Hother by (intros i s; apply Hq).
    destruct (write_file_keeps _ _ _ _ H4 q (Hq _)) as [-> _].
    destruct (mkdir_keeps _ _ _ _ _ H3 q) as [-> _].
    destruct (mkdir_keeps _ _ _ _ _ H2 q) as [-> _].
    apply Hread1.
  - intros q Hq. rewrite Hdir, (write_file_is_dir _ _ _ _ H4).
    destruct (mkdir_keeps _ _ _ _ _ H3 q) as [_ [D3 _]]. apply D3.
    destruct (mkdir_keeps _ _ _ _ _ H2 q) as [_ [D2 _]]. apply D2.
    now apply Hdir1.
  - subst chapter_number.
    exact (proj1 (next_chapter_number_above _ _ _ Hk)).
  - subst chapter_number. unfold chapter_path.
    destruct (path_exists fs (book_root ++ ["chapters"])) eqn:E.
    + subst fs1. exact (auto_number_fresh _ _ _ _ _ Hk H2).
    + unfold path_exists in *. rewrite lookup_app.
      destruct (lookup fs (book_root ++ ["chapters"])); [discriminate|reflexivity].
Qed.

(** X10.  A call of [create_chapter] that returns, for a chapter name and
    section names without slash, leaves the chapter directory
    [chapters/NN-name], the directory [images/chapter-NN], the README.md
    with the text of lines 66-70 and, for each section in turn, a file
    numbered from 01 with the text of lines 82-84; NN is the number given,
    or the one computed from the directories of [chapters/]. *)
Theorem create_chapter_layout (book_root : Path) (chapter_name : string)
  (chapter_number : option Z) (sections : option (list string))
  (fs fs' : node) :
  PyText.is_plain chapter_name = true ->
  Forall (fun s => PyText.is_plain s = true) (section_list sections) ->
  create_chapter book_root chapter_name chapter_number sections fs = (fs', Ok tt) ->
  exists k,
    number_used fs book_root chapter_number k /\
    is_dir fs' (chapter_path book_root k chapter_name) = true /\
    is_dir fs' (book_root ++ ["images"; "chapter-" +++ PyText.format_02d k]) = true /\
    read_text fs' (chapter_path book_root k chapter_name ++ ["README.md"])
      = Some (PyText.universal_newlines (chapter_readme_text k chapter_name)) /\
    (forall j s, nth_error (section_list sections) j = Some s ->
       read_text fs' (chapter_path book_root k chapter_name
                        ++ [section_file_name (S j) s])
       = Some (PyText.universal_newlines (section_text k chapter_name s))).
Proof.
  intros Hp Hs H.
  destruct (create_chapter_files _ _ _ _ _ _ Hp Hs H)
    as [k [Hk [Hd [Hi [Hr [Hsec _]]]]]].
  exists k. auto.
Qed.

Lemma create_chapter_layout_witness :
  exists k,
    number_used fs_book book_root_ex None k /\
    is_dir (fst chapter_run) (chapter_path book_root_ex k "Hello World") = true /\
    is_dir (fst chapter_run)
      (book_root_ex ++ ["images"; "chapter-" +++ PyText.format_02d k]) = true /\
    read_text (fst chapter_run)
      (chapter_path book_root_ex k "Hello World" ++ ["README.md"])
      = Some (PyText.universal_newlines (chapter_readme_text k "Hello World")) /\
    (forall j s,
       nth_error (section_list (Some ["First Part"; "Second"])) j = Some s ->
       read_text (fst chapter_run)
         (chapter_path book_root_ex k "Hello World" ++ [section_file_name (S j) s])
       = Some (PyText.universal_newlines (section_text k "Hello World" s))).
Proof.
  apply (create_chapter_layout book_root_ex "Hello World" None
           (Some ["First Part"; "Second"]) fs_book (fst chapter_run)).
  - reflexivity.
  - repeat constructor.
  - vm_compute. reflexivity.
Defined.

(** X11.  The files that [create_chapter] writes give their names back:
    after a call that returns, [extract_title] of generate_summary.py
    reads the chapter name from the new README.md and the name of each
    section from its file, when the names are not empty and have no line
    end in them. *)
Theorem created_titles_read_back (book_root : Path) (chapter_name : string)
  (chapter_number : option Z) (sections : option (list string))
  (fs fs' : node) :
  PyText.is_plain chapter_name = true ->
  Forall (fun s => PyText.is_plain s = true) (section_list sections) ->
  create_chapter book_root chapter_name chapter_number sections fs = (fs', Ok tt) ->
  exists k,
    number_used fs book_root chapter_number k /\
    (is_title chapter_name -> PyText.has_cr chapter_name = false ->
     extract_title fs' (chapter_path book_root k chapter_name ++ ["README.md"])
     = chapter_name) /\
    (forall j s, nth_error (section_list sections) j = Some s ->
       is_title s -> PyText.has_cr s = false ->
       extract_title fs' (chapter_path book_root k chapter_name
                            ++ [section_file_name (S j) s]) = s).
Proof.
  intros Hp Hs H.
  destruct (create_chapter_files _ _ _ _ _ _ Hp Hs H)
    as [k [Hk [_ [_ [Hr [Hsec _]]]]]].
  exists k. split; [exact Hk|]. split.
  - intros Ht Hcr. unfold extract_title. rewrite Hr.
    unfold chapter_readme_text. now rewrite (heading_text_title _ _ Ht Hcr).
  - intros j s Hj Ht Hcr. unfold extract_title. rewrite (Hsec j s Hj).
    unfold section_text. now rewrite (heading_text_title _ _ Ht Hcr).
Qed.

Lemma created_titles_read_back_witness :
  exists k,
    number_used fs_book book_root_ex None k /\
    (is_title "Hello World" -> PyText.has_cr "Hello World" = false ->
     extract_title (fst chapter_run)
       (chapter_path book_root_ex k "Hello World" ++ ["README.md"])
     = "Hello World") /\
    (forall j s,
       nth_error (section_list (Some ["First Part"; "Second"])) j = Some s ->
       is_title s -> PyText.has_cr s = false ->
       extract_title (fst chapter_run)
         (chapter_path book_root_ex k "Hello World"
            ++ [section_file_name (S j) s]) = s).
Proof.
  apply (created_titles_read_back book_root_ex "Hello World" None
           (Some ["First Part"; "Second"]) fs_book (fst chapter_run)).
  - reflexivity.
  - repeat constructor.
  - vm_compute. reflexivity.
Defined.

(** *** What create_chapter leaves alone *)

Lemma os_walk_lexical (fs : node) (position segments p : Path) :
  os_walk fs position segments = Ok p -> p = lexical_walk position segments.
Proof.
  revert position. induction segments as [|seg segments IH]; intros position; simpl.
  - intros H. now inversion H.
  - destruct (String.eqb seg "..").
    + destruct (is_dir fs position); [apply IH | discriminate].
    + apply IH.
Qed.

Lemma os_path_lexical (fs : node) (base segments p : Path) :
  os_path fs base segments = Ok p -> p = lexical_walk base segments.
Proof.
  unfold os_path. destruct (existsb PyText.has_nul segments); [discriminate|].
  apply os_walk_lexical.
Qed.

Section Frame.

(** The paths that may be written. *)
Variable W : Path -> Prop.

Lemma frame_refl (fs : node) : frame W fs fs.
Proof. split; auto. Qed.

Lemma frame_trans (a b c : node) : frame W a b -> frame W b c -> frame W a c.
Proof.
  intros [D1 R1] [D2 R2]. split; [auto|].
  intros q. destruct (R2 q) as [E2|Hw]; [|now right].
  destruct (R1 q) as [E1|Hw]; [left; congruence | now right].
Qed.

Lemma mkdir_frame (fs fs' : node) (p : Path) (parents exist_ok : bool) :
  mkdir fs p parents exist_ok = Ok fs' -> frame W fs fs'.
Proof.
  intros H. split; intros q.
  - now destruct (mkdir_keeps _ _ _ _ _ H q) as [_ [D _]].
  - left. now destruct (mkdir_keeps _ _ _ _ _ H q) as [E _].
Qed.

Lemma write_frame (fs fs' : node) (p : Path) (data : string) :
  W p -> write_file fs p data = Some fs' -> frame W fs fs'.
Proof.
  intros Hp H. split; intros q.
  - now rewrite (write_file_is_dir _ _ _ _ H q).
  - destruct (list_eq_dec string_dec q p) as [->|Hne]; [now right|].
    left. now destruct (write_file_keeps _ _ _ _ H q Hne) as [E _].
Qed.

Lemma framed_ret {A : Type} (a : A) : framed W (io_ret a).
Proof. intros fs fs' r H. inversion H. apply frame_refl. Qed.

Lemma framed_read {A : Type} (f : node -> result A) : framed W (io_read f).
Proof. intros fs fs' r H. inversion H. apply frame_refl. Qed.

Lemma framed_update (f : node -> result node) :
  (forall fs fs', f fs = Ok fs' -> frame W fs fs') -> framed W (io_update f).
Proof.
  intros Hf fs fs' r. unfold io_update.
  destruct (f fs) as [fs1|e] eqn:E; intros H; inversion H; subst.
  - now apply Hf.
  - apply frame_refl.
Qed.

Lemma framed_bind {A B : Type} (m : io A) (k : A -> io B) :
  framed W m -> (forall a, framed W (k a)) -> framed W (io_bind m k).
Proof.
  intros Hm Hk fs fs' r. unfold io_bind.
  destruct (m fs) as [fs1 [a|e]] eqn:E.
  - intros H. exact (frame_trans _ _ _ (Hm _ _ _ E) (Hk a _ _ _ H)).
  - intros H. inversion H; subst. exact (Hm _ _ _ E).
Qed.

Lemma framed_for {A : Type} (l : list A) (body : A -> io unit) :
  (forall x, In x l -> framed W (body x)) -> framed W (io_for l body).
Proof.
  induction l as [|x l IH]; intros H; simpl.
  - apply framed_ret.
  - apply framed_bind; [apply H; now left|].
    intros _. apply IH. intros y Hy. apply H. now right.
Qed.

End Frame.

(** The steps of [create_chapter] after the number [k] of the chapter is
    known write the files of the chapter only. *)
Lemma create_chapter_rest_framed (book_root : Path) (chapter_name : string)
  (sections : option (list string)) (k : Z) :
  let chapters_dir := book_root ++ ["chapters"] in
  let chapter_dir := PyText.path_parts (chapter_dir_name k chapter_name) in
  framed (chapter_files book_root chapter_name sections k)
    (_ <~ io_update (fun fs => p <- os_path fs chapters_dir chapter_dir ;;
                               mkdir fs p false true) ;;
     _ <~ io_update (fun fs =>
                       mkdir fs (book_root ++ ["images"; "chapter-"
                                                 +++ PyText.format_02d k])
                             true true) ;;
     _ <~ io_update (fun fs =>
                       p <- os_path fs chapters_dir (chapter_dir ++ ["README.md"]) ;;
                       open_write fs p (chapter_readme_text k chapter_name)) ;;
     match sections with
     | Some ((_ :: _) as sections) =>
         io_for (enumerate1 sections)
                (write_section chapters_dir chapter_dir k chapter_name)
     | _ => io_ret tt
     end).
Proof.
  intros chapters_dir chapter_dir.
  apply framed_bind; [|intros _; apply framed_bind; [|intros _; apply framed_bind]].
  - apply framed_update. intros fs fs' H.
    apply bind_Ok_inv in H. destruct H as [p [_ H]].
    exact (mkdir_frame _ _ _ _ _ _ H).
  - apply framed_update. intros fs fs' H. exact (mkdir_frame _ _ _ _ _ _ H).
  - apply framed_update. intros fs fs' H.
    apply bind_Ok_inv in H. destruct H as [p [Hp H]].
    apply open_write_Ok in H. apply os_path_lexical in Hp.
    refine (write_frame _ _ _ p _ _ H). left. exact Hp.
  - intros _.
    assert (Hloop : forall l, section_list sections = l ->
              framed (chapter_files book_root chapter_name sections k)
                (io_for (enumerate1 l)
                   (write_section chapters_dir chapter_dir k chapter_name))).
    { intros l Hl. apply framed_for. intros [i section_name] Hin.
      unfold write_section. apply framed_update. intros fs fs' H.
      apply bind_Ok_inv in H. destruct H as [p [Hp H]].
      apply open_write_Ok in H. apply os_path_lexical in Hp.
      refine (write_frame _ _ _ p _ _ H).
      right. exists i, section_name. rewrite Hl. auto. }
    destruct sections as [[|s l]|]; try apply framed_ret.
    now apply Hloop.
Qed.

(** X12.  A call of [create_chapter], whether it returns or raises,
    changes the text of no file but the files it opens for writing, the
    README.md and the section files of the chapter at the paths that the
    operating system resolves them to, and every directory stays one.
    For names without a slash these paths lie in the directory of the
    chapter; a name with [..] segments can lead out of it. *)
Theorem create_chapter_keeps_rest (book_root : Path) (chapter_name : string)
  (chapter_number : option Z) (sections : option (list string))
  (fs fs' : node) (r : result unit) :
  create_chapter book_root chapter_name chapter_number sections fs = (fs', r) ->
  (forall q, is_dir fs q = true -> is_dir fs' q = true) /\
  (forall q,
     read_text fs' q = read_text fs q \/
     exists k, number_used fs book_root chapter_number k /\
               chapter_files book_root chapter_name sections k q).
Proof.
  unfold create_chapter. unfold io_bind at 1. unfold io_read at 1.
  unfold io_bind at 1.
  set (chapters_dir := book_root ++ ["chapters"]).
  destruct ((if path_exists fs chapters_dir then io_ret tt
             else io_update (fun fs0 => mkdir fs0 chapters_dir true false)) fs)
    as [fs1 [[]|e]] eqn:E1.
  - (* the directory of the chapters is there *)
    assert (H1 : frame (fun _ => False) fs fs1 /\
                 (if path_exists fs chapters_dir then fs1 = fs
                  else mkdir fs chapters_dir true false = Ok fs1)).
    { destruct (path_exists fs chapters_dir).
      - inversion E1; subst. split; [apply frame_refl | reflexivity].
      - apply io_update_Ok_inv in E1. split; [|exact E1].
        exact (mkdir_frame _ _ _ _ _ _ E1). }
    destruct H1 as [[D1 R1] Hfirst].
    assert (Hread1 : forall q, read_text fs1 q = read_text fs q)
      by (intros q; destruct (R1 q) as [E|[]]; exact E).
    unfold io_bind at 1.
    destruct (match chapter_number with
              | Some n => io_ret n
              | None => io_read (fun fs0 => next_chapter_number fs0 chapters_dir)
              end fs1) as [fs2 [k|e]] eqn:E2.
    + assert (Hk : fs2 = fs1 /\ number_used fs book_root chapter_number k).
      { unfold number_used. fold chapters_dir.
        destruct chapter_number as [n|].
        - inversion E2; subst. auto.
        - unfold io_read in E2.
          assert (E3 : fs2 = fs1 /\ next_chapter_number fs1 chapters_dir = Ok k)
            by (destruct (next_chapter_number fs1 chapters_dir);
                inversion E2; auto).
          destruct E3 as [E3 E4]. split; [exact E3|].
          destruct (path_exists fs chapters_dir) eqn:Ex.
          + now rewrite Hfirst in E4.
          + rewrite (next_chapter_number_empty _ _
                       (mkdir_fresh _ _ _ _ _ Ex Hfirst)) in E4.
            now inversion E4. }
      destruct Hk as [-> Hk]. intros H.
      destruct (create_chapter_rest_framed book_root chapter_name sections k
                  _ _ _ H) as [D2 R2].
      split; [auto|]. intros q.
      destruct (R2 q) as [E|Hw]; [left; now rewrite E | right; eauto].
    + intros H. inversion H; subst.
      assert (fs' = fs1).
      { destruct chapter_number; [discriminate E2|].
        unfold io_read in E2. now inversion E2. }
      subst fs'. split; [auto | intros q; left; apply Hread1].
  - intros H. inversion H; subst.
    assert (fs' = fs).
    { destruct (path_exists fs chapters_dir); [discriminate E1|].
      unfold io_update in E1.
      destruct (mkdir fs chapters_dir true false); inversion E1. reflexivity. }
    subst fs'. split; [auto | intros q; now left].
Qed.

Lemma create_chapter_keeps_rest_witness :
  (forall q, is_dir fs_escape q = true -> is_dir (fst escape_run) q = true) /\
  (forall q,
     read_text (fst escape_run) q = read_text fs_escape q \/
     exists k, number_used fs_escape book_root_ex (Some 2%Z) k /\
               chapter_files book_root_ex "Setup" (Some ["x/../../zz"]) k q).
Proof.
  apply (create_chapter_keeps_rest book_root_ex "Setup" (Some 2%Z)
           (Some ["x/../../zz"]) fs_escape (fst escape_run) (snd escape_run)).
  vm_compute. reflexivity.
Defined.

(** The section name [x/../../zz] leads out of the directory of the
    chapter: the call returns and has replaced [chapters/zz.md], which is
    one of the files that the call opens. *)
Example section_name_escapes_chapter :
  snd escape_run = Ok tt /\
  read_text fs_escape (book_root_ex ++ ["chapters"; "zz.md"]) = Some "# Kept" /\
  read_text (fst escape_run) (book_root_ex ++ ["chapters"; "zz.md"])
    = Some (section_text 2 "Setup" "x/../../zz") /\
  chapter_files book_root_ex "Setup" (Some ["x/../../zz"]) 2
    (book_root_ex ++ ["chapters"; "zz.md"]).
Proof.
  split; [vm_compute; reflexivity|].
  split; [vm_compute; reflexivity|].
  split; [vm_compute; reflexivity|].
  right. exists 1, "x/../../zz". split; [now left | vm_compute; reflexivity].
Qed.

(** With the number 2 given, the call of the examples replaces the
    README.md of the chapter [02-setup] that the book has. *)
Example numbered_call_replaces_readme :
  read_text fs_book (chapter_path book_root_ex 2 "Setup" ++ ["README.md"])
    = Some "# Setup" /\
  read_text (fst chapter_run_numbered)
    (chapter_path book_root_ex 2 "Setup" ++ ["README.md"])
    = Some (chapter_readme_text 2 "Setup").
Proof. split; vm_compute; reflexivity. Qed.

(** X13.  With no number given, a call of [create_chapter] that returns
    makes a chapter directory that did not exist, under a number of at
    least 1, and every file that could be read before holds the same text
    after. *)
Theorem auto_number_overwrites_nothing (book_root : Path) (chapter_name : string)
  (sections : option (list string)) (fs fs' : node) :
  PyText.is_plain chapter_name = true ->
  Forall (fun s => PyText.is_plain s = true) (section_list sections) ->
  create_chapter book_root chapter_name None sections fs = (fs', Ok tt) ->
  exists k,
    number_used fs book_root None k /\ (1 <= k)%Z /\
    path_exists fs (chapter_path book_root k chapter_name) = false /\
    is_dir fs' (chapter_path book_root k chapter_name) = true /\
    forall q text, read_text fs q = Some text -> read_text fs' q = Some text.
Proof.
  intros Hp Hs H.
  destruct (create_chapter_files _ _ _ _ _ _ Hp Hs H)
    as [k [Hk [Hd [_ [_ [_ [Hq [_ Hnew]]]]]]]].
  destruct (Hnew eq_refl) as [H1 Hfresh].
  exists k. repeat split; try assumption.
  intros q text Hr. rewrite Hq; [exact Hr|].
  intros n ->. unfold read_text, path_exists in *. rewrite lookup_app in Hr.
  destruct (lookup fs (chapter_path book_root k chapter_name)); discriminate.
Qed.

Lemma auto_number_overwrites_nothing_witness :
  exists k,
    number_used fs_book book_root_ex None k /\ (1 <= k)%Z /\
    path_exists fs_book (chapter_path book_root_ex k "Hello World") = false /\
    is_dir (fst chapter_run) (chapter_path book_root_ex k "Hello World") = true /\
    forall q text, read_text fs_book q = Some text ->
                   read_text (fst chapter_run) q = Some text.
Proof.
  apply (auto_number_overwrites_nothing book_root_ex "Hello World"
           (Some ["First Part"; "Second"]) fs_book (fst chapter_run)).
  - reflexivity.
  - repeat constructor.
  - vm_compute. reflexivity.
Defined.

(** X14.  When [chapters] in the book root is a regular file,
    [create_chapter] raises an [OSError] for every plain chapter name and
    leaves the tree as it was. *)
Theorem chapters_not_a_directory (book_root : Path) (chapter_name : string)
  (chapter_number : option Z) (sections : option (list string))
  (fs : node) (data : option string) :
  PyText.is_plain chapter_name = true ->
  lookup fs (book_root ++ ["chapters"]) = Some (File data) ->
  create_chapter book_root chapter_name chapter_number sections fs
  = (fs, Raise OSError).
Proof.
  intros Hp Hf. unfold create_chapter.
  unfold io_bind at 1. unfold io_read at 1. unfold path_exists. rewrite Hf.
  unfold io_bind at 1. unfold io_ret at 1.
  destruct chapter_number as [n|].
  - unfold io_bind at 1. unfold io_ret at 1.
    unfold io_bind at 1. unfold io_update at 1.
    destruct (chapter_dir_parts fs (book_root ++ ["chapters"]) n chapter_name
                [] Hp (Forall_nil _)) as [_ E].
    rewrite app_nil_r in E. rewrite E. cbn [bind].
    pose proof (mkdir_under_file fs (book_root ++ ["chapters"])
                  [chapter_dir_name n chapter_name] data false true Hf) as R.
    rewrite app_nil_r. rewrite R. reflexivity.
  - unfold io_bind at 1. unfold io_read at 1.
    unfold next_chapter_number, iterdir. rewrite Hf. reflexivity.
Qed.

Lemma chapters_not_a_directory_witness :
  create_chapter ["home"; "odd"] "Intro" None None fs_chapters_file
  = (fs_chapters_file, Raise OSError).
Proof.
  apply (chapters_not_a_directory ["home"; "odd"] "Intro" None None
           fs_chapters_file (Some "notes")); reflexivity.
Defined.

(** ** create_chapter: a second call *)

Lemma io_bind_Ok_intro {A B : Type} (m : io A) (k : A -> io B)
  (fs fs1 : node) (a : A) (r : node * result B) :
  m fs = (fs1, Ok a) -> k a fs1 = r -> io_bind m k fs = r.
Proof. intros Hm Hk. unfold io_bind. now rewrite Hm. Qed.

Lemma io_update_Ok_intro (f : node -> result node) (fs fs' : node) :
  f fs = Ok fs' -> io_update f fs = (fs', Ok tt).
Proof. intros H. unfold io_update. now rewrite H. Qed.

(** The steps of [create_chapter], put together. *)
Lemma create_chapter_run (book_root : Path) (chapter_name : string)
  (chapter_number : option Z) (sections : option (list string))
  (fs fs1 fs2 fs3 fs4 fs' : node) (k : Z) :
  PyText.is_plain chapter_name = true ->
  (if path_exists fs (book_root ++ ["chapters"]) then fs1 = fs
   else mkdir fs (book_root ++ ["chapters"]) true false = Ok fs1) ->
  match chapter_number with
  | Some n => k = n
  | None => next_chapter_number fs1 (book_root ++ ["chapters"]) = Ok k
  end ->
  mkdir fs1 (chapter_path book_root k chapter_name) false true = Ok fs2 ->
  mkdir fs2 (book_root ++ ["images"; "chapter-" +++ PyText.format_02d k])
        true true = Ok fs3 ->
  write_file fs3 (chapter_path book_root k chapter_name ++ ["README.md"])
    (PyText.universal_newlines (chapter_readme_text k chapter_name)) = Some fs4 ->
  io_for (enumerate1 (section_list sections))
    (write_section (book_root ++ ["chapters"])
       (PyText.path_parts (chapter_dir_name k chapter_name)) k chapter_name)
    fs4 = (fs', Ok tt) ->
  create_chapter book_root chapter_name chapter_number sections fs = (fs', Ok tt).
Proof.
  intros Hp H1 Hk H2 H3 H4 H5. unfold create_chapter, chapter_path in *.
  apply (io_bind_Ok_intro _ _ fs fs (path_exists fs (book_root ++ ["chapters"])));
    [reflexivity|].
  apply (io_bind_Ok_intro _ _ fs fs1 tt).
  { destruct (path_exists fs (book_root ++ ["chapters"])).
    - now subst fs1.
    - now apply io_update_Ok_intro. }
  apply (io_bind_Ok_intro _ _ fs1 fs1 k).
  { destruct chapter_number as [n|]; [now subst k|].
    unfold io_read. now rewrite Hk. }
  apply (io_bind_Ok_intro _ _ fs1 fs2 tt).
  { apply io_update_Ok_intro.
    destruct (chapter_dir_parts fs1 (book_root ++ ["chapters"]) k chapter_name
                [] Hp (Forall_nil _)) as [_ E].
    rewrite !app_nil_r in E. rewrite E. exact H2. }
  apply (io_bind_Ok_intro _ _ fs2 fs3 tt).
  { now apply io_update_Ok_intro. }
  apply (io_bind_Ok_intro _ _ fs3 fs4 tt).
  { apply io_update_Ok_intro.
    destruct (chapter_dir_parts fs3 (book_root ++ ["chapters"]) k chapter_name
                ["README.md"] Hp) as [_ E].
    { constructor; [split; [reflexivity | discriminate] | constructor]. }
    rewrite E. cbn [bind]. unfold open_write. now rewrite H4. }
  destruct sections as [[|s l]|]; exact H5.
Qed.

(** A loop over sections whose files hold their texts changes nothing. *)
Lemma sections_again (book_root : Path) (chapter_name : string) (k : Z)
  (l : list string) (a : nat) (fs : node) :
  PyText.is_plain chapter_name = true ->
  Forall (fun s => PyText.is_plain s = true) l ->
  (forall j s, nth_error l j = Some s ->
     read_text fs (chapter_path book_root k chapter_name
                     ++ [section_file_name (a + j) s])
     = Some (PyText.universal_newlines (section_text k chapter_name s))) ->
  io_for (combine (seq a (List.length l)) l)
    (write_section (book_root ++ ["chapters"])
       (PyText.path_parts (chapter_dir_name k chapter_name)) k chapter_name)
    fs = (fs, Ok tt).
Proof.
  intros Hp Hl. revert a. induction Hl as [|s l Hs Hl IH]; intros a Hr.
  - reflexivity.
  - simpl. apply (io_bind_Ok_intro _ _ fs fs tt).
    + unfold write_section. apply io_update_Ok_intro.
      destruct (section_file_parts a s Hs) as [Hparts [Hnul Hdd]].
      rewrite Hparts.
      destruct (chapter_dir_parts fs (book_root ++ ["chapters"]) k chapter_name
                  [section_file_name a s] Hp) as [_ E].
      { constructor; [split; assumption | constructor]. }
      rewrite E. cbn [bind]. unfold open_write.
      pose proof (Hr 0 s eq_refl) as R. rewrite Nat.add_0_r in R.
      unfold chapter_path in R. now rewrite (write_file_same _ _ _ R).
    + apply IH. intros j t Hj.
      replace (S a + j) with (a + S j) by lia. now apply Hr.
Qed.

(** X15.  With the number given, a second call of [create_chapter] with
    the same arguments, after one that returned, returns and leaves the
    tree as the first call left it. *)
Theorem create_chapter_again (book_root : Path) (chapter_name : string)
  (n : Z) (sections : option (list string)) (fs fs' : node) :
  PyText.is_plain chapter_name = true ->
  Forall (fun s => PyText.is_plain s = true) (section_list sections) ->
  create_chapter book_root chapter_name (Some n) sections fs = (fs', Ok tt) ->
  create_chapter book_root chapter_name (Some n) sections fs' = (fs', Ok tt).
Proof.
  intros Hp Hs H.
  destruct (create_chapter_files _ _ _ _ _ _ Hp Hs H)
    as [k [Hk [Hd [Hi [Hr [Hsec _]]]]]].
  simpl in Hk. subst k.
  apply (create_chapter_run book_root chapter_name (Some n) sections
           fs' fs' fs' fs' fs' fs' n Hp).
  - assert (E : path_exists fs' (book_root ++ ["chapters"]) = true).
    { unfold is_dir, chapter_path in Hd. rewrite lookup_app in Hd.
      unfold path_exists.
      destruct (lookup fs' (book_root ++ ["chapters"])); [reflexivity|discriminate]. }
    now rewrite E.
  - reflexivity.
  - now apply mkdir_existing.
  - now apply mkdir_existing.
  - now apply write_file_same.
  - unfold enumerate1. now apply sections_again.
Qed.

Lemma create_chapter_again_witness :
  create_chapter book_root_ex "Setup" (Some 2%Z) (Some ["Tools"])
    (fst chapter_run_numbered)
  = (fst chapter_run_numbered, Ok tt).
Proof.
  apply (create_chapter_again book_root_ex "Setup" 2 (Some ["Tools"]) fs_book).
  - reflexivity.
  - repeat constructor.
  - vm_compute. reflexivity.
Defined.

(** ** generate_summary.py: main *)

Section MainFacts.

Context {engine : RegexEngine}.

Lemma default_output_path (fs : node) (book_root : Path) :
  is_resolved book_root ->
  os_path fs [] (joinpath book_root "SUMMARY.md") = Ok (book_root ++ ["SUMMARY.md"]).
Proof.
  intros H. change (joinpath book_root "SUMMARY.md")
    with (book_root ++ ["SUMMARY.md"]).
  apply (os_path_plain fs [] (book_root ++ ["SUMMARY.md"])).
  apply Forall_app. split; [exact H|].
  constructor; [split; [reflexivity | discriminate] | constructor].
Qed.

(** X16.  Run with no option, the command line does what a call of
    [generate_summary] with the default patterns does on the book root,
    with SUMMARY.md in the book root for the output file. *)
Theorem main_defaults (fs : node) (cwd : Path) :
  is_resolved cwd ->
  main fs (default_args cwd)
  = generate_summary fs cwd (cwd ++ ["SUMMARY.md"]) None.
Proof.
  intros H. unfold main. cbn [default_args args_book_root args_output args_exclude].
  rewrite (default_output_path fs cwd H). reflexivity.
Qed.

(** X17.  The command line changes no path but the one that the output
    option leads to; when that path cannot be worked out, nothing
    changes. *)
Theorem main_touches_only_output (fs fs' : node) (args : Args)
  (r : result (list string)) :
  main fs args = (fs', r) ->
  forall q,
    os_path fs [] (joinpath (args_book_root args) (args_output args)) <> Ok q ->
    read_text fs' q = read_text fs q /\
    is_dir fs' q = is_dir fs q /\
    path_exists fs' q = path_exists fs q.
Proof.
  unfold main.
  destruct (os_path fs [] (joinpath (args_book_root args) (args_output args)))
    as [p|e].
  - intros H.
    destruct (generate_summary_cases _ _ _ _ _ _ H) as [->|[data Hw]]; [auto|].
    intros q Hq. apply (write_file_keeps _ _ _ _ Hw). congruence.
  - destruct (summary_content fs (args_book_root args) (args_exclude args));
      intros H; inversion H; subst; auto.
Qed.

(** X18.  With the output option left at SUMMARY.md, a second run of the
    command line on the tree that the first run left returns the same
    document and leaves the same tree, whatever patterns are excluded. *)
Theorem main_rerun (fs fs' : node) (book_root : Path) (exclude : list string)
  (content : list string) :
  is_resolved book_root ->
  main fs (mkArgs book_root "SUMMARY.md" exclude) = (fs', Ok content) ->
  main fs' (mkArgs book_root "SUMMARY.md" exclude) = (fs', Ok content).
Proof.
  intros Hr. unfold main.
  cbn [args_book_root args_output args_exclude].
  rewrite !(default_output_path _ book_root Hr).
  intros H. apply generate_summary_run_inv in H. destruct H as [Hc [He Hw]].
  apply generate_summary_run_intro;
    [|exact He | exact (write_file_idem _ _ _ _ Hw)].
  rewrite summary_content_render in *.
  now rewrite (rerun_same_entries _ _ _ _ _ _ (or_introl eq_refl) Hw).
Qed.

End MainFacts.

Lemma main_defaults_witness :
  main (engine := mini_engine) fs_book (default_args book_root_ex)
  = generate_summary (engine := mini_engine) fs_book book_root_ex
      (book_root_ex ++ ["SUMMARY.md"]) None.
Proof.
  apply (main_defaults (engine := mini_engine) fs_book book_root_ex).
  repeat constructor; discriminate.
Defined.

Lemma main_touches_only_output_witness :
  read_text (fst cli_run) (book_root_ex ++ ["README.md"])
    = read_text fs_book (book_root_ex ++ ["README.md"]) /\
  is_dir (fst cli_run) (book_root_ex ++ ["README.md"])
    = is_dir fs_book (book_root_ex ++ ["README.md"]) /\
  path_exists (fst cli_run) (book_root_ex ++ ["README.md"])
    = path_exists fs_book (book_root_ex ++ ["README.md"]).
Proof.
  apply (main_touches_only_output (engine := mini_engine) fs_book (fst cli_run)
           (default_args book_root_ex) (snd cli_run)).
  - vm_compute. reflexivity.
  - vm_compute. discriminate.
Defined.

Lemma main_rerun_witness :
  main (engine := mini_engine) (fst cli_run)
    (mkArgs book_root_ex "SUMMARY.md" default_exclude)
  = (fst cli_run, Ok book_content).
Proof.
  apply (main_rerun (engine := mini_engine) fs_book (fst cli_run) book_root_ex
           default_exclude book_content).
  - repeat constructor; discriminate.
  - vm_compute. reflexivity.
Defined.

(** ** create_chapter: the number of the next chapter *)

(** A path that [mkdir] brings into being lies on the way to its target. *)
Lemma mkdir_new (fs fs' : node) (p : Path) (parents exist_ok : bool) :
  mkdir fs p parents exist_ok = Ok fs' ->
  forall q, lookup fs q = None -> lookup fs' q <> None -> exists r, p = q ++ r.
Proof.
  revert fs fs'. induction p as [|seg p IH]; intros fs fs' Hm q Hq Hq'.
  - simpl in Hm. destruct fs as [d|es]; [discriminate|].
    destruct exist_ok; [|discriminate]. inversion Hm; subst. contradiction.
  - simpl in Hm. destruct fs as [d|es]; [discriminate|].
    destruct q as [|s q]; [discriminate|].
    destruct (child seg es) as [c|] eqn:Ec.
    + apply bind_Ok_inv in Hm. destruct Hm as [c' [Hc' Hm]].
      inversion Hm; subst; clear Hm. simpl in Hq, Hq'.
      destruct (String.eqb_spec seg s) as [->|Hne].
      * rewrite (child_replace_same _ _ _ _ Ec) in Hq'. rewrite Ec in Hq.
        destruct (IH _ _ Hc' q Hq Hq') as [r ->]. now exists r.
      * rewrite child_replace_other in Hq' by congruence. contradiction.
    + assert (Hnew : forall c',
                 (forall q', lookup (Dir []) q' = None -> lookup c' q' <> None ->
                             exists r, p = q' ++ r) ->
                 lookup (Dir (es ++ [(seg, c')])) (s :: q) <> None ->
                 exists r, seg :: p = (s :: q) ++ r).
      { intros c' Hc' Hl. simpl in Hl, Hq.
        rewrite (child_app_new _ _ _ _ Ec) in Hl.
        destruct (String.eqb_spec seg s) as [->|Hne]; [|contradiction].
        destruct q as [|y q]; [now exists p|].
        destruct (Hc' (y :: q) eq_refl Hl) as [r ->]. now exists r. }
      destruct p as [|x p].
      * inversion Hm; subst. apply (Hnew (Dir [])); [|exact Hq'].
        intros q' Hn Hs. contradiction.
      * destruct parents; [|discriminate].
        apply bind_Ok_inv in Hm. destruct Hm as [c' [Hc' Hm]].
        inversion Hm; subst; clear Hm.
        apply (Hnew c'); [|exact Hq']. exact (IH _ _ Hc').
Qed.

Lemma mkdir_new_dir (fs fs' : node) (p : Path) (parents exist_ok : bool) :
  mkdir fs p parents exist_ok = Ok fs' ->
  forall q, is_dir fs' q = true ->
            is_dir fs q = true \/ exists r, p = q ++ r.
Proof.
  intros Hm q Hd. unfold is_dir in *.
  destruct (mkdir_elsewhere _ _ _ _ _ Hm q) as [E|[es' [E [Hn|[es Hs]]]]].
  - left. now rewrite <- E.
  - right. apply (mkdir_new _ _ _ _ _ Hm q Hn). now rewrite E.
  - left. now rewrite Hs.
Qed.

(** The number computed at lines 31-46 is 1, or one more than the number
    of a directory of [chapters/]. *)
Lemma next_chapter_number_attained (fs : node) (chapters_dir : Path) (k : Z) :
  next_chapter_number fs chapters_dir = Ok k ->
  k = 1%Z \/
  exists n, is_dir fs (chapters_dir ++ [n]) = true /\
            PyText.int_of_str (PyText.before_dash n) = Some (k - 1)%Z.
Proof.
  unfold next_chapter_number.
  destruct (iterdir fs chapters_dir) as [ds|e] eqn:Ei; [|discriminate].
  cbn [bind].
  set (numbers := fun l : list Path =>
         flat_map (fun chapter =>
                     match PyText.int_of_str (PyText.before_dash (name chapter)) with
                     | Some num => [num]
                     | None => []
                     end) l).
  assert (Hin : forall m, In m (numbers (filter (is_dir fs) ds)) ->
                  exists n, is_dir fs (chapters_dir ++ [n]) = true /\
                            PyText.int_of_str (PyText.before_dash n) = Some m).
  { intros m Hm. apply in_flat_map in Hm. destruct Hm as [c [Hc Hm]].
    apply filter_In in Hc. destruct Hc as [Hc Hd].
    destruct (iterdir_shape _ _ _ Ei c Hc) as [n ->].
    rewrite name_snoc in Hm. exists n. split; [exact Hd|].
    destruct (PyText.int_of_str (PyText.before_dash n)); [|contradiction].
    destruct Hm as [->|[]]. reflexivity. }
  destruct (filter (is_dir fs) ds) as [|c0 cs] eqn:Ef.
  - intros H; inversion H. now left.
  - fold (numbers (c0 :: cs)).
    destruct (numbers (c0 :: cs)) as [|x xs] eqn:En.
    + intros H; inversion H. now left.
    + intros H; inversion H; subst. right.
      replace (fold_left Z.max xs x + 1 - 1)%Z with (fold_left Z.max xs x) by lia.
      apply Hin.
      clear. revert x. induction xs as [|y xs IH]; intros x; simpl.
      * now left.
      * destruct (IH (Z.max x y)) as [E|Hr]; [|now right; right].
        rewrite <- E. destruct (Z.max_spec x y) as [[_ ->]|[_ ->]]; auto.
Qed.

Lemma next_chapter_number_total (fs : node) (chapters_dir : Path) :
  is_dir fs chapters_dir = true ->
  exists k, next_chapter_number fs chapters_dir = Ok k.
Proof.
  unfold next_chapter_number, iterdir, is_dir.
  destruct (lookup fs chapters_dir) as [[d|es]|]; try discriminate.
  intros _. cbn [bind].
  destruct (filter _ _); [eauto|].
  destruct (flat_map _ _); eauto.
Qed.

(** X19.  After a call of [create_chapter] with no number given that
    returns under the number [k], the number that lines 31-46 compute for
    a following call is [k + 1]. *)
Theorem auto_numbers_follow (book_root : Path) (chapter_name : string)
  (sections : option (list string)) (fs fs' : node) :
  PyText.is_plain chapter_name = true ->
  Forall (fun s => PyText.is_plain s = true) (section_list sections) ->
  create_chapter book_root chapter_name None sections fs = (fs', Ok tt) ->
  exists k,
    number_used fs book_root None k /\
    number_used fs' book_root None (k + 1)%Z.
Proof.
  intros Hp Hs H.
  destruct (create_chapter_files _ _ _ _ _ _ Hp Hs H)
    as [k0 [Hk0 [Hd0 _]]].
  destruct (create_chapter_steps _ _ _ _ _ _ Hp H)
    as [fs1 [k [fs2 [fs3 [fs4 [H1 [Hk [H2 [H3 [H4 H5]]]]]]]]]].
  unfold enumerate1 in H5.
  destruct (sections_loop book_root chapter_name k Hp _ 1 _ _ Hs H5)
    as [Hdir _].
  assert (Ek : k0 = k).
  { unfold number_used in Hk0.
    destruct (path_exists fs (book_root ++ ["chapters"])) eqn:E.
    - subst fs1. congruence.
    - rewrite (next_chapter_number_empty _ _ (mkdir_fresh _ _ _ _ _ E H1)) in Hk.
      congruence. }
  subst k0. exists k. split; [exact Hk0|].
  fold (chapter_path book_root k chapter_name) in H2.
  assert (Hchap : is_dir fs' (book_root ++ ["chapters"]) = true).
  { unfold is_dir, chapter_path in *. rewrite lookup_app in Hd0.
    destruct (lookup fs' (book_root ++ ["chapters"])) as [[d|es]|];
      try discriminate; reflexivity. }
  assert (Hex : path_exists fs' (book_root ++ ["chapters"]) = true).
  { unfold is_dir, path_exists in *.
    destruct (lookup fs' (book_root ++ ["chapters"])); [reflexivity|discriminate]. }
  unfold number_used. rewrite Hex.
  destruct (next_chapter_number_total _ _ Hchap) as [k2 Hk2]. rewrite Hk2.
  f_equal.
  destruct (next_chapter_number_above _ _ _ Hk) as [H1k Habove].
  destruct (next_chapter_number_above _ _ _ Hk2) as [_ Habove2].
  pose proof (Habove2 _ k Hd0 (chapter_dir_name_number k chapter_name
                                 ltac:(lia))) as Hlt.
  destruct (next_chapter_number_attained _ _ _ Hk2) as [->|[n [Hn Hnum]]]; [lia|].
  rewrite Hdir, (write_file_is_dir _ _ _ _ H4) in Hn.
  destruct (mkdir_new_dir _ _ _ _ _ H3 _ Hn) as [Hn2|[r Hr]].
  - destruct (mkdir_new_dir _ _ _ _ _ H2 _ Hn2) as [Hn1|[r Hr]].
    + pose proof (Habove n _ Hn1 Hnum). lia.
    + unfold chapter_path in Hr. rewrite <- !app_assoc in Hr.
      apply app_inv_head in Hr. apply app_inv_head in Hr.
      simpl in Hr. inversion Hr; subst.
      rewrite chapter_dir_name_number in Hnum by lia. inversion Hnum. lia.
  - rewrite <- !app_assoc in Hr. apply app_inv_head in Hr.
    simpl in Hr. inversion Hr.
Qed.

Lemma auto_numbers_follow_witness :
  exists k,
    number_used fs_book book_root_ex None k /\
    number_used (fst chapter_run) book_root_ex None (k + 1)%Z.
Proof.
  apply (auto_numbers_follow book_root_ex "Hello World"
           (Some ["First Part"; "Second"]) fs_book (fst chapter_run)).
  - reflexivity.
  - repeat constructor.
  - vm_compute. reflexivity.
Defined.

(** ** The new chapter in the summary *)

Lemma mkdir_off_path (fs fs' : node) (p : Path) (parents exist_ok : bool) :
  mkdir fs p parents exist_ok = Ok fs' ->
  forall q, (forall r, p <> q ++ r) -> lookup fs' q = lookup fs q.
Proof.
  revert fs fs'. induction p as [|seg p IH]; intros fs fs' Hm q Hq.
  - simpl in Hm. destruct fs as [d|es]; [discriminate|].
    destruct exist_ok; [|discriminate]. now inversion Hm.
  - simpl in Hm. destruct fs as [d|es]; [discriminate|].
    destruct q as [|s q]; [exfalso; exact (Hq (seg :: p) eq_refl)|].
    assert (Hq' : seg = s -> forall r, p <> q ++ r).
    { intros -> r ->. exact (Hq r eq_refl). }
    destruct (child seg es) as [c|] eqn:Ec.
    + apply bind_Ok_inv in Hm. destruct Hm as [c' [Hc' Hm]].
      inversion Hm; subst; clear Hm. simpl.
      destruct (String.eqb_spec seg s) as [->|Hne].
      * rewrite (child_replace_same _ _ _ _ Ec), Ec.
        exact (IH _ _ Hc' q (Hq' eq_refl)).
      * rewrite child_replace_other by congruence. reflexivity.
    + assert (Hnew : forall c',
                 (seg = s -> lookup c' q = None) ->
                 lookup (Dir (es ++ [(seg, c')])) (s :: q) = lookup (Dir es) (s :: q)).
      { intros c' Hc'. simpl. rewrite (child_app_new _ _ _ _ Ec).
        destruct (String.eqb_spec seg s) as [->|Hne]; [|reflexivity].
        rewrite Ec. now apply Hc'. }
      destruct p as [|x p].
      * inversion Hm; subst. apply Hnew. intros E.
        destruct q as [|y q]; [exfalso; exact (Hq' E [] eq_refl) | reflexivity].
      * destruct parents; [|discriminate].
        apply bind_Ok_inv in Hm. destruct Hm as [c' [Hc' Hm]].
        inversion Hm; subst; clear Hm. apply Hnew. intros E.
        rewrite (IH _ _ Hc' q (Hq' E)).
        destruct q as [|y q]; [exfalso; exact (Hq' E (x :: p) eq_refl) | reflexivity].
Qed.

Lemma write_file_new_entry (fs fs' : node) (dir : Path) (n data : string)
  (es : list (string * node)) :
  lookup fs dir = Some (Dir es) -> child n es = None ->
  write_file fs (dir ++ [n]) data = Some fs' ->
  lookup fs' dir = Some (Dir (es ++ [(n, File (Some data))])).
Proof.
  revert fs fs'. induction dir as [|s dir IH]; intros fs fs'; simpl.
  - intros H; inversion H; subst. intros Ec. rewrite Ec.
    intros Hw; now inversion Hw.
  - destruct fs as [d|es0]; [discriminate|].
    destruct (child s es0) as [c|] eqn:Ecs; [|discriminate].
    intros Hl Ec.
    destruct (write_file c (dir ++ [n]) data) as [c'|] eqn:Ew; [|discriminate].
    intros Hw; inversion Hw; subst. simpl.
    rewrite (child_replace_same _ _ _ _ Ecs).
    exact (IH _ _ Hl Ec Ew).
Qed.

Lemma ends_with_app (suffix s : string) : PyStr.ends_with suffix (s +++ suffix) = true.
Proof.
  induction s as [|c s IH].
  - cbn [String.append].
    destruct suffix; cbn [PyStr.ends_with]; now rewrite String.eqb_refl.
  - cbn [String.append PyStr.ends_with]. rewrite IH. apply orb_true_r.
Qed.

Lemma section_file_name_md (i : nat) (s : string) :
  PyStr.ends_with ".md" (section_file_name i s) = true.
Proof.
  unfold section_file_name.
  replace (PyText.format_02d (Z.of_nat i) +++ "-"
           +++ PyStr.replace " " "-" (PyText.lower s) +++ ".md")
    with ((PyText.format_02d (Z.of_nat i) +++ "-"
           +++ PyStr.replace " " "-" (PyText.lower s)) +++ ".md")
    by (now rewrite !append_assoc).
  apply ends_with_app.
Qed.

Lemma filter_all {A : Type} (f : A -> bool) (l : list A) :
  (forall x, In x l -> f x = true) -> filter f l = l.
Proof.
  induction l as [|x l IH]; intros H; simpl; [reflexivity|].
  rewrite (H x (or_introl eq_refl)), IH; [reflexivity|].
  intros; apply H; now right.
Qed.

Lemma filterM_all_true {A : Type} (cond : A -> result bool) (l : list A) :
  (forall x, In x l -> cond x = Ok true) -> filterM cond l = Ok l.
Proof.
  induction l as [|x l IH]; intros H; simpl; [reflexivity|].
  rewrite (H x (or_introl eq_refl)), IH; [reflexivity|].
  intros; apply H; now right.
Qed.

Lemma mapM_map_pure {A B C : Type} (f : B -> result C) (h : A -> B)
  (g : A -> C) (l : list A) :
  (forall x, In x l -> f (h x) = Ok (g x)) ->
  mapM f (map h l) = Ok (map g l).
Proof.
  induction l as [|x l IH]; intros H; simpl; [reflexivity|].
  rewrite (H x (or_introl eq_refl)). cbn [bind].
  rewrite IH; [reflexivity|]. intros; apply H; now right.
Qed.

Lemma path_ltb_asym (p q : Path) :
  path_ltb p q = true -> path_ltb q p = false.
Proof.
  intros H. destruct (path_ltb q p) eqn:E; [|reflexivity].
  pose proof (path_ltb_trans _ _ _ H E) as C.
  now rewrite path_ltb_irrefl in C.
Qed.

(** [sorted] leaves a list in increasing order as it is. *)
Lemma sorted_increasing (l : list Path) :
  StronglySorted (fun p q => path_ltb p q = true) l -> sorted l = l.
Proof.
  induction 1 as [|x l Hl IH Hx]; [reflexivity|].
  simpl. rewrite IH. destruct l as [|y l]; [reflexivity|].
  simpl. inversion Hx as [|? ? Hy _]; subst.
  now rewrite (path_ltb_asym _ _ Hy).
Qed.

Lemma section_files_order (dir : Path) (i j : nat) (s t : string) :
  i < j -> j < 100 ->
  path_ltb (dir ++ [section_file_name i s]) (dir ++ [section_file_name j t]) = true.
Proof.
  intros Hij Hj. rewrite path_ltb_siblings.
  unfold String.ltb, section_file_name.
  destruct (format_02d_order i j Hij Hj) as [L1 [L2 C]].
  rewrite (compare_app_Lt _ _ _ _ (eq_trans L1 (eq_sym L2)) C). reflexivity.
Qed.

Lemma in_numbered {A : Type} (l : list A) (a i : nat) (x : A) :
  In (i, x) (combine (seq a (List.length l)) l) ->
  exists j, i = a + j /\ nth_error l j = Some x.
Proof.
  revert a. induction l as [|y l IH]; intros a; simpl; [contradiction|].
  intros [E|H].
  - inversion E; subst. exists 0. split; [lia | reflexivity].
  - destruct (IH _ H) as [j [-> Hj]]. exists (S j). split; [lia | exact Hj].
Qed.

Lemma section_files_sorted (dir : Path) (l : list string) (a : nat) :
  a + List.length l <= 100 ->
  sorted (map (fun x => dir ++ [section_file_name (fst x) (snd x)])
              (combine (seq a (List.length l)) l))
  = map (fun x => dir ++ [section_file_name (fst x) (snd x)])
        (combine (seq a (List.length l)) l).
Proof.
  intros Hlen. apply sorted_increasing. revert a Hlen.
  induction l as [|s l IH]; intros a Hlen; simpl; [constructor|].
  simpl in Hlen. constructor; [apply IH; lia|].
  apply Forall_forall. intros q Hq. apply in_map_iff in Hq.
  destruct Hq as [[i t] [<- Hin]].
  destruct (in_numbered _ _ _ _ Hin) as [j [-> Hj]].
  assert (j < List.length l) by (apply nth_error_Some; congruence).
  apply section_files_order; simpl; lia.
Qed.

(** The entries of the directory of the chapter after the loop over the
    sections. *)
Lemma sections_loop_entries (book_root : Path) (chapter_name : string) (k : Z)
  (l : list string) :
  PyText.is_plain chapter_name = true ->
  Forall (fun s => PyText.is_plain s = true) l ->
  forall (a : nat) (fs fs' : node) (es : list (string * node)),
    lookup fs (chapter_path book_root k chapter_name) = Some (Dir es) ->
    (forall i s, a <= i -> child (section_file_name i s) es = None) ->
    io_for (combine (seq a (List.length l)) l)
      (write_section (book_root ++ ["chapters"])
         (PyText.path_parts (chapter_dir_name k chapter_name)) k chapter_name)
      fs = (fs', Ok tt) ->
    lookup fs' (chapter_path book_root k chapter_name)
    = Some (Dir (es ++ map (section_entry k chapter_name)
                           (combine (seq a (List.length l)) l))).
Proof.
  intros Hp Hl. induction Hl as [|s0 l Hs0 Hl IH]; intros a fs fs' es Hes Hnew H.
  - simpl in H. inversion H; subst. simpl. now rewrite app_nil_r.
  - simpl in H. apply io_bind_Ok_inv in H. destruct H as [fs1 [[] [H0 H]]].
    apply (write_section_step (book_root ++ ["chapters"]) k chapter_name s0 a
             fs fs1 Hp Hs0) in H0.
    fold (chapter_path book_root k chapter_name) in H0.
    pose proof (write_file_new_entry _ _ _ _ _ _ Hes (Hnew a s0 (le_n a)) H0)
      as Hes1.
    rewrite (IH (S a) fs1 fs' _ Hes1); [| |exact H].
    + simpl. rewrite <- app_assoc. reflexivity.
    + intros i s Hi. rewrite (child_app_new _ _ _ _ (Hnew a s0 (le_n a))).
      destruct (String.eqb_spec (section_file_name a s0) (section_file_name i s))
        as [E|_].
      * apply section_file_name_inj in E. lia.
      * apply Hnew. lia.
Qed.

Section NewChapterListed.

Context {engine : RegexEngine}.

(** X20.  The two scripts fit together.  After a call of [create_chapter]
    with no number given that returns under the number [k], for at most 99
    sections, the loop of [generate_summary] gives for the new chapter
    directory one line that links to its README.md under the chapter name
    and then one indented line for each section, in the order of the
    sections and under their names, when no section file is excluded. *)
Theorem new_chapter_listed (book_root : Path) (chapter_name : string)
  (sections : option (list string)) (exclude : list string)
  (fs fs' : node) (k : Z) :
  PyText.is_plain chapter_name = true ->
  is_title chapter_name -> PyText.has_cr chapter_name = false ->
  Forall (fun s => PyText.is_plain s = true /\ is_title s /\
                   PyText.has_cr s = false) (section_list sections) ->
  List.length (section_list sections) <= 99 ->
  create_chapter book_root chapter_name None sections fs = (fs', Ok tt) ->
  number_used fs book_root None k ->
  (forall j s, nth_error (section_list sections) j = Some s ->
     is_excluded (chapter_path book_root k chapter_name
                    ++ [section_file_name (S j) s]) exclude = Ok false) ->
  chapter_lines fs' book_root exclude (chapter_path book_root k chapter_name)
  = Ok (new_chapter_line k chapter_name
          :: map (new_section_line k chapter_name)
                 (enumerate1 (section_list sections))).
Proof.
  intros Hp Ht Hcr Hsec Hlen H Hused Hex.
  assert (Hs : Forall (fun s => PyText.is_plain s = true) (section_list sections)).
  { eapply Forall_impl; [|exact Hsec]. intros s [E _]. exact E. }
  destruct (create_chapter_files _ _ _ _ _ _ Hp Hs H)
    as [k0 [Hk0 [_ [_ [Hreadme [Hfiles _]]]]]].
  assert (k0 = k).
  { unfold number_used in *.
    destruct (path_exists fs (book_root ++ ["chapters"])); congruence. }
  subst k0.
  destruct (create_chapter_steps _ _ _ _ _ _ Hp H)
    as [fs1 [k1 [fs2 [fs3 [fs4 [H1 [Hk [H2 [H3 [H4 H5]]]]]]]]]].
  assert (k1 = k).
  { unfold number_used in Hk0.
    destruct (path_exists fs (book_root ++ ["chapters"])) eqn:E.
    - subst fs1. congruence.
    - rewrite (next_chapter_number_empty _ _ (mkdir_fresh _ _ _ _ _ E H1)) in Hk.
      congruence. }
  subst k1. fold (chapter_path book_root k chapter_name) in H2, H4.
  (* the entries of the new directory *)
  assert (E2 : lookup fs2 (chapter_path book_root k chapter_name) = Some (Dir [])).
  { apply (mkdir_fresh _ _ _ _ _ (auto_number_fresh _ _ _ _ _ Hk H2) H2). }
  assert (E3 : lookup fs3 (chapter_path book_root k chapter_name) = Some (Dir [])).
  { rewrite (mkdir_off_path _ _ _ _ _ H3); [exact E2|].
    intros r Hr. unfold chapter_path in Hr. rewrite <- !app_assoc in Hr.
    apply app_inv_head in Hr. simpl in Hr. inversion Hr. }
  pose proof (write_file_new_entry _ _ _ _ _ _ E3 eq_refl H4) as E4.
  simpl app in E4. unfold enumerate1 in H5.
  assert (E5 : lookup fs' (chapter_path book_root k chapter_name)
               = Some (Dir ([("README.md",
                              File (Some (PyText.universal_newlines
                                            (chapter_readme_text k chapter_name))))]
                            ++ map (section_entry k chapter_name)
                                   (combine (seq 1 (List.length (section_list sections)))
                                            (section_list sections))))).
  { apply (sections_loop_entries book_root chapter_name k _ Hp Hs 1 fs4 fs' _ E4);
      [|exact H5].
    intros i s _. cbn [child].
    destruct (String.eqb_spec "README.md" (section_file_name i s)) as [E|_];
      [|reflexivity].
    symmetry in E. destruct (section_file_name_not_readme _ _ E). }
  set (cdir := chapter_path book_root k chapter_name) in *.
  set (numbered := combine (seq 1 (List.length (section_list sections)))
                           (section_list sections)) in *.
  set (file_of := fun x : nat * string =>
                    cdir ++ [section_file_name (fst x) (snd x)]).
  (* what the loop of generate_summary sees *)
  assert (Hglob : glob_md fs' cdir = (cdir ++ ["README.md"]) :: map file_of numbered).
  { rewrite (glob_md_names _ _ _ E5). cbn [app map fst filter].
    rewrite name_snoc. change (PyStr.ends_with ".md" "README.md") with true.
    cbv iota. f_equal. rewrite !map_map. apply filter_all.
    intros q Hq. apply in_map_iff in Hq. destruct Hq as [x [<- _]].
    unfold file_of. rewrite name_snoc. apply section_file_name_md. }
  assert (Hnum : forall x, In x numbered ->
                   exists j, fst x = S j /\
                             nth_error (section_list sections) j = Some (snd x)).
  { intros [i s] Hin. destruct (in_numbered _ _ _ _ Hin) as [j [-> Hj]].
    exists j. auto. }
  assert (Hkeep : filterM (fun f => if String.eqb (name f) "README.md" then Ok false
                                    else x <- is_excluded f exclude ;; Ok (negb x))
                          (glob_md fs' cdir) = Ok (map file_of numbered)).
  { rewrite Hglob. cbn [filterM]. rewrite name_snoc.
    change (String.eqb "README.md" "README.md") with true. cbv iota. cbn [bind].
    rewrite filterM_all_true; [reflexivity|].
    intros q Hq. apply in_map_iff in Hq. destruct Hq as [x [<- Hx]].
    destruct (Hnum x Hx) as [j [Ej Hj]]. unfold file_of. rewrite name_snoc.
    destruct (String.eqb_spec (section_file_name (fst x) (snd x)) "README.md")
      as [E|_]; [destruct (section_file_name_not_readme _ _ E)|].
    rewrite Ej. now rewrite (Hex j _ Hj). }
  assert (Hline : forall x, In x numbered ->
                    section_line fs' book_root (file_of x)
                    = Ok (new_section_line k chapter_name x)).
  { intros x Hx. destruct (Hnum x Hx) as [j [Ej Hj]].
    rewrite Forall_forall in Hsec.
    destruct (Hsec _ (nth_error_In _ _ Hj)) as [_ [Hts Hcs]].
    unfold section_line, file_of, extract_title. rewrite Ej.
    rewrite (Hfiles j _ Hj). unfold section_text.
    rewrite (heading_text_title _ _ Hts Hcs).
    unfold cdir, chapter_path. rewrite <- !app_assoc. rewrite relative_to_app.
    unfold new_section_line. rewrite Ej. reflexivity. }
  unfold chapter_lines.
  assert (Hpe : path_exists fs' (cdir ++ ["README.md"]) = true).
  { unfold path_exists. unfold read_text in Hreadme.
    destruct (lookup fs' (cdir ++ ["README.md"])); [reflexivity|discriminate]. }
  rewrite Hpe, Hkeep.
  assert (Hrel : relative_to (cdir ++ ["README.md"]) book_root
                 = Ok ["chapters"; chapter_dir_name k chapter_name; "README.md"]).
  { unfold cdir, chapter_path. rewrite <- !app_assoc. apply relative_to_app. }
  rewrite Hrel. cbn [bind].
  unfold file_of, numbered. rewrite section_files_sorted by lia.
  fold numbered. fold file_of.
  match goal with
  | |- context [mapM ?f ?l] =>
      assert (Hm : mapM f l = Ok (map (new_section_line k chapter_name) numbered))
        by (apply (mapM_map_pure (section_line fs' book_root) file_of); exact Hline);
      rewrite Hm
  end.
  cbn [bind]. unfold extract_title. rewrite Hreadme. unfold chapter_readme_text.
  rewrite (heading_text_title _ _ Ht Hcr). reflexivity.
Qed.

End NewChapterListed.

Lemma new_chapter_listed_witness :
  chapter_lines (engine := mini_engine) (fst chapter_run) book_root_ex
    default_exclude (chapter_path book_root_ex 11 "Hello World")
  = Ok (new_chapter_line 11 "Hello World"
          :: map (new_section_line 11 "Hello World")
                 (enumerate1 (section_list (Some ["First Part"; "Second"])))).
Proof.
  apply (new_chapter_listed (engine := mini_engine) book_root_ex "Hello World"
           (Some ["First Part"; "Second"]) default_exclude fs_book
           (fst chapter_run) 11).
  - reflexivity.
  - split; [discriminate | reflexivity].
  - reflexivity.
  - repeat constructor; discriminate.
  - simpl. lia.
  - vm_compute. reflexivity.
  - vm_compute. reflexivity.
  - intros j s Hj.
    destruct j as [|[|j]]; simpl in Hj;
      [inversion Hj; subst; vm_compute; reflexivity ..|].
    destruct j; discriminate.
Defined.

(** The lines of the new chapter of the examples. *)
Example new_chapter_lines_ex :
  new_chapter_line 11 "Hello World"
    :: map (new_section_line 11 "Hello World")
           (enumerate1 ["First Part"; "Second"])
  = ["* [Hello World](chapters/11-hello-world/README.md)" +++ PyStr.NL;
     "  * [First Part](chapters/11-hello-world/01-first-part.md)" +++ PyStr.NL;
     "  * [Second](chapters/11-hello-world/02-second.md)" +++ PyStr.NL].
Proof. vm_compute. reflexivity. Qed.

(* ================================================================== *)
(** * The order in which directories are listed *)

Lemma child_None_names (es : list (string * node)) (n : string) :
  child n es = None <-> ~ In n (map fst es).
Proof.
  induction es as [|[n' c] es IH]; simpl; [tauto|].
  destruct (String.eqb_spec n' n) as [->|Hne].
  - split; [discriminate | intros H; exfalso; apply H; now left].
  - rewrite IH. tauto.
Qed.

Lemma same_data_eq (d d' : option string) : same_data d d' = true -> d = d'.
Proof.
  destruct d as [x|], d' as [y|]; simpl; try discriminate; [|reflexivity].
  intros H. apply String.eqb_eq in H. now subst.
Qed.

(** Directories with the same entries in another order. *)
Lemma reordered_dir (es es' : list (string * node)) :
  reordered (Dir es) (Dir es') = true ->
  Permutation (map fst es) (map fst es') /\
  forall n,
    match child n es, child n es' with
    | Some c, Some c' => reordered c c' = true
    | None, None => True
    | _, _ => False
    end.
Proof.
  cbn [reordered]. intros H.
  apply andb_true_iff in H. destruct H as [H Hall].
  apply andb_true_iff in H. destruct H as [H Hlen].
  apply andb_true_iff in H. destruct H as [Hnd Hnd'].
  apply nodupb_NoDup in Hnd. apply nodupb_NoDup in Hnd'.
  apply Nat.eqb_eq in Hlen. rewrite forallb_forall in Hall.
  assert (Hperm : Permutation (map fst es) (map fst es')).
  { apply NoDup_Permutation_bis; [exact Hnd | rewrite !length_map; lia|].
    intros n Hn. apply in_map_iff in Hn. destruct Hn as [[n' c] [<- Hin]].
    specialize (Hall _ Hin). simpl in *.
    destruct (child n' es') as [c'|] eqn:Ec; [|discriminate].
    apply child_Some_In in Ec. apply in_map_iff. now exists (n', c'). }
  split; [exact Hperm|]. intros n.
  destruct (child n es) as [c|] eqn:Ec.
  - apply child_Some_In in Ec. specialize (Hall _ Ec). simpl in Hall.
    destruct (child n es'); [exact Hall | discriminate].
  - destruct (child n es') as [c'|] eqn:Ec'; [|exact I].
    apply child_Some_In in Ec'.
    apply (proj1 (child_None_names _ _)) in Ec. apply Ec.
    apply (Permutation_in _ (Permutation_sym Hperm)).
    apply in_map_iff. now exists (n, c').
Qed.

(** Every path leads to the same thing in both trees. *)
Lemma reordered_lookup (a b : node) (p : Path) :
  reordered a b = true ->
  match lookup a p, lookup b p with
  | Some x, Some y => reordered x y = true
  | None, None => True
  | _, _ => False
  end.
Proof.
  revert a b. induction p as [|seg p IH]; intros a b H; [exact H|].
  destruct a as [d|es], b as [d'|es']; try discriminate; [exact I|].
  destruct (reordered_dir _ _ H) as [_ Hc]. specialize (Hc seg). simpl.
  destruct (child seg es) as [c|], (child seg es') as [c'|];
    try contradiction; [|exact I].
  now apply IH.
Qed.

Lemma filter_permutation {A : Type} (f : A -> bool) (l l' : list A) :
  Permutation l l' -> Permutation (filter f l) (filter f l').
Proof.
  induction 1 as [|x l l' Hp IH|x y l|l l' l'' H1 IH1 H2 IH2]; simpl.
  - constructor.
  - destruct (f x); [now constructor | exact IH].
  - destruct (f x), (f y); try reflexivity. apply perm_swap.
  - now apply (Permutation_trans IH1).
Qed.

Section Reordered.

Context {engine : RegexEngine}.
Variables fs fs' : node.
Hypothesis same : reordered fs fs' = true.

Lemma reordered_read_text (p : Path) : read_text fs' p = read_text fs p.
Proof.
  unfold read_text. pose proof (reordered_lookup fs fs' p same) as H.
  destruct (lookup fs p) as [[d|es]|], (lookup fs' p) as [[d'|es']|];
    try contradiction; try discriminate; try reflexivity.
  simpl in H. now rewrite (same_data_eq _ _ H).
Qed.

Lemma reordered_is_dir (p : Path) : is_dir fs' p = is_dir fs p.
Proof.
  unfold is_dir. pose proof (reordered_lookup fs fs' p same) as H.
  destruct (lookup fs p) as [[d|es]|], (lookup fs' p) as [[d'|es']|];
    try contradiction; try discriminate; reflexivity.
Qed.

Lemma reordered_path_exists (p : Path) : path_exists fs' p = path_exists fs p.
Proof.
  unfold path_exists. pose proof (reordered_lookup fs fs' p same) as H.
  destruct (lookup fs p), (lookup fs' p); try contradiction; reflexivity.
Qed.

Lemma reordered_extract_title (p : Path) : extract_title fs' p = extract_title fs p.
Proof. unfold extract_title. now rewrite reordered_read_text. Qed.

Lemma reordered_iterdir (p : Path) (l : list Path) :
  iterdir fs p = Ok l -> exists l', iterdir fs' p = Ok l' /\ Permutation l l'.
Proof.
  unfold iterdir. pose proof (reordered_lookup fs fs' p same) as H.
  destruct (lookup fs p) as [[d|es]|], (lookup fs' p) as [[d'|es']|];
    try contradiction; try discriminate.
  intros E; inversion E; subst. eexists. split; [reflexivity|].
  destruct (reordered_dir _ _ H) as [Hperm _].
  rewrite <- (map_map fst (fun n => p ++ [n])).
  rewrite <- (map_map fst (fun n => p ++ [n]) es').
  now apply Permutation_map.
Qed.

Lemma reordered_glob_md (p : Path) : Permutation (glob_md fs p) (glob_md fs' p).
Proof.
  unfold glob_md. pose proof (reordered_lookup fs fs' p same) as H.
  destruct (lookup fs p) as [[d|es]|], (lookup fs' p) as [[d'|es']|];
    try contradiction; try discriminate; try reflexivity.
  destruct (reordered_dir _ _ H) as [Hperm _].
  rewrite <- (map_map fst (fun n => p ++ [n])).
  rewrite <- (map_map fst (fun n => p ++ [n]) es').
  apply filter_permutation. now apply Permutation_map.
Qed.

End Reordered.

Lemma path_le_antisym (p q : Path) : path_le p q -> path_le q p -> p = q.
Proof. unfold path_le. intros H1 H2. now apply path_ltb_total. Qed.

(** A list has one sorted arrangement. *)
Lemma sorted_unique (l1 l2 : list Path) :
  StronglySorted path_le l1 -> StronglySorted path_le l2 ->
  Permutation l1 l2 -> l1 = l2.
Proof.
  intros H1. revert l2. induction H1 as [|x l1 Hl1 IH Hx]; intros l2 H2 Hp.
  - apply Permutation_nil in Hp. now subst.
  - destruct H2 as [|y l2 Hl2 Hy].
    + apply Permutation_sym, Permutation_nil in Hp. discriminate.
    + assert (x = y).
      { rewrite Forall_forall in Hx, Hy.
        assert (Hxin : In x (y :: l2))
          by (apply (Permutation_in _ Hp); now left).
        assert (Hyin : In y (x :: l1))
          by (apply (Permutation_in _ (Permutation_sym Hp)); now left).
        destruct Hxin as [->|Hxin]; [reflexivity|].
        destruct Hyin as [->|Hyin]; [reflexivity|].
        apply path_le_antisym; auto. }
      subst y. f_equal. apply IH; [exact Hl2|].
      now apply Permutation_cons_inv in Hp.
Qed.

Lemma sorted_permutation (l l' : list Path) :
  Permutation l l' -> sorted l = sorted l'.
Proof.
  intros H. apply sorted_unique; try apply sorted_sorted.
  apply (Permutation_trans (Permutation_sym (sorted_perm l))).
  apply (Permutation_trans H). apply sorted_perm.
Qed.

Lemma filterM_permutation {A : Type} (cond : A -> result bool) (l l' : list A) :
  Permutation l l' ->
  forall r, filterM cond l = Ok r ->
            exists r', filterM cond l' = Ok r' /\ Permutation r r'.
Proof.
  induction 1 as [|x l l' Hp IH|x y l|l l' l'' H1 IH1 H2 IH2]; intros r Hr.
  - exists r. split; [exact Hr | reflexivity].
  - simpl in *. apply bind_Ok_inv in Hr. destruct Hr as [b [Hb Hr]].
    apply bind_Ok_inv in Hr. destruct Hr as [xs [Hxs Hr]].
    inversion Hr; subst. destruct (IH _ Hxs) as [xs' [-> Hxs']].
    rewrite Hb. simpl. eexists. split; [reflexivity|].
    destruct b; [now constructor | exact Hxs'].
  - simpl in *. apply bind_Ok_inv in Hr. destruct Hr as [by_ [Hy Hr]].
    apply bind_Ok_inv in Hr. destruct Hr as [ys [Hys Hr]].
    apply bind_Ok_inv in Hys. destruct Hys as [bx [Hx Hys]].
    apply bind_Ok_inv in Hys. destruct Hys as [xs [Hxs Hys]].
    inversion Hr; inversion Hys; subst.
    rewrite Hx, Hy, Hxs. simpl. eexists. split; [reflexivity|].
    destruct bx, by_; try reflexivity. apply perm_swap.
  - destruct (IH1 _ Hr) as [r1 [Hr1 Hp1]].
    destruct (IH2 _ Hr1) as [r2 [Hr2 Hp2]].
    exists r2. split; [exact Hr2 | now apply (Permutation_trans Hp1)].
Qed.

Section ReorderedSummary.

Context {engine : RegexEngine}.
Variables fs fs' : node.
Hypothesis same : reordered fs fs' = true.
Variable book_root : Path.
Variable exclude : list string.

Lemma reordered_section_line (f : Path) :
  section_line fs' book_root f = section_line fs book_root f.
Proof. unfold section_line. now rewrite (reordered_extract_title fs fs' same). Qed.

Lemma reordered_root_line (f : Path) :
  root_line fs' book_root f = root_line fs book_root f.
Proof. unfold root_line. now rewrite (reordered_extract_title fs fs' same). Qed.

Lemma reordered_chapter_lines (d : Path) (ls : list string) :
  chapter_lines fs book_root exclude d = Ok ls ->
  chapter_lines fs' book_root exclude d = Ok ls.
Proof.
  unfold chapter_lines.
  rewrite (reordered_path_exists fs fs' same).
  rewrite (reordered_extract_title fs fs' same).
  pose proof (reordered_glob_md fs fs' same d) as Hg.
  destruct (path_exists fs (d ++ ["README.md"])).
  - destruct (relative_to (d ++ ["README.md"]) book_root) as [rel|e];
      [|discriminate]. cbn [bind].
    intros H. apply bind_Ok_inv in H. destruct H as [files [Hf H]].
    destruct (filterM_permutation _ _ _ Hg _ Hf) as [files' [-> Hp]].
    cbn [bind]. rewrite <- (sorted_permutation _ _ Hp).
    rewrite (mapM_ext _ (section_line fs book_root));
      [exact H | intros; apply reordered_section_line].
  - intros H. apply bind_Ok_inv in H. destruct H as [files [Hf H]].
    destruct (filterM_permutation _ _ _ Hg _ Hf) as [files' [-> Hp]].
    cbn [bind]. rewrite <- (sorted_permutation _ _ Hp).
    destruct (sorted files); [exact H|].
    rewrite (mapM_ext _ (section_line fs book_root));
      [exact H | intros; apply reordered_section_line].
Qed.

Lemma reordered_summary_content (content : list string) :
  summary_content fs book_root exclude = Ok content ->
  summary_content fs' book_root exclude = Ok content.
Proof.
  unfold summary_content.
  rewrite !(reordered_path_exists fs fs' same), (reordered_is_dir fs fs' same).
  rewrite (reordered_extract_title fs fs' same).
  destruct (path_exists fs (book_root ++ ["chapters"])
            && is_dir fs (book_root ++ ["chapters"])).
  - intros H. apply bind_Ok_inv in H. destruct H as [ds [Hds H]].
    apply bind_Ok_inv in H. destruct H as [dirs [Hdirs H]].
    apply bind_Ok_inv in H. destruct H as [chapters [Hch H]].
    destruct (reordered_iterdir fs fs' same _ _ Hds) as [ds' [-> Hp]].
    cbn [bind].
    rewrite (filterM_ext _ (fun d => if is_dir fs d
                                     then x <- is_excluded d exclude ;; Ok (negb x)
                                     else Ok false))
      by (intros; now rewrite (reordered_is_dir fs fs' same)).
    destruct (filterM_permutation _ _ _ Hp _ Hdirs) as [dirs' [-> Hp']].
    cbn [bind]. rewrite <- (sorted_permutation _ _ Hp').
    assert (Hch' : mapM (chapter_lines fs' book_root exclude) (sorted dirs)
                   = Ok chapters).
    { apply (proj2 (mapM_Forall2 _ _ _)).
      apply (proj1 (mapM_Forall2 _ _ _)) in Hch.
      clear -Hch same. induction Hch; constructor; auto.
      now apply reordered_chapter_lines. }
    rewrite Hch'. exact H.
  - intros H. apply bind_Ok_inv in H. destruct H as [files [Hf H]].
    destruct (filterM_permutation _ _ _ (reordered_glob_md fs fs' same book_root)
                _ Hf) as [files' [-> Hp]].
    cbn [bind]. rewrite <- (sorted_permutation _ _ Hp).
    rewrite (mapM_ext _ (root_line fs book_root));
      [exact H | intros; apply reordered_root_line].
Qed.

End ReorderedSummary.

Lemma reordered_write_file (a b a' : node) (p : Path) (data : string) :
  reordered a b = true -> write_file a p data = Some a' ->
  exists b', write_file b p data = Some b'.
Proof.
  revert a b a'. induction p as [|seg p IH]; intros a b a' H Hw.
  - destruct a as [d|es], b as [d'|es']; try discriminate. simpl. eauto.
  - destruct a as [d|es], b as [d'|es']; try discriminate.
    destruct (reordered_dir _ _ H) as [_ Hc]. specialize (Hc seg).
    simpl in *.
    destruct (child seg es) as [c|], (child seg es') as [c'|];
      try contradiction.
    + destruct (write_file c p data) as [c1|] eqn:Ew; [|discriminate].
      destruct (IH _ _ _ Hc Ew) as [c2 ->]. eauto.
    + destruct p; [eauto | discriminate].
Qed.

Section ListingOrder.

Context {engine : RegexEngine}.

(** X21.  The document does not depend on the order in which the
    operating system lists the entries of directories: when a run returns
    on a tree, a run on the same tree listed in any other order returns
    the same document. *)
Theorem listing_order_irrelevant (fs fs' fs1 : node)
  (book_root output_file : Path) (exclude : option (list string))
  (content : list string) :
  reordered fs fs' = true ->
  generate_summary fs book_root output_file exclude = (fs1, Ok content) ->
  exists fs1',
    generate_summary fs' book_root output_file exclude = (fs1', Ok content).
Proof.
  intros Hre H. apply generate_summary_run_inv in H. destruct H as [Hc [He Hw]].
  destruct (reordered_write_file _ _ _ _ _ Hre Hw) as [fs1' Hw'].
  exists fs1'. apply generate_summary_run_intro; [|exact He | exact Hw'].
  exact (reordered_summary_content fs fs' Hre _ _ _ Hc).
Qed.

End ListingOrder.

Lemma listing_order_irrelevant_witness :
  exists fs1',
    generate_summary (engine := mini_engine) (rev_tree fs_book) book_root_ex
      book_output None = (fs1', Ok book_content).
Proof.
  apply (listing_order_irrelevant (engine := mini_engine) fs_book
           (rev_tree fs_book) (fst book_run) book_root_ex book_output None
           book_content).
  - vm_compute. reflexivity.
  - vm_compute. reflexivity.
Defined.

(** X22.  The number that [create_chapter] gives a chapter when it is
    given none does not depend on the order in which the operating system
    lists [chapters/]. *)
Theorem auto_number_any_order (fs fs' : node) (book_root : Path) (k : Z) :
  reordered fs fs' = true ->
  number_used fs book_root None k -> number_used fs' book_root None k.
Proof.
  intros Hre. unfold number_used.
  rewrite (reordered_path_exists fs fs' Hre).
  destruct (path_exists fs (book_root ++ ["chapters"])); [|auto].
  intros Hk.
  assert (Hd : is_dir fs' (book_root ++ ["chapters"]) = true).
  { rewrite (reordered_is_dir fs fs' Hre).
    unfold next_chapter_number, iterdir, is_dir in *.
    destruct (lookup fs (book_root ++ ["chapters"])) as [[d|es]|];
      try discriminate; reflexivity. }
  destruct (next_chapter_number_total _ _ Hd) as [k2 Hk2]. rewrite Hk2.
  f_equal.
  destruct (next_chapter_number_above _ _ _ Hk) as [H1 Ha].
  destruct (next_chapter_number_above _ _ _ Hk2) as [H2 Ha2].
  destruct (next_chapter_number_attained _ _ _ Hk) as [->|[n [Hn Hnum]]];
    destruct (next_chapter_number_attained _ _ _ Hk2) as [->|[n2 [Hn2 Hnum2]]];
    try reflexivity.
  - rewrite (reordered_is_dir fs fs' Hre) in Hn2.
    pose proof (Ha _ _ Hn2 Hnum2). lia.
  - rewrite <- (reordered_is_dir fs fs' Hre) in Hn.
    pose proof (Ha2 _ _ Hn Hnum). lia.
  - rewrite (reordered_is_dir fs fs' Hre) in Hn2.
    rewrite <- (reordered_is_dir fs fs' Hre) in Hn.
    pose proof (Ha _ _ Hn2 Hnum2). pose proof (Ha2 _ _ Hn Hnum). lia.
Qed.

Lemma auto_number_any_order_witness :
  number_used (rev_tree fs_book) book_root_ex None 11.
Proof.
  apply (auto_number_any_order fs_book (rev_tree fs_book) book_root_ex 11).
  - vm_compute. reflexivity.
  - vm_compute. reflexivity.
Defined.

(* ================================================================== *)
(** * A missing root, and what a run leaves in the output file *)

Example encodable_ex :
  PyStr.encodable "plain text" = true /\
  PyStr.encodable ("caf" +++ String "195" (String "169" "")) = true /\
  PyStr.encodable latin1_name = false /\
  PyStr.encodable (String "237" (String "160" (String "128" ""))) = false /\
  PyStr.encodable (String "192" (String "175" "")) = false.
Proof. repeat split; reflexivity. Qed.


Section MissingRoot.

Context {engine : RegexEngine}.




End MissingRoot.


(** The run on the book with the Latin-1 name: the file that held [old]
    is left with the header and the line of [a.md]; the lines of the other
    two files are not written. *)
Example partial_output_ex :
  snd (generate_summary (engine := mini_engine) fs_latin1 latin1_root_ex
         (latin1_root_ex ++ ["SUMMARY.md"]) None) = Raise UnicodeEncodeError /\
  read_text
    (fst (generate_summary (engine := mini_engine) fs_latin1 latin1_root_ex
            (latin1_root_ex ++ ["SUMMARY.md"]) None))
    (latin1_root_ex ++ ["SUMMARY.md"])
  = Some ("# Summary" +++ PyStr.NL +++ PyStr.NL +++ "* [A](a.md)" +++ PyStr.NL).
Proof. split; vm_compute; reflexivity. Qed.

